(** * Olympic data standardisation: a shallow embedding

    The development follows two Python modules:
    - [olympic_data_standardization.py]: the class
      [OlympicDataStandardizer] and its pipeline stages;
    - [olympic_analysis_utils.py]: the reporting and feature helpers.

    A pandas [DataFrame] is a list of column labels together with a list of
    records (one finite map from column label to cell per row).  Methods of
    the standardizer are functions from the object's state to a [result]
    holding the new state and what the method printed or returned; a Python
    exception is the [Raise] constructor of [result]. *)

From Stdlib Require Import ZArith QArith String Ascii List Bool Lia DecimalString.
From stdpp Require Import base option list gmap strings fin_maps.

Import ListNotations.
Local Open Scope string_scope.
Local Open Scope list_scope.

(** ** Cells, rows, series and frames *)

(** A cell holds text, a number, or pandas' missing marker.  Numbers are
    exact rationals: the rounding of binary floating point is not part of
    the model. *)
Inductive cell : Type :=
| Str (s : string)
| Num (q : Q)
| NaN.

(** The exceptions the embedded code can raise. *)
Inductive exn : Type :=
| KeyError
| ValueError
| TypeError
| AttributeError
| ZeroDivisionError.

Inductive result (A : Type) : Type :=
| Ok (a : A)
| Raise (e : exn).

#[global] Instance Q_eq_dec : EqDecision Q.
Proof. solve_decision. Defined.

#[global] Instance cell_eq_dec : EqDecision cell.
Proof. solve_decision. Defined.

#[global] Instance exn_eq_dec : EqDecision exn.
Proof. solve_decision. Defined.

Arguments Ok {A} a.
Arguments Raise {A} e.

#[global] Instance result_ret : MRet result := fun A a => Ok a.
#[global] Instance result_bind : MBind result :=
  fun A B f m => match m with Ok a => f a | Raise e => Raise e end.

Definition raises {A} (m : result A) : bool :=
  match m with Ok _ => false | Raise _ => true end.

Abbreviation row := (gmap string cell).
Abbreviation Series := (list cell).

Record DataFrame : Type := mkFrame {
  columns : list string;
  rows : list row
}.

(** [pd.DataFrame()]: no columns, no rows. *)
Definition empty_frame : DataFrame := mkFrame [] [].

(** [len(df)] *)
Definition len (df : DataFrame) : nat := length (rows df).

(** [c in df.columns] *)
Definition has_column (c : string) (df : DataFrame) : bool :=
  bool_decide (c ∈ columns df).

(** The value a record shows under label [c]; a record that lacks the label
    shows the missing marker. *)
Definition cell_of (c : string) (r : row) : cell := default NaN (r !! c).

(** The values of column [c], top to bottom. *)
Definition column (c : string) (df : DataFrame) : Series :=
  cell_of c <$> rows df.

(** [df[c]]: a [KeyError] when the label is not a column. *)
Definition getitem (c : string) (df : DataFrame) : result Series :=
  if has_column c df then Ok (column c df) else Raise KeyError.

(** [df[c] = s]: overwrite column [c], or add it as the last column. *)
Definition setitem (c : string) (s : Series) (df : DataFrame) : DataFrame :=
  mkFrame (if has_column c df then columns df else columns df ++ [c])
          (zip_with (fun v r => <[c := v]> r) s (rows df)).

(** [df[mask]]: keep the rows whose mask entry is [True]. *)
Definition loc_mask (mask : list bool) (df : DataFrame) : DataFrame :=
  mkFrame (columns df) (snd <$> List.filter fst (zip mask (rows df))).

(** Every record binds exactly the labels of the frame. *)
Definition well_formed (df : DataFrame) : Prop :=
  Forall (fun r : row => dom r = list_to_set (columns df)) (rows df).

(** *** Element-wise operators *)

(** [a == b] on cells: the missing marker equals nothing, itself included. *)
Definition cell_eqb (a b : cell) : bool :=
  match a, b with
  | Str s, Str t => bool_decide (s = t)
  | Num p, Num q => Qeq_bool p q
  | _, _ => false
  end.

(** [series != value] *)
Definition series_ne (v : cell) (s : Series) : list bool :=
  (fun x => negb (cell_eqb x v)) <$> s.

(** [series == value] *)
Definition series_eq (v : cell) (s : Series) : list bool :=
  (fun x => cell_eqb x v) <$> s.

Definition notna_cell (x : cell) : bool :=
  match x with NaN => false | _ => true end.

(** [series.notna()] and [series.isna()] *)
Definition notna (s : Series) : list bool := notna_cell <$> s.
Definition isna (s : Series) : list bool := (fun x => negb (notna_cell x)) <$> s.

(** Equality as [unique] and [groupby] see it: missing markers are alike. *)
Definition cell_same (a b : cell) : bool :=
  match a, b with
  | NaN, NaN => true
  | _, _ => cell_eqb a b
  end.

Fixpoint unique_from (seen : list cell) (s : Series) : Series :=
  match s with
  | [] => []
  | x :: s' =>
      if existsb (cell_same x) seen then unique_from seen s'
      else x :: unique_from (x :: seen) s'
  end.

(** [series.unique()]: the distinct values in order of first appearance. *)
Definition unique (s : Series) : Series := unique_from [] s.

(** [series.nunique()]: distinct values, the missing marker not counted. *)
Definition nunique (s : Series) : nat :=
  length (unique (List.filter notna_cell s)).

(** [series.replace(mapping)]: one pass, text cells only. *)
Definition replace_cell (mapping : gmap string string) (x : cell) : cell :=
  match x with
  | Str s => match mapping !! s with Some t => Str t | None => Str s end
  | _ => x
  end.

Definition series_replace (mapping : gmap string string) (s : Series) : Series :=
  replace_cell mapping <$> s.

(** ** The standardizer object *)

Record OlympicDataStandardizer : Type := mkStd {
  athletes : DataFrame;
  hosts : DataFrame;
  medals : DataFrame;
  programs : DataFrame;
  active_athletes : option DataFrame
}.

Definition with_athletes (a : DataFrame) (st : OlympicDataStandardizer) :=
  mkStd a (hosts st) (medals st) (programs st) (active_athletes st).

Definition with_medals (m : DataFrame) (st : OlympicDataStandardizer) :=
  mkStd (athletes st) (hosts st) m (programs st) (active_athletes st).

Definition with_active (a : DataFrame) (st : OlympicDataStandardizer) :=
  mkStd (athletes st) (hosts st) (medals st) (programs st) (Some a).

(** ** handle_historical_anomalies *)

Definition edition_1906 : string := "1906 Summer Olympics".

(** [table[table['edition'] != '1906 Summer Olympics']] with the number of
    records deleted, as both tables are treated. *)
Definition drop_1906 (table : DataFrame) : result (DataFrame * nat) :=
  ed ← getitem "edition" table;
  let initial_count := len table in
  let table' := loc_mask (series_ne (Str edition_1906) ed) table in
  Ok (table', initial_count - len table').

(** Python's [needle in hay] on text. *)
Fixpoint contains (needle hay : string) : bool :=
  String.prefix needle hay
  || match hay with
     | EmptyString => false
     | String _ hay' => contains needle hay'
     end.

(** What the code takes from the Python runtime and from pandas without
    defining it: reading a number out of text, and printing one. *)
Class PyRuntime : Type := {
  (** [pd.to_numeric] on one text cell; [None] when the text is no number *)
  to_numeric_str : string -> option Q;
  (** [str(x)] for a number *)
  float_str : Q -> string;
  (** [int(s)] for text; [None] when it raises [ValueError] *)
  int_of_str : string -> option Z
}.

Definition is_str (x : cell) : bool :=
  match x with Str _ => true | _ => false end.


(** The order [sorted] uses inside one kind of value; a comparison with the
    missing marker is false. *)
Definition cell_leb (a b : cell) : bool :=
  match a, b with
  | Str s, Str t => String.leb s t
  | Num p, Num q => Qle_bool p q
  | _, _ => false
  end.

Fixpoint insert_sorted (x : cell) (l : list cell) : list cell :=
  match l with
  | [] => [x]
  | y :: l' => if cell_leb x y then x :: l else y :: insert_sorted x l'
  end.

(** [sorted(values)]: comparing text with a number (the missing marker is
    a float) raises [TypeError].  Where the missing marker sits among
    numbers is left to this insertion sort; the callers below only test
    membership. *)
Definition py_sorted (l : list cell) : result (list cell) :=
  if existsb is_str l && existsb (fun x => negb (is_str x)) l
  then Raise TypeError
  else Ok (foldr insert_sorted [] l).

Record AnomalyReport : Type := mkAnomalyReport {
  deleted_1906 : nat;
  deleted_medals_1906 : option nat;
  has_1940 : bool;
  has_1944 : bool
}.

Section Runtime.
Context `{PyRuntime}.

(** [str(x)] *)
Definition py_str (x : cell) : string :=
  match x with
  | Str s => s
  | Num q => float_str q
  | NaN => "nan"
  end.

Definition handle_historical_anomalies (st : OlympicDataStandardizer)
  : result (OlympicDataStandardizer * AnomalyReport) :=
  '(ath, deleted) ← drop_1906 (athletes st);
  '(med, deleted_medals) ←
     (if has_column "edition" (medals st)
      then '(m, d) ← drop_1906 (medals st); Ok (m, Some d)
      else Ok (medals st, None));
  editions_in_data ←
     (if has_column "edition" ath
      then py_sorted (unique (column "edition" ath))
      else Ok []);
  let has40 := existsb (fun ed => contains "1940" (py_str ed)) editions_in_data in
  let has44 := existsb (fun ed => contains "1944" (py_str ed)) editions_in_data in
  Ok (with_medals med (with_athletes ath st),
      mkAnomalyReport deleted deleted_medals has40 has44).

End Runtime.

(** ** standardize_country_codes *)

Definition country_mapping : gmap string string :=
  <["URS" := "RUS"]> (<["EUN" := "RUS"]> (<["GDR" := "GER"]> (<["FRG" := "GER"]> ∅))).

Definition mixed_team : string := "MIX".

Definition post_soviet_states : list string :=
  ["LTU"; "KAZ"; "UKR"; "BLR"; "EST"; "LAT"; "GEO"; "ARM"; "AZE"].

(** The body both tables go through: substitute by [mapping], count the
    records that now carry [sentinel], drop them.  The method below calls
    it with [country_mapping] and [mixed_team]. *)
Definition consolidate (mapping : gmap string string) (sentinel : string)
    (table : DataFrame) : result (DataFrame * nat) :=
  noc ← getitem "noc" table;
  let table1 := setitem "noc" (series_replace mapping noc) table in
  noc1 ← getitem "noc" table1;
  let mixed_team_count := len (loc_mask (series_eq (Str sentinel) noc1) table1) in
  Ok (loc_mask (series_ne (Str sentinel) noc1) table1, mixed_team_count).

(** [code in series.unique()] and [code in series.value_counts()] *)
Definition code_in (code : string) (s : Series) : bool :=
  existsb (fun x => cell_eqb x (Str code)) (unique s).

(** [series.value_counts().get(code, 0)] *)
Definition count_code (code : string) (s : Series) : nat :=
  length (List.filter (fun x => cell_eqb x (Str code)) s).

Record CodeReport : Type := mkCodeReport {
  mixed_team_count : option nat;
  russia_total : option nat;
  germany_total : option nat;
  medals_mapped : bool;
  found_states : list string
}.

Definition standardize_country_codes (st : OlympicDataStandardizer)
  : result (OlympicDataStandardizer * CodeReport) :=
  '(ath, dropped, rus, ger) ←
     (if has_column "noc" (athletes st)
      then
        '(a, n) ← consolidate country_mapping mixed_team (athletes st);
        let final := column "noc" a in
        Ok (a, Some n,
            if code_in "RUS" final then Some (count_code "RUS" final) else None,
            if code_in "GER" final then Some (count_code "GER" final) else None)
      else Ok (athletes st, None, None, None));
  '(med, mapped) ←
     (if has_column "noc" (medals st)
      then '(m, _) ← consolidate country_mapping mixed_team (medals st); Ok (m, true)
      else Ok (medals st, false));
  noc ← getitem "noc" ath;
  let found := List.filter (fun s => code_in s noc) post_soviet_states in
  Ok (with_medals med (with_athletes ath st),
      mkCodeReport dropped rus ger mapped found).

(** ** create_active_athletes_subset *)

Definition is_digit (a : ascii) : bool :=
  let n := nat_of_ascii a in (48 <=? n)%nat && (n <=? 57)%nat.

Definition digit_val (a : ascii) : Z := Z.of_nat (nat_of_ascii a) - 48.

(** [re.search(r'(\d{4})', s)]: the leftmost four digits in a row.  Text is
    a sequence of bytes here, so [\d] is an ASCII digit. *)
Fixpoint search_d4 (s : string) : option (ascii * ascii * ascii * ascii) :=
  match s with
  | EmptyString => None
  | String a s' =>
      match s' with
      | String b (String c (String d _)) =>
          if is_digit a && is_digit b && is_digit c && is_digit d
          then Some (a, b, c, d)
          else search_d4 s'
      | _ => None
      end
  end.

Definition d4_value (m : ascii * ascii * ascii * ascii) : Z :=
  let '(a, b, c, d) := m in
  1000 * digit_val a + 100 * digit_val b + 10 * digit_val c + digit_val d.

(** One cell of [series.str.extract(r'(\d{4})').astype(float)]: the match
    read as a number; no match, or a cell that is not text, is missing. *)
Definition extract_year_cell (x : cell) : cell :=
  match x with
  | Str s =>
      match search_d4 s with
      | Some m => Num (inject_Z (d4_value m))
      | None => NaN
      end
  | _ => NaN
  end.

Definition extract_year (s : Series) : Series := extract_year_cell <$> s.

(** [series.str]: pandas refuses the accessor with [AttributeError] on a
    column that holds values none of which is text.  A column takes the
    dtype [read_csv] infers from its cells: one without any cell, or with a
    text cell, is of object dtype. *)
Definition str_accessor (s : Series) : result Series :=
  match s with
  | [] => Ok s
  | _ => if existsb is_str s then Ok s else Raise AttributeError
  end.

(** [series >= cutoff_year] on a numeric series: false on a missing value. *)
Definition cell_ge (cutoff : Z) (x : cell) : bool :=
  match x with
  | Num q => Qle_bool (inject_Z cutoff) q
  | _ => false
  end.

Definition series_ge (cutoff : Z) (s : Series) : list bool := cell_ge cutoff <$> s.

(** [a / b * 100] on two [len] results: Python's true division. *)
Definition percent_of (a b : nat) : result Q :=
  if (b =? 0)%nat then Raise ZeroDivisionError
  else Ok (Qred (inject_Z (Z.of_nat a) / inject_Z (Z.of_nat b) * 100)).

Definition year_columns : list string := ["year"; "edition_year"; "games_year"].

Record SubsetReport : Type := mkSubsetReport {
  total_athletes : nat;
  active_count : nat;
  inactive_count : nat;
  retention_pct : Q
}.

(** "Determine the year column": the first of the recognised names that is
    a column; failing that, a new [year] column read out of [edition];
    failing that, [ValueError]. *)
Definition resolve_year_column (ath : DataFrame) : result (DataFrame * string) :=
  match List.find (fun col => has_column col ath) year_columns with
  | Some col => Ok (ath, col)
  | None =>
      if has_column "edition" ath
      then
        editions ← str_accessor (column "edition" ath);
        Ok (setitem "year" (extract_year editions) ath, "year")
      else Raise ValueError
  end.

Section Subset.
Context `{PyRuntime}.

(** One cell of [pd.to_numeric(series, errors='coerce')] *)
Definition to_numeric_cell (x : cell) : cell :=
  match x with
  | Str s => match to_numeric_str s with Some q => Num q | None => NaN end
  | _ => x
  end.

Definition to_numeric (s : Series) : Series := to_numeric_cell <$> s.

(** Returns the new state, the frame the method returns, and the figures it
    prints.  The top-ten listing printed at the end reads
    [active_athletes] only and is left out. *)
Definition create_active_athletes_subset (cutoff_year : Z)
    (st : OlympicDataStandardizer)
  : result (OlympicDataStandardizer * DataFrame * SubsetReport) :=
  '(ath, year_col) ← resolve_year_column (athletes st);
  ys ← getitem year_col ath;
  let ath := setitem year_col (to_numeric ys) ath in
  ys ← getitem year_col ath;
  let active := loc_mask (series_ge cutoff_year ys) ath in
  let total := len ath in
  let n_active := len active in
  pct ← percent_of n_active total;
  Ok (with_active active (with_athletes ath st), active,
      mkSubsetReport total n_active (total - n_active) pct).

End Subset.

(** ** validate_data_quality *)

Inductive QualityLine : Type :=
| YearRange (lo hi : Z)
| GapYear (year : Z) (properly_missing : bool)
| BannedCode (code : string) (properly_removed : bool)
| NullRate (col : string) (null_count : nat) (null_pct : option Q).

Definition expected_gaps : list Z := [1940; 1944]%Z.
Definition banned_codes : list string := ["MIX"; "URS"; "GDR"; "FRG"; "EUN"].
Definition null_checked : list string := ["noc"; "medal"; "sport"].

(** [a < b] inside one kind of value *)
Definition cell_ltb (a b : cell) : bool := cell_leb a b && negb (cell_leb b a).

(** [min(values)] and [max(values)] on a list *)
Definition py_min (l : list cell) : result cell :=
  match l with
  | [] => Raise ValueError
  | x :: l' => Ok (fold_left (fun m y => if cell_ltb y m then y else m) l' x)
  end.

Definition py_max (l : list cell) : result cell :=
  match l with
  | [] => Raise ValueError
  | x :: l' => Ok (fold_left (fun m y => if cell_ltb m y then y else m) l' x)
  end.

(** [int(x)] on a number: towards zero. *)
Definition truncate (q : Q) : Z := Z.quot (Qnum q) (Zpos (Qden q)).

(** [series.isna().sum()] *)
Definition null_count_of (s : Series) : nat :=
  length (List.filter (fun x => negb (notna_cell x)) s).

(** [null_count / len(df) * 100] where [null_count] is a numpy integer:
    dividing by zero gives numpy's [nan], not an exception. *)
Definition null_percent (n total : nat) : option Q :=
  if (total =? 0)%nat then None
  else Some (Qred (inject_Z (Z.of_nat n) / inject_Z (Z.of_nat total) * 100)).

Section Validate.
Context `{PyRuntime}.

(** [int(x)] *)
Definition py_int (x : cell) : result Z :=
  match x with
  | Num q => Ok (truncate q)
  | Str s => match int_of_str s with Some z => Ok z | None => Raise ValueError end
  | NaN => Raise ValueError
  end.

Definition check_years (df : DataFrame) : result (list QualityLine) :=
  if has_column "year" df then
    years ← py_sorted (unique (List.filter notna_cell (column "year" df)));
    lo ← py_min years;
    lo ← py_int lo;
    hi ← py_max years;
    hi ← py_int hi;
    Ok (YearRange lo hi ::
        ((fun g => GapYear g (negb (existsb (fun y => cell_eqb (Num (inject_Z g)) y) years)))
           <$> expected_gaps))
  else Ok [].

Definition check_codes (df : DataFrame) : list QualityLine :=
  if has_column "noc" df then
    (fun code => BannedCode code (negb (code_in code (column "noc" df)))) <$> banned_codes
  else [].

Definition check_nulls (df : DataFrame) : list QualityLine :=
  (fun col => NullRate col (null_count_of (column col df))
                (null_percent (null_count_of (column col df)) (len df)))
    <$> List.filter (fun col => has_column col df) null_checked.

(** The method returns [None]; the value here is what it prints. *)
Definition validate_data_quality (st : OlympicDataStandardizer)
  : result (list QualityLine) :=
  ys ← check_years (athletes st);
  Ok (ys ++ check_codes (athletes st) ++ check_nulls (athletes st)).

End Validate.

(** ** The pipeline

    [load_data] and [save_standardized_data] are file access and
    [handle_dual_nationality_medals] only prints, so the run starts from the
    loaded object and ends after validation. *)

Section Pipeline.
Context `{PyRuntime}.

Definition run_full_standardization (st : OlympicDataStandardizer)
  : result OlympicDataStandardizer :=
  '(st, _) ← handle_historical_anomalies st;
  '(st, _) ← standardize_country_codes st;
  '(st, _, _) ← create_active_athletes_subset 2020 st;
  _ ← validate_data_quality st;
  Ok st.

End Pipeline.

(** ** olympic_analysis_utils: feature tables *)

Definition count_of (n : nat) : cell := Num (inject_Z (Z.of_nat n)).

(** [pd.DataFrame(records)] for a list of dicts that all have the keys
    [labels], in that order; no record, no column. *)
Definition frame_of_records (labels : list string) (records : list row) : DataFrame :=
  match records with
  | [] => empty_frame
  | _ => mkFrame labels records
  end.

Record IndexedFrame : Type := mkIndexed {
  index : Series;
  body : DataFrame
}.

(** [df.set_index(c)] *)
Definition set_index (c : string) (df : DataFrame) : result IndexedFrame :=
  if has_column c df
  then Ok (mkIndexed (column c df)
             (mkFrame (List.filter (fun c' => negb (bool_decide (c' = c))) (columns df))
                      (delete c <$> rows df)))
  else Raise KeyError.

(** [len(medals[medals['medal'] == tier])] *)
Definition tier_count (tier : string) (medalists : DataFrame) : nat :=
  len (loc_mask (series_eq (Str tier) (column "medal" medalists)) medalists).

(** The dict [feat] built for one value of [noc]. *)
Definition country_feature (active_df : DataFrame) (noc : cell) : row :=
  let country_data := loc_mask (series_eq noc (column "noc" active_df)) active_df in
  let feat : row :=
    <["unique_events" :=
        if has_column "event" country_data
        then count_of (nunique (column "event" country_data)) else count_of 0]>
    (<["unique_sports" :=
        if has_column "sport" country_data
        then count_of (nunique (column "sport" country_data)) else count_of 0]>
    (<["athlete_count" := count_of (len country_data)]>
    (<["noc" := noc]> ∅))) in
  if has_column "medal" country_data then
    let medalists := loc_mask (notna (column "medal" country_data)) country_data in
    <["total_medals" := count_of (len medalists)]>
    (<["bronze_count" := count_of (tier_count "Bronze" medalists)]>
    (<["silver_count" := count_of (tier_count "Silver" medalists)]>
    (<["gold_count" := count_of (tier_count "Gold" medalists)]> feat)))
  else feat.

Definition feature_labels (active_df : DataFrame) : list string :=
  ["noc"; "athlete_count"; "unique_sports"; "unique_events"]
  ++ (if has_column "medal" active_df
      then ["gold_count"; "silver_count"; "bronze_count"; "total_medals"]
      else []).

Definition create_country_features (active_df : DataFrame) : result IndexedFrame :=
  nocs ← getitem "noc" active_df;
  let features := country_feature active_df <$> unique nocs in
  set_index "noc" (frame_of_records (feature_labels active_df) features).

(** *** groupby *)

(** The group label of a record. *)
Definition key_of (by_ : list string) (r : row) : list cell :=
  (fun c => cell_of c r) <$> by_.

Fixpoint key_same (k1 k2 : list cell) : bool :=
  match k1, k2 with
  | [], [] => true
  | a :: k1', b :: k2' => cell_same a b && key_same k1' k2'
  | _, _ => false
  end.

(** Labels of one column in the order groupby lists them: numbers before
    text, each kind in its own order. *)
Definition label_leb (a b : cell) : bool :=
  match a, b with
  | Num p, Num q => Qle_bool p q
  | Str s, Str t => String.leb s t
  | Num _, Str _ => true
  | _, _ => false
  end.

Fixpoint key_leb (k1 k2 : list cell) : bool :=
  match k1, k2 with
  | [], _ => true
  | _ :: _, [] => false
  | a :: k1', b :: k2' =>
      if cell_same a b then key_leb k1' k2' else label_leb a b
  end.

Fixpoint insert_key (k : list cell) (l : list (list cell)) : list (list cell) :=
  match l with
  | [] => [k]
  | k' :: l' => if key_leb k k' then k :: l else k' :: insert_key k l'
  end.

Fixpoint unique_keys_from (seen l : list (list cell)) : list (list cell) :=
  match l with
  | [] => []
  | k :: l' =>
      if existsb (key_same k) seen then unique_keys_from seen l'
      else k :: unique_keys_from (k :: seen) l'
  end.

(** The groups of [df.groupby(by_)]: records with a missing label are left
    out, groups come sorted by label. *)
Definition group_keys (by_ : list string) (df : DataFrame) : list (list cell) :=
  foldr insert_key []
    (unique_keys_from [] (List.filter (forallb notna_cell) (key_of by_ <$> rows df))).

Definition group_rows (by_ : list string) (k : list cell) (df : DataFrame) : list row :=
  List.filter (fun r => key_same (key_of by_ r) k) (rows df).

(** [df.groupby(by_)]: a [KeyError] when a label is not a column. *)
Definition groupby (by_ : list string) (df : DataFrame)
  : result (list (list cell * list row)) :=
  if forallb (fun c => has_column c df) by_
  then Ok ((fun k => (k, group_rows by_ k df)) <$> group_keys by_ df)
  else Raise KeyError.

(** The record of one group after [reset_index]: its labels under the
    grouping columns, then the aggregated values. *)
Definition group_record (by_ : list string) (k : list cell)
    (values : list (string * cell)) : row :=
  list_to_map (zip by_ k ++ values).

(** [df.groupby(by_).size().reset_index(name='count')] *)
Definition groupby_size (by_ : list string) (df : DataFrame) : result DataFrame :=
  groups ← groupby by_ df;
  Ok (mkFrame (by_ ++ ["count"])
        ((fun g : list cell * list row =>
            group_record by_ g.1 [("count", count_of (length g.2))]) <$> groups)).

Definition create_medal_trends (athletes_df : DataFrame) : result DataFrame :=
  if has_column "medal" athletes_df && has_column "year" athletes_df then
    let medalists := loc_mask (notna (column "medal" athletes_df)) athletes_df in
    groupby_size ["year"; "noc"; "medal"] medalists
  else Ok empty_frame.

(** How [agg] reduces one column of a group. *)
Inductive aggregation : Type :=
| NotnaSum   (** [lambda x: x.notna().sum()] *)
| AggCount   (** ['count']: values that are not missing *)
| AggSize.   (** ['size']: all records *)

Definition aggregate (how : aggregation) (s : Series) : cell :=
  match how with
  | NotnaSum | AggCount => count_of (length (List.filter notna_cell s))
  | AggSize => count_of (length s)
  end.

(** [df.groupby(by_).agg(spec).reset_index()] with the columns renamed to
    [names]: every key of [spec] has to be a column of the frame. *)
Definition groupby_agg (by_ : list string) (spec : list (string * aggregation))
    (names : list string) (df : DataFrame) : result DataFrame :=
  groups ← groupby by_ df;
  if forallb (fun c => has_column c df) (fst <$> spec) then
    Ok (mkFrame names
          ((fun g : list cell * list row =>
              list_to_map (zip names
                (g.1 ++ ((fun cs : string * aggregation =>
                            aggregate cs.2 (cell_of cs.1 <$> g.2)) <$> spec))))
             <$> groups))
  else Raise KeyError.

Definition create_sport_strength (active_df : DataFrame) : result DataFrame :=
  if has_column "sport" active_df && has_column "noc" active_df then
    groupby_agg ["noc"; "sport"]
      [("medal", NotnaSum);
       ("athlete_id", if has_column "athlete_id" active_df then AggCount else AggSize)]
      ["noc"; "sport"; "medals"; "athletes"] active_df
  else Ok empty_frame.

(** ** olympic_analysis_utils: get_data_summary *)


Definition numbers_of (s : Series) : list Q :=
  omap (fun x => match x with Num q => Some q | _ => None end) s.

Definition texts_of (s : Series) : list string :=
  omap (fun x => match x with Str t => Some t | _ => None end) s.




Section Summary.
Context `{PyRuntime}.


End Summary.

(** ** Names for intermediate tables *)

(** The table after the substitution step of [consolidate]. *)
Definition substituted (mapping : gmap string string) (table : DataFrame) : DataFrame :=
  setitem "noc" (series_replace mapping (column "noc" table)) table.

Section Intermediate.
Context `{PyRuntime}.

(** The athletes table once its year column went through [to_numeric]. *)
Definition numeric_years (c : string) (ath : DataFrame) : DataFrame :=
  setitem c (to_numeric (column c ath)) ath.

(** The selection [create_active_athletes_subset] stores and returns. *)
Definition selected (cutoff : Z) (c : string) (ath : DataFrame) : DataFrame :=
  loc_mask (series_ge cutoff (column c (numeric_years c ath))) (numeric_years c ath).

End Intermediate.

(** ** Year extraction, as the specification words it *)






(** ** The active subset, as the specification words it *)

(** The resolved year is a number and is at least the cutoff. *)
Definition year_at_least (cutoff : Z) (x : cell) : Prop :=
  exists q, x = Num q /\ (inject_Z cutoff <= q)%Q.

#[global] Instance year_at_least_dec (cutoff : Z) (x : cell) :
  Decision (year_at_least cutoff x).
Proof.
  destruct x as [s|q|].
  - right. by intros (q & ? & _).
  - destruct (Qle_bool (inject_Z cutoff) q) eqn:E.
    + left. exists q. split; [done|]. by apply Qle_bool_iff.
    + right. intros (q' & [= <-] & Hle). apply Qle_bool_iff in Hle. congruence.
  - right. by intros (q & ? & _).
Defined.


(** ** Sample tables *)

(** One record, written as the list of its cells. *)
Definition record (cells : list (string * cell)) : row := list_to_map cells.

Definition year_of (z : Z) : cell := Num (inject_Z z).

(** A raw athletes table: one 1906 record, stale codes, a mixed team. *)
Definition raw_athletes : DataFrame :=
  mkFrame ["edition"; "noc"; "sport"; "medal"]
    [ record [("edition", Str "1906 Summer Olympics"); ("noc", Str "GRE");
              ("sport", Str "Athletics"); ("medal", Str "Gold")];
      record [("edition", Str "1988 Summer Olympics"); ("noc", Str "URS");
              ("sport", Str "Gymnastics"); ("medal", Str "Gold")];
      record [("edition", Str "1988 Summer Olympics"); ("noc", Str "GDR");
              ("sport", Str "Swimming"); ("medal", NaN)];
      record [("edition", Str "1900 Summer Olympics"); ("noc", Str "MIX");
              ("sport", Str "Tennis"); ("medal", Str "Silver")];
      record [("edition", Str "2020 Summer Olympics"); ("noc", Str "USA");
              ("sport", Str "Swimming"); ("medal", Str "Bronze")] ].

(** The same table after both cleaning steps. *)
Definition clean_athletes : DataFrame :=
  mkFrame ["edition"; "noc"; "sport"; "medal"]
    [ record [("edition", Str "1988 Summer Olympics"); ("noc", Str "RUS");
              ("sport", Str "Gymnastics"); ("medal", Str "Gold")];
      record [("edition", Str "1988 Summer Olympics"); ("noc", Str "GER");
              ("sport", Str "Swimming"); ("medal", NaN)];
      record [("edition", Str "2020 Summer Olympics"); ("noc", Str "USA");
              ("sport", Str "Swimming"); ("medal", Str "Bronze")] ].

(** A table whose years are 2016, 2020, 2024 and one missing value. *)
Definition years_athletes : DataFrame :=
  mkFrame ["name"; "year"]
    [ record [("name", Str "A"); ("year", year_of 2016)];
      record [("name", Str "B"); ("year", year_of 2020)];
      record [("name", Str "C"); ("year", year_of 2024)];
      record [("name", Str "D"); ("year", NaN)] ].

Definition years_active : DataFrame :=
  mkFrame ["name"; "year"]
    [ record [("name", Str "B"); ("year", year_of 2020)];
      record [("name", Str "C"); ("year", year_of 2024)] ].

(** The same years as text, the last one unreadable. *)
Definition text_years_athletes : DataFrame :=
  mkFrame ["name"; "year"]
    [ record [("name", Str "A"); ("year", Str "2016")];
      record [("name", Str "B"); ("year", Str "2024")];
      record [("name", Str "D"); ("year", Str "unknown")] ].

(** A table with no year column: the year has to come from [edition]. *)
Definition edition_athletes : DataFrame :=
  mkFrame ["name"; "edition"]
    [ record [("name", Str "A"); ("edition", Str "1996 Summer Games")];
      record [("name", Str "B"); ("edition", Str "Games of 1996 and 2000")];
      record [("name", Str "C"); ("edition", Str "Summer Games")] ].

(** An object that holds [ath] as its athletes table and nothing else. *)
Definition loaded (ath : DataFrame) : OlympicDataStandardizer :=
  mkStd ath empty_frame empty_frame empty_frame None.

(** A runtime to evaluate with: numbers are read and printed in plain
    decimal notation. *)
Fixpoint digits_value (acc : Z) (s : string) : option Z :=
  match s with
  | EmptyString => Some acc
  | String a s' =>
      if is_digit a then digits_value (10 * acc + digit_val a) s' else None
  end.

Definition read_decimal (s : string) : option Z :=
  match s with
  | EmptyString => None
  | _ => digits_value 0 s
  end.

Definition sample_runtime : PyRuntime :=
  {| to_numeric_str := fun s => inject_Z <$> read_decimal s;
     float_str := fun q =>
       String.append (NilZero.string_of_int (Z.to_int (truncate q))) ".0";
     int_of_str := read_decimal |}.




(** A table with a record whose code is missing. *)
Definition missing_code_athletes : DataFrame :=
  mkFrame ["noc"; "sport"]
    [ record [("noc", NaN); ("sport", Str "Judo")];
      record [("noc", Str "USA"); ("sport", Str "Swimming")] ].

(** A table without the [noc] column. *)
Definition no_code_athletes : DataFrame :=
  mkFrame ["edition"; "sport"]
    [ record [("edition", Str "2020 Summer Olympics"); ("sport", Str "Judo")] ].
(** ** olympic_analysis_utils: verify_historical_cleaning *)

Definition removed_codes : list string := ["URS"; "GDR"; "FRG"; "EUN"; "MIX"].

Definition merged_codes : list string := ["RUS"; "GER"].

(** The flags behind the lines the verification prints; a check whose
    column is not there prints nothing. *)
Record CleaningReport : Type := mkCleaningReport {
  present_1906 : option bool;
  war_years : option (bool * bool);
  code_checks : option (list (string * bool) * list (string * bool))
}.

(** [series.str.contains(needle, na=False)] on one cell: a cell that is
    not text gives [False]. *)
Definition str_contains (needle : string) (x : cell) : bool :=
  match x with
  | Str s => contains needle s
  | _ => false
  end.

(** [value in array] on the numpy array that [unique] returns: some
    entry equals the value. *)
Definition array_contains (v : cell) (arr : Series) : bool :=
  existsb (fun x => cell_eqb x v) arr.

Definition verify_historical_cleaning (athletes_df : DataFrame)
  : result CleaningReport :=
  has_1906 ←
    (if has_column "edition" athletes_df then
       ed ← str_accessor (column "edition" athletes_df);
       Ok (Some (existsb (str_contains "1906") ed))
     else Ok None);
  let war :=
    if has_column "year" athletes_df then
      let years := unique (column "year" athletes_df) in
      Some (array_contains (Num (inject_Z 1940)) years,
            array_contains (Num (inject_Z 1944)) years)
    else None in
  let codes :=
    if has_column "noc" athletes_df then
      let nocs := unique (column "noc" athletes_df) in
      Some ((fun code => (code, array_contains (Str code) nocs)) <$> removed_codes,
            (fun code => (code, array_contains (Str code) nocs)) <$> merged_codes)
    else None in
  Ok (mkCleaningReport has_1906 war codes).

(** ** olympic_analysis_utils: export_for_modeling

    Reading the two standardized files and creating the output directory
    are file access, so the export starts from the two tables read; the
    files it writes are logged in the order of writing, and an exception
    leaves the files written before it. *)

Inductive Written : Type :=
| WithIndex (t : IndexedFrame)   (** [to_csv(path, index=True)] *)
| NoIndex (df : DataFrame).      (** [to_csv(path, index=False)] *)

Definition export_for_modeling (athletes_df active_athletes_df : DataFrame)
  : list (string * Written) * result unit :=
  match create_country_features active_athletes_df with
  | Raise e => ([], Raise e)
  | Ok country_features =>
      let written := [("country_features_2028.csv", WithIndex country_features)] in
      match create_medal_trends athletes_df with
      | Raise e => (written, Raise e)
      | Ok medal_trends =>
          let written :=
            written ++ [("medal_trends_historical.csv", NoIndex medal_trends)] in
          match create_sport_strength active_athletes_df with
          | Raise e => (written, Raise e)
          | Ok sport_strength =>
              (written ++ [("sport_strength_by_country.csv", NoIndex sport_strength)],
               Ok ())
          end
      end
  end.

(** ** A further sample table *)

(** A standardized table with every column the feature tables read. *)
Definition medal_athletes : DataFrame :=
  mkFrame ["athlete_id"; "noc"; "sport"; "year"; "medal"]
    [ record [("athlete_id", Num (inject_Z 1)); ("noc", Str "USA");
              ("sport", Str "Swimming"); ("year", year_of 2020);
              ("medal", Str "Gold")];
      record [("athlete_id", Num (inject_Z 2)); ("noc", Str "USA");
              ("sport", Str "Swimming"); ("year", year_of 2020);
              ("medal", Str "Gold")];
      record [("athlete_id", NaN); ("noc", Str "USA");
              ("sport", Str "Judo"); ("year", year_of 2024);
              ("medal", NaN)];
      record [("athlete_id", Num (inject_Z 4)); ("noc", Str "GER");
              ("sport", Str "Swimming"); ("year", year_of 2020);
              ("medal", Str "Silver")] ].


(** * Properties *)

(** ** Cells and frames *)

Lemma bind_ok {A B} (a : A) (f : A -> result B) : (Ok a ≫= f) = f a.
Proof. reflexivity. Qed.

Lemma cell_eqb_Str (x : cell) (s : string) :
  cell_eqb x (Str s) = true <-> x = Str s.
Proof.
  destruct x as [t|q|]; simpl; try (split; [discriminate | congruence]).
  rewrite bool_decide_eq_true. split; congruence.
Qed.

Lemma cell_eqb_Str_false (x : cell) (s : string) :
  cell_eqb x (Str s) = false <-> x <> Str s.
Proof.
  rewrite <- cell_eqb_Str. destruct (cell_eqb x (Str s)); split; congruence.
Qed.

Lemma cell_of_insert (c : string) (v : cell) (r : row) :
  cell_of c (<[c := v]> r) = v.
Proof. unfold cell_of. by rewrite lookup_insert_eq. Qed.

Lemma has_column_true (c : string) (df : DataFrame) :
  has_column c df = true <-> c ∈ columns df.
Proof. unfold has_column. apply bool_decide_eq_true. Qed.

Lemma getitem_ok (c : string) (df : DataFrame) :
  has_column c df = true -> getitem c df = Ok (column c df).
Proof. intros Hc. unfold getitem. by rewrite Hc. Qed.

Lemma getitem_raise (c : string) (df : DataFrame) :
  has_column c df = false -> getitem c df = Raise KeyError.
Proof. intros Hc. unfold getitem. by rewrite Hc. Qed.

Lemma mask_of_rows {A} (g : A -> bool) (l : list A) :
  snd <$> List.filter fst (zip (g <$> l) l) = List.filter g l.
Proof.
  induction l as [|x l IH]; [done|].
  rewrite fmap_cons. cbn [zip_with List.filter fst].
  destruct (g x); [rewrite fmap_cons; cbn [snd]|]; by rewrite IH.
Qed.

Lemma zip_with_of_rows {A B C} (g : A -> B) (h : B -> A -> C) (l : list A) :
  zip_with h (g <$> l) l = (fun x => h (g x) x) <$> l.
Proof. induction l as [|x l IH]; [done|]. cbn. by rewrite IH. Qed.

(** A mask computed from a column selects the rows by that column's cell. *)
Lemma rows_loc_mask (f : cell -> bool) (c : string) (df : DataFrame) :
  rows (loc_mask (f <$> column c df) df)
  = List.filter (fun r => f (cell_of c r)) (rows df).
Proof.
  unfold loc_mask, column. simpl. rewrite <- list_fmap_compose.
  apply (mask_of_rows (f ∘ cell_of c)).
Qed.

Lemma columns_loc_mask (mask : list bool) (df : DataFrame) :
  columns (loc_mask mask df) = columns df.
Proof. done. Qed.

(** Assigning a column computed from itself rewrites that cell of each row. *)
Lemma rows_setitem (f : cell -> cell) (c : string) (df : DataFrame) :
  rows (setitem c (f <$> column c df) df)
  = (fun r : row => <[c := f (cell_of c r)]> r) <$> rows df.
Proof.
  unfold setitem, column. simpl. rewrite <- list_fmap_compose.
  apply (zip_with_of_rows (f ∘ cell_of c) (fun v r => <[c := v]> r)).
Qed.

Lemma rows_setitem_from (f : cell -> cell) (c c' : string) (df : DataFrame) :
  rows (setitem c (f <$> column c' df) df)
  = (fun r : row => <[c := f (cell_of c' r)]> r) <$> rows df.
Proof.
  unfold setitem, column. simpl. rewrite <- list_fmap_compose.
  apply (zip_with_of_rows (f ∘ cell_of c') (fun v r => <[c := v]> r)).
Qed.

Lemma has_column_setitem (c : string) (s : Series) (df : DataFrame) :
  has_column c (setitem c s df) = true.
Proof.
  apply has_column_true. unfold setitem. simpl.
  destruct (has_column c df) eqn:Hc.
  - by apply has_column_true.
  - apply elem_of_app. right. by apply list_elem_of_singleton.
Qed.

Lemma columns_setitem_present (c : string) (s : Series) (df : DataFrame) :
  has_column c df = true -> columns (setitem c s df) = columns df.
Proof. intros Hc. unfold setitem. simpl. by rewrite Hc. Qed.


Lemma filter_none {A} (p : A -> bool) (l : list A) :
  (forall x, x ∈ l -> p x = false) -> List.filter p l = [].
Proof.
  induction l as [|x l IH]; intros Hall; simpl; [done|].
  rewrite (Hall x) by apply list_elem_of_here.
  apply IH. intros y Hy. apply Hall. by apply list_elem_of_further.
Qed.

Lemma elem_of_filter_bool {A} (p : A -> bool) (l : list A) (x : A) :
  x ∈ List.filter p l <-> x ∈ l /\ p x = true.
Proof. rewrite !list_elem_of_In. apply filter_In. Qed.

(** The boolean filter agrees with stdpp's filter by a decidable property. *)
Lemma filter_bool_prop {A} (p : A -> bool) (P : A -> Prop) `{!forall x, Decision (P x)}
    (l : list A) :
  (forall x, p x = true <-> P x) -> List.filter p l = filter P l.
Proof.
  intros Hp. induction l as [|x l IH]; simpl; [done|].
  rewrite filter_cons. destruct (decide (P x)) as [HP|HP].
  - apply Hp in HP. rewrite HP. by f_equal.
  - destruct (p x) eqn:E; [by apply Hp in E|done].
Qed.

(** ** Removing the 1906 edition *)

Lemma rows_drop_by_text (c s : string) (df : DataFrame) :
  rows (loc_mask (series_ne (Str s) (column c df)) df)
  = filter (fun r : row => cell_of c r <> Str s) (rows df).
Proof.
  unfold series_ne.
  rewrite (rows_loc_mask (fun x => negb (cell_eqb x (Str s)))).
  apply filter_bool_prop. intros r.
  rewrite negb_true_iff. apply cell_eqb_Str_false.
Qed.

Lemma rows_keep_by_text (c s : string) (df : DataFrame) :
  rows (loc_mask (series_eq (Str s) (column c df)) df)
  = filter (fun r : row => cell_of c r = Str s) (rows df).
Proof.
  unfold series_eq.
  rewrite (rows_loc_mask (fun x => cell_eqb x (Str s))).
  apply filter_bool_prop. intros r. apply cell_eqb_Str.
Qed.

Lemma frame_eq (a b : DataFrame) :
  columns a = columns b -> rows a = rows b -> a = b.
Proof. destruct a, b. simpl. by intros -> ->. Qed.

Lemma filter_id_iff {A} (P : A -> Prop) `{!forall x, Decision (P x)} (l : list A) :
  (forall x, x ∈ l -> P x) -> filter P l = l.
Proof.
  induction l as [|x l IH]; intros Hall; [done|].
  rewrite filter_cons_True by (apply Hall; apply list_elem_of_here).
  f_equal. apply IH. intros y Hy. apply Hall. by apply list_elem_of_further.
Qed.

Lemma drop_1906_ok (table : DataFrame) :
  has_column "edition" table = true ->
  drop_1906 table
  = Ok (loc_mask (series_ne (Str edition_1906) (column "edition" table)) table,
        len table
        - len (loc_mask (series_ne (Str edition_1906) (column "edition" table)) table)).
Proof. intros Hcol. unfold drop_1906. by rewrite (getitem_ok _ _ Hcol). Qed.

Lemma drop_1906_rows (table cleaned : DataFrame) (removed : nat) :
  drop_1906 table = Ok (cleaned, removed) ->
  has_column "edition" table = true
  /\ columns cleaned = columns table
  /\ rows cleaned
     = filter (fun r : row => cell_of "edition" r <> Str edition_1906) (rows table)
  /\ removed = len table - len cleaned.
Proof.
  intros Hrun. destruct (has_column "edition" table) eqn:Hcol.
  - rewrite (drop_1906_ok _ Hcol) in Hrun. injection Hrun as <- <-.
    repeat split. apply rows_drop_by_text.
  - unfold drop_1906 in Hrun. by rewrite (getitem_raise _ _ Hcol) in Hrun.
Qed.

Lemma drop_1906_clean (table : DataFrame) :
  has_column "edition" table = true ->
  (forall r, r ∈ rows table -> cell_of "edition" r <> Str edition_1906) ->
  drop_1906 table = Ok (table, 0).
Proof.
  intros Hcol Hclean. rewrite (drop_1906_ok _ Hcol).
  pose proof (rows_drop_by_text "edition" edition_1906 table) as Hrows.
  rewrite filter_id_iff in Hrows by done.
  set (cleaned := loc_mask _ table) in *.
  assert (cleaned = table) as -> by by apply frame_eq.
  by rewrite Nat.sub_diag.
Qed.

(** C2: on every table that has the [edition] column, the anomaly filter
    succeeds; the cleaned table holds exactly the records whose edition is
    not the text "1906 Summer Olympics" (same order, same columns); the
    reported number is the original length less the cleaned length; it is
    at least 1 when some record carried that edition and 0, with the table
    returned as it was, when none did. *)
Theorem drop_1906_exact (table : DataFrame) :
  has_column "edition" table = true ->
  exists cleaned removed,
    drop_1906 table = Ok (cleaned, removed)
    /\ columns cleaned = columns table
    /\ rows cleaned
       = filter (fun r : row => cell_of "edition" r <> Str edition_1906) (rows table)
    /\ removed = len table - len cleaned
    /\ len cleaned + removed = len table
    /\ ((exists r, r ∈ rows table /\ cell_of "edition" r = Str edition_1906)
        -> 1 <= removed)
    /\ ((forall r, r ∈ rows table -> cell_of "edition" r <> Str edition_1906)
        -> cleaned = table /\ removed = 0).
Proof.
  intros Hcol.
  destruct (drop_1906 table) as [[cleaned removed]|e] eqn:Hrun;
    [|by rewrite (drop_1906_ok _ Hcol) in Hrun].
  destruct (drop_1906_rows _ _ _ Hrun) as (_ & Hcols & Hrows & Hn).
  exists cleaned, removed.
  assert (len cleaned <= len table) as Hle.
  { unfold len. rewrite Hrows. apply length_filter. }
  split; [done|]. split; [done|]. split; [done|]. split; [done|].
  split; [lia|]. split.
  - intros (r & Hin & Hr).
    assert (len cleaned < len table); [|lia].
    unfold len. rewrite Hrows.
    apply (length_filter_lt _ _ r); [done|]. intros Hne. by apply Hne.
  - intros Hclean. rewrite (drop_1906_clean _ Hcol Hclean) in Hrun.
    by injection Hrun as <- <-.
Qed.

(** The method applies [drop_1906] to the athletes table and reports its
    count. *)
Lemma handle_historical_anomalies_athletes `{PyRuntime}
    (st st' : OlympicDataStandardizer) (rep : AnomalyReport) :
  handle_historical_anomalies st = Ok (st', rep) ->
  drop_1906 (athletes st) = Ok (athletes st', deleted_1906 rep).
Proof.
  unfold handle_historical_anomalies. intros Hrun.
  destruct (drop_1906 (athletes st)) as [[a n]|e]; [|discriminate].
  rewrite bind_ok in Hrun.
  destruct (if has_column "edition" (medals st) then _ else _) as [[m d]|e];
    [|discriminate].
  rewrite bind_ok in Hrun.
  destruct (if has_column "edition" a then _ else _) as [eds|e]; [|discriminate].
  rewrite bind_ok in Hrun. by injection Hrun as <- <-.
Qed.

(** ** Consolidating country codes *)

Lemma filter_fmap_comm {A B} (P : B -> Prop) `{!forall y, Decision (P y)}
    (f : A -> B) (l : list A) :
  filter P (f <$> l) = f <$> filter (fun x => P (f x)) l.
Proof.
  induction l as [|x l IH]; [done|].
  rewrite fmap_cons, !filter_cons. destruct (decide (P (f x))).
  - by rewrite fmap_cons, IH.
  - done.
Qed.

Lemma consolidate_ok (mapping : gmap string string) (sentinel : string)
    (table : DataFrame) :
  has_column "noc" table = true ->
  consolidate mapping sentinel table
  = Ok (loc_mask (series_ne (Str sentinel) (column "noc" (substituted mapping table)))
          (substituted mapping table),
        len (loc_mask (series_eq (Str sentinel) (column "noc" (substituted mapping table)))
               (substituted mapping table))).
Proof.
  intros Hcol. unfold consolidate. rewrite (getitem_ok _ _ Hcol).
  change (setitem "noc" (series_replace mapping (column "noc" table)) table)
    with (substituted mapping table).
  change (getitem "noc" (substituted mapping table)
          ≫= (fun noc1 =>
                Ok (loc_mask (series_ne (Str sentinel) noc1) (substituted mapping table),
                    len (loc_mask (series_eq (Str sentinel) noc1)
                           (substituted mapping table))))
          = Ok (loc_mask (series_ne (Str sentinel)
                            (column "noc" (substituted mapping table)))
                  (substituted mapping table),
                len (loc_mask (series_eq (Str sentinel)
                                 (column "noc" (substituted mapping table)))
                       (substituted mapping table)))).
  unfold substituted at 1. by rewrite getitem_ok by apply has_column_setitem.
Qed.

Lemma rows_substituted (mapping : gmap string string) (table : DataFrame) :
  rows (substituted mapping table)
  = (fun r : row => <["noc" := replace_cell mapping (cell_of "noc" r)]> r)
      <$> rows table.
Proof. unfold substituted, series_replace. apply rows_setitem. Qed.

(** What consolidation returns, record by record. *)
Lemma consolidate_rows (mapping : gmap string string) (sentinel : string)
    (table cleaned : DataFrame) (dropped : nat) :
  consolidate mapping sentinel table = Ok (cleaned, dropped) ->
  has_column "noc" table = true ->
  columns cleaned = columns table
  /\ rows cleaned
     = (fun r : row => <["noc" := replace_cell mapping (cell_of "noc" r)]> r)
         <$> filter (fun r : row =>
                       replace_cell mapping (cell_of "noc" r) <> Str sentinel)
               (rows table)
  /\ dropped
     = length (filter (fun r : row =>
                         replace_cell mapping (cell_of "noc" r) = Str sentinel)
                 (rows table)).
Proof.
  intros Hrun Hcol. rewrite (consolidate_ok _ _ _ Hcol) in Hrun.
  injection Hrun as <- <-. split; [|split].
  - rewrite columns_loc_mask. unfold substituted.
    by apply columns_setitem_present.
  - rewrite rows_drop_by_text, rows_substituted, filter_fmap_comm.
    f_equal. apply list_filter_iff. intros r. by rewrite cell_of_insert.
  - unfold len. rewrite rows_keep_by_text, rows_substituted, filter_fmap_comm.
    rewrite length_fmap. f_equal. apply list_filter_iff. intros r.
    by rewrite cell_of_insert.
Qed.

Lemma country_mapping_lookup (s t : string) :
  country_mapping !! s = Some t ->
  (s = "URS" /\ t = "RUS") \/ (s = "EUN" /\ t = "RUS")
  \/ (s = "GDR" /\ t = "GER") \/ (s = "FRG" /\ t = "GER").
Proof.
  unfold country_mapping. intros Hl.
  repeat (apply lookup_insert_Some in Hl as [[<- <-]|[_ Hl]]; [tauto|]).
  by rewrite lookup_empty in Hl.
Qed.

Lemma replace_country_not_stale (x : cell) (code : string) :
  code ∈ ["URS"; "EUN"; "GDR"; "FRG"] ->
  replace_cell country_mapping x <> Str code.
Proof.
  intros Hcode Heq. destruct x as [s|q|]; simpl in Heq; try discriminate.
  destruct (country_mapping !! s) as [t|] eqn:Hl.
  - injection Heq as ->. apply country_mapping_lookup in Hl.
    set_unfold in Hcode.
    destruct Hl as [[_ ->]|[[_ ->]|[[_ ->]|[_ ->]]]];
      destruct Hcode as [?|[?|[?|[?|[]]]]]; discriminate.
  - injection Heq as ->. set_unfold in Hcode.
    destruct Hcode as [->|[->|[->|[->|[]]]]]; vm_compute in Hl; discriminate.
Qed.

Lemma replace_country_mixed (x : cell) :
  replace_cell country_mapping x = Str mixed_team <-> x = Str mixed_team.
Proof.
  split.
  - intros Heq. destruct x as [s|q|]; simpl in Heq; try discriminate.
    destruct (country_mapping !! s) as [t|] eqn:Hl; [|done].
    injection Heq as ->. apply country_mapping_lookup in Hl.
    unfold mixed_team in Hl.
    destruct Hl as [[_ ?]|[[_ ?]|[[_ ?]|[_ ?]]]]; discriminate.
  - intros ->. reflexivity.
Qed.

(** C1: on every table that has the [noc] column, consolidation succeeds
    and substitutes before it drops: no record of the result carries MIX,
    URS, EUN, GDR or FRG; the result is the input without its MIX records,
    each remaining code rewritten by the mapping, so URS and EUN records
    read RUS and GDR and FRG records read GER; the reported count is the
    number of MIX records.  With any mapping and sentinel in place of the
    fixed ones, a record whose code the mapping sends to the sentinel is
    dropped too, and counted. *)
Theorem consolidate_country_codes (table : DataFrame) :
  has_column "noc" table = true ->
  exists cleaned dropped,
    consolidate country_mapping mixed_team table = Ok (cleaned, dropped)
    /\ (forall r code,
          r ∈ rows cleaned -> code ∈ ["MIX"; "URS"; "EUN"; "GDR"; "FRG"] ->
          cell_of "noc" r <> Str code)
    /\ rows cleaned
       = (fun r : row => <["noc" := replace_cell country_mapping (cell_of "noc" r)]> r)
           <$> filter (fun r : row => cell_of "noc" r <> Str mixed_team) (rows table)
    /\ (forall r, r ∈ rows table ->
          cell_of "noc" r = Str "URS" \/ cell_of "noc" r = Str "EUN" ->
          <["noc" := Str "RUS"]> r ∈ rows cleaned)
    /\ (forall r, r ∈ rows table ->
          cell_of "noc" r = Str "GDR" \/ cell_of "noc" r = Str "FRG" ->
          <["noc" := Str "GER"]> r ∈ rows cleaned)
    /\ dropped
       = length (filter (fun r : row => cell_of "noc" r = Str mixed_team) (rows table))
    /\ forall mapping sentinel,
         exists cleaned' dropped',
           consolidate mapping sentinel table = Ok (cleaned', dropped')
           /\ (forall r, r ∈ rows cleaned' -> cell_of "noc" r <> Str sentinel)
           /\ (forall r old,
                 r ∈ rows table -> cell_of "noc" r = Str old ->
                 mapping !! old = Some sentinel ->
                 ((<["noc" := Str sentinel]> r) ∉ rows cleaned') /\ 1 <= dropped').
Proof.
  intros Hcol.
  destruct (consolidate country_mapping mixed_team table) as [[cleaned dropped]|e] eqn:Hrun;
    [|by rewrite (consolidate_ok _ _ _ Hcol) in Hrun].
  destruct (consolidate_rows _ _ _ _ _ Hrun Hcol) as (Hcols & Hrows & Hn).
  assert (rows cleaned
          = (fun r : row => <["noc" := replace_cell country_mapping (cell_of "noc" r)]> r)
              <$> filter (fun r : row => cell_of "noc" r <> Str mixed_team) (rows table))
    as Hrows'.
  { rewrite Hrows. f_equal. apply list_filter_iff. intros r.
    by rewrite replace_country_mixed. }
  assert (forall r (t : string),
            r ∈ rows table -> replace_cell country_mapping (cell_of "noc" r) = Str t ->
            t <> mixed_team -> <["noc" := Str t]> r ∈ rows cleaned) as Hmoved.
  { intros r t Hin Hrep Hne. rewrite Hrows. apply list_elem_of_fmap.
    exists r. split; [by rewrite Hrep|].
    apply list_elem_of_filter. split; [|done]. rewrite Hrep. congruence. }
  exists cleaned, dropped. split; [done|]. split; [|split; [done|split; [|split; [|split]]]].
  - intros r code Hin Hcode Heq. rewrite Hrows' in Hin.
    apply list_elem_of_fmap in Hin as (r0 & -> & Hin0).
    apply list_elem_of_filter in Hin0 as [Hmix Hin0].
    rewrite cell_of_insert in Heq.
    apply elem_of_cons in Hcode as [->|Hcode].
    + exact (Hmix (proj1 (replace_country_mixed _) Heq)).
    + exact (replace_country_not_stale _ _ Hcode Heq).
  - intros r Hin [Hc|Hc]; apply Hmoved; try done; by rewrite Hc.
  - intros r Hin [Hc|Hc]; apply Hmoved; try done; by rewrite Hc.
  - rewrite Hn. f_equal. apply list_filter_iff. intros r.
    apply replace_country_mixed.
  - intros mapping sentinel.
    destruct (consolidate mapping sentinel table) as [[cleaned' dropped']|e] eqn:Hrun';
      [|by rewrite (consolidate_ok _ _ _ Hcol) in Hrun'].
    destruct (consolidate_rows _ _ _ _ _ Hrun' Hcol) as (_ & Hrows2 & Hn2).
    exists cleaned', dropped'. split; [done|].
    assert (forall r, r ∈ rows cleaned' -> cell_of "noc" r <> Str sentinel) as Hnone.
    { intros r Hin. rewrite Hrows2 in Hin.
      apply list_elem_of_fmap in Hin as (r0 & -> & Hin0).
      apply list_elem_of_filter in Hin0 as [Hne _]. by rewrite cell_of_insert. }
    split; [done|]. intros r old Hin Hold Hmap. split.
    + intros Hin'. apply (Hnone _ Hin'). apply cell_of_insert.
    + rewrite Hn2.
      assert (r ∈ filter (fun r : row =>
                 replace_cell mapping (cell_of "noc" r) = Str sentinel) (rows table))
        as Hr.
      { apply list_elem_of_filter. split; [|done]. rewrite Hold. simpl. by rewrite Hmap. }
      apply list_elem_of_lookup in Hr as [i Hi]. apply lookup_lt_Some in Hi. lia.
Qed.

(** The method applies [consolidate] to the athletes table and reports its
    count. *)
Lemma standardize_country_codes_athletes
    (st st' : OlympicDataStandardizer) (rep : CodeReport) :
  standardize_country_codes st = Ok (st', rep) ->
  exists dropped,
    consolidate country_mapping mixed_team (athletes st) = Ok (athletes st', dropped)
    /\ mixed_team_count rep = Some dropped.
Proof.
  unfold standardize_country_codes. intros Hrun.
  destruct (has_column "noc" (athletes st)) eqn:Hcol.
  - destruct (consolidate country_mapping mixed_team (athletes st))
      as [[a n]|e] eqn:Hc; [|discriminate].
    cbn in Hrun.
    destruct (has_column "noc" (medals st)).
    + destruct (consolidate country_mapping mixed_team (medals st))
        as [[m k]|e] eqn:Hm; [|discriminate].
      cbn in Hrun. destruct (getitem "noc" a); [|discriminate].
      cbn in Hrun. injection Hrun as <- <-. by exists n.
    + cbn in Hrun. destruct (getitem "noc" a); [|discriminate].
      cbn in Hrun. injection Hrun as <- <-. by exists n.
  - cbn in Hrun. rewrite (getitem_raise _ _ Hcol) in Hrun.
    destruct (has_column "noc" (medals st)); [|discriminate].
    destruct (consolidate country_mapping mixed_team (medals st)) as [[m k]|e];
      discriminate.
Qed.

(** ** Cleaning a clean table *)

Lemma well_formed_binds (df : DataFrame) (c : string) (r : row) :
  well_formed df -> has_column c df = true -> r ∈ rows df ->
  r !! c = Some (cell_of c r).
Proof.
  intros Hwf Hcol Hin. unfold well_formed in Hwf.
  rewrite Forall_forall in Hwf. specialize (Hwf r Hin).
  apply has_column_true in Hcol.
  assert (c ∈ dom r) as Hdom by (rewrite Hwf; by apply elem_of_list_to_set).
  apply elem_of_dom in Hdom as [x Hx]. unfold cell_of. by rewrite Hx.
Qed.

Lemma replace_country_fresh (x : cell) :
  (forall code, code ∈ ["URS"; "EUN"; "GDR"; "FRG"] -> x <> Str code) ->
  replace_cell country_mapping x = x.
Proof.
  intros Hfresh. destruct x as [s|q|]; simpl; try done.
  destruct (country_mapping !! s) as [t|] eqn:Hl; [|done].
  exfalso. apply (Hfresh s); [|done].
  apply country_mapping_lookup in Hl. set_unfold. tauto.
Qed.

Lemma fmap_fixed {A} (f : A -> A) (l : list A) :
  (forall x, x ∈ l -> f x = x) -> f <$> l = l.
Proof.
  induction l as [|x l IH]; intros Hfix; [done|].
  rewrite fmap_cons, (Hfix x) by apply list_elem_of_here.
  f_equal. apply IH. intros y Hy. apply Hfix. by apply list_elem_of_further.
Qed.

Lemma filter_nil_iff {A} (P : A -> Prop) `{!forall x, Decision (P x)} (l : list A) :
  (forall x, x ∈ l -> ~ P x) -> filter P l = [].
Proof.
  induction l as [|x l IH]; intros Hnone; [done|].
  rewrite filter_cons_False by (apply Hnone; apply list_elem_of_here).
  apply IH. intros y Hy. apply Hnone. by apply list_elem_of_further.
Qed.

Lemma consolidate_clean (table : DataFrame) :
  well_formed table ->
  has_column "noc" table = true ->
  (forall r code,
     r ∈ rows table -> code ∈ ["MIX"; "URS"; "EUN"; "GDR"; "FRG"] ->
     cell_of "noc" r <> Str code) ->
  consolidate country_mapping mixed_team table = Ok (table, 0).
Proof.
  intros Hwf Hcol Hclean.
  destruct (consolidate country_mapping mixed_team table)
    as [[cleaned dropped]|e] eqn:Hrun;
    [|by rewrite (consolidate_ok _ _ _ Hcol) in Hrun].
  destruct (consolidate_rows _ _ _ _ _ Hrun Hcol) as (Hcols & Hrows & Hn).
  assert (forall r, r ∈ rows table ->
            replace_cell country_mapping (cell_of "noc" r) = cell_of "noc" r)
    as Hkeep.
  { intros r Hin. apply replace_country_fresh. intros code Hcode.
    apply (Hclean r code Hin). by apply list_elem_of_further. }
  assert (forall r, r ∈ rows table ->
            replace_cell country_mapping (cell_of "noc" r) <> Str mixed_team)
    as Hmix.
  { intros r Hin. rewrite (Hkeep r Hin).
    apply (Hclean r "MIX" Hin). apply list_elem_of_here. }
  f_equal. f_equal.
  - apply frame_eq; [done|]. rewrite Hrows.
    rewrite filter_id_iff by done. apply fmap_fixed. intros r Hin.
    apply insert_id. rewrite (Hkeep r Hin).
    by apply (well_formed_binds table).
  - rewrite Hn. rewrite filter_nil_iff; [done|].
    intros r Hin Heq. by apply (Hmix r Hin).
Qed.

Lemma consolidate_well_formed (mapping : gmap string string) (sentinel : string)
    (table cleaned : DataFrame) (dropped : nat) :
  well_formed table ->
  consolidate mapping sentinel table = Ok (cleaned, dropped) ->
  well_formed cleaned.
Proof.
  intros Hwf Hrun.
  destruct (has_column "noc" table) eqn:Hcol;
    [|unfold consolidate in Hrun; by rewrite (getitem_raise _ _ Hcol) in Hrun].
  destruct (consolidate_rows _ _ _ _ _ Hrun Hcol) as (Hcols & Hrows & _).
  unfold well_formed in *. rewrite Hcols, Hrows.
  apply Forall_fmap, Forall_forall. intros r Hin. simpl.
  apply list_elem_of_filter in Hin as [_ Hin].
  rewrite Forall_forall in Hwf. specialize (Hwf r Hin).
  rewrite dom_insert_L, Hwf. apply has_column_true in Hcol.
  apply (elem_of_list_to_set (C := gset string)) in Hcol.
  by apply subseteq_union_1_L, singleton_subseteq_l.
Qed.

Lemma consolidate_no_stale (table cleaned : DataFrame) (dropped : nat) :
  consolidate country_mapping mixed_team table = Ok (cleaned, dropped) ->
  forall r code,
    r ∈ rows cleaned -> code ∈ ["MIX"; "URS"; "EUN"; "GDR"; "FRG"] ->
    cell_of "noc" r <> Str code.
Proof.
  intros Hrun r code Hin Hcode Heq.
  destruct (has_column "noc" table) eqn:Hcol;
    [|unfold consolidate in Hrun; by rewrite (getitem_raise _ _ Hcol) in Hrun].
  destruct (consolidate_rows _ _ _ _ _ Hrun Hcol) as (_ & Hrows & _).
  rewrite Hrows in Hin.
  apply list_elem_of_fmap in Hin as (r0 & -> & Hin0).
  apply list_elem_of_filter in Hin0 as [Hmix Hin0].
  rewrite cell_of_insert in Heq.
  apply elem_of_cons in Hcode as [->|Hcode].
  - exact (Hmix Heq).
  - exact (replace_country_not_stale _ _ Hcode Heq).
Qed.

(** C8: on a table that is already clean, each cleaning operation returns
    the very same table and reports 0: the anomaly filter when no record
    carries the 1906 edition, consolidation when no record carries MIX or a
    code the mapping rewrites. *)
Theorem cleaning_idempotent (table : DataFrame) :
  well_formed table ->
  (has_column "edition" table = true ->
   (forall r, r ∈ rows table -> cell_of "edition" r <> Str edition_1906) ->
   drop_1906 table = Ok (table, 0))
  /\ (has_column "noc" table = true ->
      (forall r code,
         r ∈ rows table -> code ∈ ["MIX"; "URS"; "EUN"; "GDR"; "FRG"] ->
         cell_of "noc" r <> Str code) ->
      consolidate country_mapping mixed_team table = Ok (table, 0)).
Proof.
  intros Hwf. split.
  - apply drop_1906_clean.
  - by apply consolidate_clean.
Qed.

(** Running either operation a second time changes nothing. *)
Corollary cleaning_twice (table once : DataFrame) (n : nat) :
  well_formed table ->
  (drop_1906 table = Ok (once, n) -> drop_1906 once = Ok (once, 0))
  /\ (consolidate country_mapping mixed_team table = Ok (once, n) ->
      consolidate country_mapping mixed_team once = Ok (once, 0)).
Proof.
  intros Hwf. split.
  - intros Hrun.
    destruct (drop_1906_rows _ _ _ Hrun) as (Hcol & Hcols & Hrows & _).
    apply drop_1906_clean.
    + apply has_column_true. rewrite Hcols. by apply has_column_true.
    + intros r Hin. rewrite Hrows in Hin.
      by apply list_elem_of_filter in Hin as [? _].
  - intros Hrun.
    destruct (has_column "noc" table) eqn:Hcol;
      [|unfold consolidate in Hrun; by rewrite (getitem_raise _ _ Hcol) in Hrun].
    destruct (consolidate_rows _ _ _ _ _ Hrun Hcol) as (Hcols & _ & _).
    apply consolidate_clean.
    + by apply (consolidate_well_formed _ _ _ _ _ Hwf Hrun).
    + apply has_column_true. rewrite Hcols. by apply has_column_true.
    + by apply (consolidate_no_stale _ _ _ Hrun).
Qed.

(** ** Year extraction *)






(** ** The active subset *)

Lemma str_accessor_cases (s : Series) :
  str_accessor s = Ok s \/ (str_accessor s = Raise AttributeError /\ s <> []).
Proof.
  destruct s as [|x s]; [by left|]. unfold str_accessor.
  destruct (existsb is_str (x :: s)); [by left|by right].
Qed.

Lemma resolve_year_column_cases (ath : DataFrame) :
  (exists c, List.find (fun col => has_column col ath) year_columns = Some c
             /\ has_column c ath = true
             /\ resolve_year_column ath = Ok (ath, c))
  \/ (List.find (fun col => has_column col ath) year_columns = None
      /\ has_column "edition" ath = true
      /\ resolve_year_column ath
         = Ok (setitem "year" (extract_year (column "edition" ath)) ath, "year"))
  \/ (List.find (fun col => has_column col ath) year_columns = None
      /\ has_column "edition" ath = true
      /\ rows ath <> []
      /\ resolve_year_column ath = Raise AttributeError)
  \/ (List.find (fun col => has_column col ath) year_columns = None
      /\ has_column "edition" ath = false
      /\ resolve_year_column ath = Raise ValueError).
Proof.
  unfold resolve_year_column.
  destruct (List.find _ year_columns) as [c|] eqn:Hfind.
  - left. exists c. apply find_some in Hfind as [_ Hc]. done.
  - right. destruct (has_column "edition" ath); [|by right; right].
    destruct (str_accessor_cases (column "edition" ath)) as [->|[-> Hne]].
    + by left.
    + right. left. repeat split. intros Hnil. apply Hne.
      unfold column. by rewrite Hnil.
Qed.

Lemma resolve_year_column_has (ath ath' : DataFrame) (c : string) :
  resolve_year_column ath = Ok (ath', c) ->
  has_column c ath' = true /\ length (rows ath') = length (rows ath).
Proof.
  intros Hres.
  destruct (resolve_year_column_cases ath)
    as [(c0 & _ & Hc & Heq)|[(_ & _ & Heq)|[(_ & _ & _ & Heq)|(_ & _ & Heq)]]];
    rewrite Heq in Hres; try discriminate; injection Hres as <- <-.
  - done.
  - split; [apply has_column_setitem|].
    unfold extract_year. rewrite rows_setitem_from. apply length_fmap.
Qed.

Lemma find_year_column_none (ath : DataFrame) :
  List.find (fun col => has_column col ath) year_columns = None
  <-> forall c, c ∈ year_columns -> has_column c ath = false.
Proof.
  split.
  - intros Hfind c Hc. apply list_elem_of_In in Hc.
    by apply (find_none _ _ Hfind).
  - intros Hall. destruct (List.find _ year_columns) as [c|] eqn:Hfind; [|done].
    apply find_some in Hfind as [Hin Hc]. apply list_elem_of_In in Hin.
    by rewrite (Hall c Hin) in Hc.
Qed.

Section SubsetFacts.
Context `{PyRuntime}.

Lemma subset_run (cutoff : Z) (st : OlympicDataStandardizer)
    (ath : DataFrame) (c : string) :
  resolve_year_column (athletes st) = Ok (ath, c) ->
  create_active_athletes_subset cutoff st
  = match percent_of (len (selected cutoff c ath)) (len (numeric_years c ath)) with
    | Ok pct =>
        Ok (with_active (selected cutoff c ath)
              (with_athletes (numeric_years c ath) st),
            selected cutoff c ath,
            mkSubsetReport (len (numeric_years c ath)) (len (selected cutoff c ath))
              (len (numeric_years c ath) - len (selected cutoff c ath)) pct)
    | Raise e => Raise e
    end.
Proof.
  intros Hres. destruct (resolve_year_column_has _ _ _ Hres) as [Hc _].
  unfold create_active_athletes_subset. rewrite Hres.
  unfold mbind at 1, result_bind at 1. cbv beta iota.
  rewrite (getitem_ok _ _ Hc).
  unfold mbind at 1, result_bind at 1. cbv beta iota.
  change (setitem c (to_numeric (column c ath)) ath) with (numeric_years c ath).
  rewrite (getitem_ok c (numeric_years c ath)) by apply has_column_setitem.
  reflexivity.
Qed.

End SubsetFacts.

Lemma percent_of_raise (a b : nat) (e : exn) :
  percent_of a b = Raise e -> e = ZeroDivisionError /\ b = 0.
Proof.
  unfold percent_of. destruct (Nat.eqb_spec b 0); [|discriminate].
  intros [= <-]. done.
Qed.

Lemma percent_of_ok (a b : nat) :
  b <> 0 ->
  percent_of a b
  = Ok (Qred (inject_Z (Z.of_nat a) / inject_Z (Z.of_nat b) * 100)).
Proof. intros Hb. unfold percent_of. by destruct (Nat.eqb_spec b 0). Qed.

Section SubsetClaims.
Context `{PyRuntime}.

Lemma len_numeric_years (c : string) (ath : DataFrame) :
  len (numeric_years c ath) = len ath.
Proof.
  unfold len, numeric_years, to_numeric. rewrite rows_setitem. apply length_fmap.
Qed.

Lemma subset_raise (cutoff : Z) (st : OlympicDataStandardizer) (e : exn) :
  create_active_athletes_subset cutoff st = Raise e ->
  (e <> ZeroDivisionError /\ resolve_year_column (athletes st) = Raise e)
  \/ (e = ZeroDivisionError /\ rows (athletes st) = []
      /\ exists ath c, resolve_year_column (athletes st) = Ok (ath, c)).
Proof.
  intros Hrun.
  destruct (resolve_year_column (athletes st)) as [[ath c]|e'] eqn:Hres.
  - right. rewrite (subset_run _ _ _ _ Hres) in Hrun.
    destruct (percent_of _ _) as [pct|e'] eqn:Hpct; [discriminate|].
    injection Hrun as ->. apply percent_of_raise in Hpct as [-> Hlen].
    rewrite len_numeric_years in Hlen. unfold len in Hlen.
    destruct (resolve_year_column_has _ _ _ Hres) as [_ Hsame].
    rewrite Hsame in Hlen. apply length_zero_iff_nil in Hlen. eauto.
  - left. unfold create_active_athletes_subset in Hrun. rewrite Hres in Hrun.
    injection Hrun as <-. split; [|done].
    destruct (resolve_year_column_cases (athletes st))
      as [(c0 & _ & _ & Heq)|[(_ & _ & Heq)|[(_ & _ & _ & Heq)|(_ & _ & Heq)]]];
      rewrite Heq in Hres; try discriminate; by injection Hres as <-.
Qed.


Lemma cell_ge_spec (cutoff : Z) (x : cell) :
  cell_ge cutoff x = true <-> year_at_least cutoff x.
Proof.
  unfold year_at_least. destruct x as [s|q|]; simpl.
  - split; [discriminate|]. by intros (q & ? & _).
  - rewrite Qle_bool_iff. split; [eauto|]. by intros (q' & [= <-] & ?).
  - split; [discriminate|]. by intros (q & ? & _).
Qed.

Lemma rows_numeric_years (c : string) (ath : DataFrame) :
  rows (numeric_years c ath)
  = (fun r : row => <[c := to_numeric_cell (cell_of c r)]> r) <$> rows ath.
Proof. unfold numeric_years, to_numeric. apply rows_setitem. Qed.

Lemma rows_selected (cutoff : Z) (c : string) (ath : DataFrame) :
  rows (selected cutoff c ath)
  = filter (fun r : row => year_at_least cutoff (cell_of c r))
      (rows (numeric_years c ath)).
Proof.
  unfold selected, series_ge. rewrite (rows_loc_mask (cell_ge cutoff)).
  apply filter_bool_prop. intros r. apply cell_ge_spec.
Qed.

(** C3: when a year column has been resolved and the table is not empty,
    the method succeeds; the year column of the stored table is the
    resolved one read as numbers, with text that is no number turned into
    the missing marker; the active subset is exactly the records of that
    table whose year is a number at least the cutoff, so no record with a
    missing year is in it; the report gives both lengths and 100 times
    their quotient.  For cutoff 2020 and years 2016, 2020, 2024 and a
    missing one, the subset is the 2020 and 2024 records and the retention
    is 50. *)
Theorem active_subset_exact :
  (forall (cutoff : Z) (st : OlympicDataStandardizer) (ath : DataFrame) (c : string),
     resolve_year_column (athletes st) = Ok (ath, c) ->
     rows (athletes st) <> [] ->
     exists st' active rep,
       create_active_athletes_subset cutoff st = Ok (st', active, rep)
       /\ active_athletes st' = Some active
       /\ rows (athletes st')
          = (fun r : row => <[c := to_numeric_cell (cell_of c r)]> r) <$> rows ath
       /\ rows active
          = filter (fun r : row => year_at_least cutoff (cell_of c r))
              (rows (athletes st'))
       /\ (forall r s,
             r ∈ rows ath -> cell_of c r = Str s -> to_numeric_str s = None ->
             <[c := NaN]> r ∈ rows (athletes st')
             /\ (<[c := NaN]> r) ∉ rows active)
       /\ (forall r, r ∈ rows active -> cell_of c r <> NaN)
       /\ total_athletes rep = len (athletes st')
       /\ active_count rep = len active
       /\ (retention_pct rep
           == inject_Z (Z.of_nat (len active))
              / inject_Z (Z.of_nat (len (athletes st'))) * 100)%Q)
  /\ create_active_athletes_subset 2020 (loaded years_athletes)
     = Ok (with_active years_active (loaded years_athletes), years_active,
           mkSubsetReport 4 2 2 50).
Proof.
  split; [|reflexivity].
  intros cutoff st ath c Hres Hrows.
  destruct (resolve_year_column_has _ _ _ Hres) as [Hc Hsame].
  assert (len (numeric_years c ath) <> 0) as Hlen.
  { rewrite len_numeric_years. unfold len. rewrite Hsame.
    by destruct (rows (athletes st)). }
  rewrite (subset_run _ _ _ _ Hres), (percent_of_ok _ _ Hlen).
  eexists _, _, _. split; [reflexivity|].
  cbn [active_athletes athletes with_active with_athletes
       total_athletes active_count retention_pct].
  pose proof (rows_selected cutoff c ath) as Hsel.
  split; [done|]. split; [apply rows_numeric_years|]. split; [done|].
  split; [|split; [|split; [done|split; [done|apply Qred_correct]]]].
  - intros r s Hin Hs Hnone.
    assert (to_numeric_cell (cell_of c r) = NaN) as Hnan.
    { rewrite Hs. simpl. by rewrite Hnone. }
    split.
    + rewrite rows_numeric_years. apply list_elem_of_fmap.
      exists r. by rewrite Hnan.
    + rewrite Hsel. intros Hin'. apply list_elem_of_filter in Hin' as [Hy _].
      rewrite cell_of_insert in Hy. by destruct Hy as (q & ? & _).
  - intros r Hin Hnan. rewrite Hsel in Hin.
    apply list_elem_of_filter in Hin as [(q & Hq & _) _]. congruence.
Qed.






End SubsetClaims.

(** ** unique, sorted, min and max *)

Lemma existsb_false_elem {A} (P : A -> bool) (l : list A) (x : A) :
  existsb P l = false -> x ∈ l -> P x = false.
Proof.
  intros Hex Hin. destruct (P x) eqn:HP; [|done].
  assert (existsb P l = true); [|congruence].
  apply existsb_exists. exists x. by rewrite <- list_elem_of_In.
Qed.

(** A test that cannot tell alike cells apart sees in [unique s] what it
    sees in [s]. *)
Lemma existsb_unique_from (P : cell -> bool) (seen : list cell) (s : Series) :
  (forall x y, cell_same x y = true -> P x = P y) ->
  existsb P seen || existsb P (unique_from seen s)
  = existsb P seen || existsb P s.
Proof.
  intros Hsame. revert seen. induction s as [|x s IH]; intros seen; [done|].
  simpl. destruct (existsb (cell_same x) seen) eqn:Hseen.
  - rewrite IH. apply existsb_exists in Hseen as (y & Hy & Hxy).
    destruct (existsb P seen) eqn:HP; [done|]. simpl.
    apply list_elem_of_In in Hy.
    by rewrite (Hsame x y Hxy), (existsb_false_elem _ _ _ HP Hy).
  - simpl. specialize (IH (x :: seen)). simpl in IH.
    destruct (P x); simpl in *.
    + by rewrite !orb_true_r.
    + done.
Qed.

Lemma existsb_unique (P : cell -> bool) (s : Series) :
  (forall x y, cell_same x y = true -> P x = P y) ->
  existsb P (unique s) = existsb P s.
Proof. intros Hsame. apply (existsb_unique_from P [] s Hsame). Qed.

Lemma elem_of_unique_from (seen : list cell) (s : Series) (x : cell) :
  x ∈ unique_from seen s -> x ∈ s /\ existsb (cell_same x) seen = false.
Proof.
  revert seen. induction s as [|y s IH]; intros seen Hin; simpl in Hin.
  - by apply elem_of_nil in Hin.
  - destruct (existsb (cell_same y) seen) eqn:Hseen.
    + destruct (IH _ Hin) as [? ?]. split; [by apply list_elem_of_further|done].
    + apply elem_of_cons in Hin as [->|Hin].
      * split; [apply list_elem_of_here|done].
      * destruct (IH _ Hin) as [? Hnot]. split; [by apply list_elem_of_further|].
        simpl in Hnot. by apply orb_false_elim in Hnot as [_ ?].
Qed.

Lemma cell_same_refl (x : cell) : notna_cell x = true -> cell_same x x = true.
Proof.
  destruct x as [s|q|]; intros Hx; try done; unfold cell_same, cell_eqb.
  - by apply bool_decide_eq_true.
  - by apply Qeq_bool_iff.
Qed.

Lemma cell_same_self (x : cell) : cell_same x x = true.
Proof. destruct x; [by apply cell_same_refl..|done]. Qed.

(** No two entries of [unique s] are alike, let alone equal. *)
Lemma unique_from_NoDup (seen : list cell) (s : Series) :
  NoDup (unique_from seen s).
Proof.
  revert seen. induction s as [|x s IH]; intros seen; simpl; [constructor|].
  destruct (existsb (cell_same x) seen); [apply IH|].
  constructor; [|apply IH]. intros Hin.
  apply elem_of_unique_from in Hin as [_ Hnot]. simpl in Hnot.
  by rewrite cell_same_self in Hnot.
Qed.









(** ** The quality validator *)



Lemma cell_eqb_same_r (v x y : cell) :
  cell_same x y = true -> cell_eqb x v = cell_eqb y v.
Proof.
  destruct v as [s|p|], x as [t|q|], y as [u|r|]; try done; unfold cell_same, cell_eqb.
  - intros Heq. apply bool_decide_eq_true in Heq as ->. done.
  - intros Heq. apply Qeq_bool_iff in Heq.
    destruct (Qeq_bool q p) eqn:E1, (Qeq_bool r p) eqn:E2; try done.
    + apply Qeq_bool_iff in E1. rewrite Heq in E1. apply Qeq_bool_iff in E1. congruence.
    + apply Qeq_bool_iff in E2. rewrite <- Heq in E2. apply Qeq_bool_iff in E2. congruence.
Qed.

Lemma existsb_column (P : cell -> bool) (c : string) (df : DataFrame) :
  existsb P (column c df) = true <-> exists r, r ∈ rows df /\ P (cell_of c r) = true.
Proof.
  rewrite existsb_exists. unfold column. split.
  - intros (x & Hin & HP). apply list_elem_of_In, list_elem_of_fmap in Hin
      as (r & -> & Hr). eauto.
  - intros (r & Hr & HP). exists (cell_of c r). split; [|done].
    apply list_elem_of_In, list_elem_of_fmap. eauto.
Qed.

Lemma negb_existsb_column (P : cell -> bool) (c : string) (df : DataFrame) :
  negb (existsb P (column c df)) = true
  <-> forall r, r ∈ rows df -> P (cell_of c r) = false.
Proof.
  rewrite negb_true_iff. split.
  - intros Hex r Hr. destruct (P (cell_of c r)) eqn:HP; [|done].
    assert (existsb P (column c df) = true); [|congruence].
    apply existsb_column. eauto.
  - intros Hall. destruct (existsb P (column c df)) eqn:Hex; [|done].
    apply existsb_column in Hex as (r & Hr & HP). by rewrite Hall in HP.
Qed.

Lemma code_in_column (code c : string) (df : DataFrame) :
  negb (code_in code (column c df)) = true
  <-> forall r, r ∈ rows df -> cell_of c r <> Str code.
Proof.
  unfold code_in.
  rewrite (existsb_unique (fun x => cell_eqb x (Str code)))
    by (intros x y; apply cell_eqb_same_r).
  rewrite (negb_existsb_column (fun x => cell_eqb x (Str code))).
  split; intros Hall r Hr; apply cell_eqb_Str_false; by apply Hall.
Qed.


Section ValidatorFacts.
Context `{PyRuntime}.





End ValidatorFacts.

(** ** Feature tables *)

Lemma country_feature_noc (df : DataFrame) (k : cell) :
  cell_of "noc" (country_feature df k) = k.
Proof.
  unfold country_feature, cell_of.
  destruct (has_column "medal" _);
    by rewrite ?lookup_insert_ne, lookup_insert_eq by done.
Qed.

Lemma country_feature_count (df : DataFrame) (k : cell) :
  cell_of "athlete_count" (delete "noc" (country_feature df k))
  = count_of (length (List.filter (fun r => cell_eqb (cell_of "noc" r) k) (rows df))).
Proof.
  unfold cell_of. rewrite lookup_delete_ne by done.
  unfold country_feature.
  destruct (has_column "medal" _);
    rewrite ?lookup_insert_ne, lookup_insert_eq by done; simpl;
    unfold len, series_eq;
    by rewrite (rows_loc_mask (fun x => cell_eqb x k)).
Qed.

Lemma has_noc_feature_labels (df : DataFrame) :
  "noc" ∈ feature_labels df.
Proof. unfold feature_labels. apply elem_of_app. left. apply list_elem_of_here. Qed.

(** What the strength table is when the derivation succeeds. *)
Lemma create_country_features_ok (df : DataFrame) (t : IndexedFrame) :
  create_country_features df = Ok t ->
  has_column "noc" df = true
  /\ rows df <> []
  /\ index t = unique (column "noc" df)
  /\ rows (body t) = (fun k => delete "noc" (country_feature df k))
                       <$> unique (column "noc" df).
Proof.
  unfold create_country_features. intros Hrun.
  destruct (has_column "noc" df) eqn:Hcol;
    [|by rewrite (getitem_raise _ _ Hcol) in Hrun].
  rewrite (getitem_ok _ _ Hcol), bind_ok in Hrun.
  destruct (unique (column "noc" df)) as [|k ks] eqn:Hu; [discriminate|].
  rewrite <- Hu in *.
  assert (frame_of_records (feature_labels df)
            (country_feature df <$> unique (column "noc" df))
          = mkFrame (feature_labels df)
              (country_feature df <$> unique (column "noc" df))) as Hframe.
  { by rewrite Hu. }
  rewrite Hframe in Hrun. unfold set_index in Hrun.
  assert (has_column "noc"
            (mkFrame (feature_labels df)
               (country_feature df <$> unique (column "noc" df))) = true) as Hnoc.
  { apply has_column_true. apply has_noc_feature_labels. }
  rewrite Hnoc in Hrun. injection Hrun as <-. simpl.
  split; [done|]. split; [|split].
  - intros Hnil. unfold column in Hu. by rewrite Hnil in Hu.
  - unfold column at 1. simpl. rewrite <- list_fmap_compose.
    apply (fmap_fixed (fun k => cell_of "noc" (country_feature df k))).
    intros x _. apply country_feature_noc.
  - by rewrite <- list_fmap_compose.
Qed.

(** The strength table has one row for each code of the input, no code
    twice, and the row of a code counts the records that carry it. *)
Lemma strength_table_keys (df : DataFrame) (t : IndexedFrame) :
  create_country_features df = Ok t ->
  NoDup (index t)
  /\ length (rows (body t)) = length (index t)
  /\ (forall r0 code,
        r0 ∈ rows df -> cell_of "noc" r0 = Str code -> Str code ∈ index t)
  /\ (forall i code r,
        index t !! i = Some (Str code) -> rows (body t) !! i = Some r ->
        cell_of "athlete_count" r
        = count_of (length (filter (fun r0 : row => cell_of "noc" r0 = Str code)
                              (rows df)))).
Proof.
  intros Hrun.
  destruct (create_country_features_ok _ _ Hrun) as (Hcol & Hne & Hidx & Hrows).
  rewrite Hidx, Hrows. split; [apply unique_from_NoDup|].
  split; [apply length_fmap|]. split.
  - intros r0 code Hr0 Hcode.
    assert (existsb (fun x => cell_eqb x (Str code)) (unique (column "noc" df)) = true)
      as Hex.
    { rewrite existsb_unique by (intros x y; apply cell_eqb_same_r).
      apply existsb_column. exists r0. split; [done|]. by apply cell_eqb_Str. }
    apply existsb_exists in Hex as (y & Hy & Heq).
    apply cell_eqb_Str in Heq as ->. by apply list_elem_of_In.
  - intros i code r Hi Hr. rewrite list_lookup_fmap, Hi in Hr.
    injection Hr as <-. rewrite country_feature_count. f_equal. f_equal.
    apply filter_bool_prop. intros r0. apply cell_eqb_Str.
Qed.

(** A record whose code is missing gets a row of its own, and that row
    counts no record. *)
Lemma strength_table_missing_code (df : DataFrame) (t : IndexedFrame) (i : nat) (r : row) :
  create_country_features df = Ok t ->
  index t !! i = Some NaN -> rows (body t) !! i = Some r ->
  cell_of "athlete_count" r = count_of 0
  /\ exists r0, r0 ∈ rows df /\ cell_of "noc" r0 = NaN.
Proof.
  intros Hrun Hi Hr.
  destruct (create_country_features_ok _ _ Hrun) as (Hcol & Hne & Hidx & Hrows).
  rewrite Hidx in Hi. rewrite Hrows, list_lookup_fmap, Hi in Hr.
  injection Hr as <-. split.
  - rewrite country_feature_count. f_equal.
    rewrite filter_none; [done|]. intros r0 _. by destruct (cell_of "noc" r0).
  - apply list_elem_of_lookup_2, elem_of_unique_from in Hi as [Hin _].
    unfold column in Hin. apply list_elem_of_fmap in Hin as (r0 & Heq & Hr0).
    eauto.
Qed.

(** *** Columns the derivations can and cannot do without *)

Lemma create_country_features_needs (df : DataFrame) :
  has_column "noc" df = true -> rows df <> [] ->
  exists t, create_country_features df = Ok t.
Proof.
  intros Hcol Hne. unfold create_country_features.
  rewrite (getitem_ok _ _ Hcol), bind_ok.
  destruct (unique (column "noc" df)) as [|k ks] eqn:Hu.
  - exfalso. destruct (rows df) as [|r l] eqn:Hr; [done|].
    unfold unique, column in Hu. rewrite Hr in Hu. discriminate.
  - rewrite fmap_cons. unfold frame_of_records, set_index.
    assert (has_column "noc"
              (mkFrame (feature_labels df)
                 (country_feature df k :: (country_feature df <$> ks))) = true) as ->.
    { apply has_column_true. apply has_noc_feature_labels. }
    eauto.
Qed.

Lemma create_medal_trends_absent (df : DataFrame) :
  has_column "medal" df = false \/ has_column "year" df = false ->
  create_medal_trends df = Ok empty_frame.
Proof.
  intros [Hc|Hc]; unfold create_medal_trends; rewrite Hc; [done|].
  by rewrite andb_false_r.
Qed.

Lemma create_sport_strength_absent (df : DataFrame) :
  has_column "sport" df = false \/ has_column "noc" df = false ->
  create_sport_strength df = Ok empty_frame.
Proof.
  intros [Hc|Hc]; unfold create_sport_strength; rewrite Hc; [done|].
  by rewrite andb_false_r.
Qed.

(** With [sport] and [noc] present, the aggregation asks for the columns
    [medal] and [athlete_id] by name, whichever way [athlete_id] is to be
    counted. *)
Lemma create_sport_strength_needs (df : DataFrame) :
  has_column "sport" df = true -> has_column "noc" df = true ->
  has_column "medal" df = false \/ has_column "athlete_id" df = false ->
  create_sport_strength df = Raise KeyError.
Proof.
  intros Hs Hn Hmiss. unfold create_sport_strength, groupby_agg, groupby.
  rewrite Hs, Hn. simpl forallb. rewrite Hn, Hs. simpl.
  destruct Hmiss as [Hc|Hc]; rewrite Hc; [done|].
  by rewrite andb_false_r.
Qed.

Lemma create_medal_trends_needs_noc (df : DataFrame) :
  has_column "medal" df = true -> has_column "year" df = true ->
  has_column "noc" df = false ->
  create_medal_trends df = Raise KeyError.
Proof.
  intros Hm Hy Hn. unfold create_medal_trends, groupby_size, groupby.
  rewrite Hm, Hy. simpl. unfold has_column in *. simpl. by rewrite Hy, Hn.
Qed.

Lemma standardize_country_codes_needs_noc (st : OlympicDataStandardizer) :
  has_column "noc" (athletes st) = false ->
  standardize_country_codes st = Raise KeyError.
Proof.
  intros Hcol. unfold standardize_country_codes. rewrite Hcol, bind_ok.
  destruct (has_column "noc" (medals st)).
  - destruct (consolidate country_mapping mixed_team (medals st)) as [[m k]|e] eqn:Hm.
    + rewrite !bind_ok. by rewrite (getitem_raise _ _ Hcol).
    + unfold consolidate in Hm.
      destruct (getitem "noc" (medals st)) as [s|e'] eqn:Hg.
      * rewrite bind_ok in Hm.
        by rewrite getitem_ok in Hm by apply has_column_setitem.
      * unfold getitem in Hg. destruct (has_column "noc" (medals st)); [done|].
        injection Hg as <-. by injection Hm as <-.
  - rewrite bind_ok. by rewrite (getitem_raise _ _ Hcol).
Qed.

(** ** The theorems at the sample tables *)

Ltac each_row Hin :=
  repeat (apply elem_of_cons in Hin as [->|Hin]);
  [.. | by apply elem_of_nil in Hin].

Lemma drop_1906_exact_witness :
  has_column "edition" raw_athletes = true
  /\ exists cleaned removed,
       drop_1906 raw_athletes = Ok (cleaned, removed)
       /\ len cleaned + removed = len raw_athletes
       /\ 1 <= removed.
Proof.
  split; [reflexivity|].
  destruct (drop_1906_exact raw_athletes eq_refl)
    as (cleaned & removed & Hrun & _ & _ & _ & Hsum & Hsome & _).
  exists cleaned, removed. split; [exact Hrun|]. split; [exact Hsum|].
  apply Hsome. eexists. split; [apply list_elem_of_here|reflexivity].
Defined.

Lemma consolidate_country_codes_witness :
  has_column "noc" raw_athletes = true
  /\ exists cleaned dropped,
       consolidate country_mapping mixed_team raw_athletes = Ok (cleaned, dropped)
       /\ dropped = 1
       /\ forall r code,
            r ∈ rows cleaned -> code ∈ ["MIX"; "URS"; "EUN"; "GDR"; "FRG"] ->
            cell_of "noc" r <> Str code.
Proof.
  split; [reflexivity|].
  destruct (consolidate_country_codes raw_athletes eq_refl)
    as (cleaned & dropped & Hrun & Hnone & _ & _ & _ & Hn & _).
  exists cleaned, dropped. split; [exact Hrun|]. split; [exact Hn|exact Hnone].
Defined.

Lemma clean_athletes_well_formed : well_formed clean_athletes.
Proof. repeat constructor. Qed.

Lemma cleaning_idempotent_witness :
  well_formed clean_athletes
  /\ drop_1906 clean_athletes = Ok (clean_athletes, 0)
  /\ consolidate country_mapping mixed_team clean_athletes = Ok (clean_athletes, 0).
Proof.
  split; [exact clean_athletes_well_formed|].
  destruct (cleaning_idempotent clean_athletes clean_athletes_well_formed)
    as [Hdrop Hcons].
  split.
  - apply Hdrop; [reflexivity|]. intros r Hin. each_row Hin; discriminate.
  - apply Hcons; [reflexivity|]. intros r code Hin Hcode.
    each_row Hin; each_row Hcode; discriminate.
Defined.

Lemma active_subset_exact_witness :
  resolve_year_column (athletes (loaded text_years_athletes))
  = Ok (text_years_athletes, "year")
  /\ rows (athletes (loaded text_years_athletes)) <> []
  /\ exists st' active rep,
       @create_active_athletes_subset sample_runtime 2020%Z (loaded text_years_athletes)
       = Ok (st', active, rep)
       /\ (forall r, r ∈ rows active -> cell_of "year" r <> NaN)
       /\ total_athletes rep = len (athletes st').
Proof.
  split; [reflexivity|]. split; [discriminate|].
  destruct (proj1 (@active_subset_exact sample_runtime) 2020%Z
              (loaded text_years_athletes) text_years_athletes "year" eq_refl)
    as (st' & active & rep & Hrun & _ & _ & _ & _ & Hnan & Htotal & _);
    [discriminate|].
  exists st', active, rep. split; [exact Hrun|]. split; [exact Hnan|exact Htotal].
Defined.







(** C9 at a table with a missing code: the strength table has a row for
    the missing code whose athlete count is 0, while one record of the
    input has that code. *)
Lemma strength_row_for_missing_code :
  exists t,
    create_country_features missing_code_athletes = Ok t
    /\ index t = [NaN; Str "USA"]
    /\ cell_of "athlete_count" <$> rows (body t) = [count_of 0; count_of 1]
    /\ length (filter (fun r : row => cell_of "noc" r = NaN)
                 (rows missing_code_athletes)) = 1.
Proof. eexists. repeat split. Qed.

(** C7 at tables that lack a column: the category table raises when
    [athlete_id] is absent, and code consolidation raises when the athletes
    table has no [noc] column. *)
Lemma optional_columns_raise :
  has_column "athlete_id" clean_athletes = false
  /\ create_sport_strength clean_athletes = Raise KeyError
  /\ has_column "noc" (athletes (loaded no_code_athletes)) = false
  /\ standardize_country_codes (loaded no_code_athletes) = Raise KeyError.
Proof. repeat split. Qed.

(** * Further properties *)

(** ** The anomaly stage as a whole *)

Lemma bind_raise {A B} (e : exn) (f : A -> result B) : (Raise e ≫= f) = Raise e.
Proof. reflexivity. Qed.

Lemma is_str_same (x y : cell) : cell_same x y = true -> is_str x = is_str y.
Proof. by destruct x, y. Qed.

Section AnomalyStage.
Context `{PyRuntime}.

(** A successful run of the stage, taken apart. *)
Lemma handle_historical_anomalies_inv
    (st st' : OlympicDataStandardizer) (rep : AnomalyReport) :
  handle_historical_anomalies st = Ok (st', rep) ->
  exists a n m dm eds,
    drop_1906 (athletes st) = Ok (a, n)
    /\ (if has_column "edition" (medals st)
        then exists d, drop_1906 (medals st) = Ok (m, d) /\ dm = Some d
        else m = medals st /\ dm = None)
    /\ py_sorted (unique (column "edition" a)) = Ok eds
    /\ st' = with_medals m (with_athletes a st)
    /\ rep = mkAnomalyReport n dm
               (existsb (fun ed => contains "1940" (py_str ed)) eds)
               (existsb (fun ed => contains "1944" (py_str ed)) eds).
Proof.
  unfold handle_historical_anomalies. intros Hrun.
  destruct (drop_1906 (athletes st)) as [[a n]|e] eqn:Ha; [|discriminate].
  rewrite bind_ok in Hrun.
  assert (has_column "edition" a = true) as Hcol.
  { destruct (drop_1906_rows _ _ _ Ha) as (Hc & Hcols & _).
    apply has_column_true. rewrite Hcols. by apply has_column_true. }
  rewrite Hcol in Hrun.
  destruct (has_column "edition" (medals st)) eqn:Hm.
  - destruct (drop_1906 (medals st)) as [[m d]|e] eqn:Hd; [|discriminate].
    rewrite !bind_ok in Hrun.
    destruct (py_sorted (unique (column "edition" a))) as [eds|e] eqn:Hs;
      [|discriminate].
    rewrite bind_ok in Hrun. injection Hrun as <- <-.
    exists a, n, m, (Some d), eds. repeat split; eauto.
  - rewrite bind_ok in Hrun.
    destruct (py_sorted (unique (column "edition" a))) as [eds|e] eqn:Hs;
      [|discriminate].
    rewrite bind_ok in Hrun. injection Hrun as <- <-.
    exists a, n, (medals st), None, eds. repeat split; eauto.
Qed.


(** X2: the anomaly stage raises [KeyError] exactly when the athletes table
    has no [edition] column, and [TypeError] exactly when it has one that
    holds, next to an edition text other than the 1906 one, a cell that is
    no text (a missing edition, say): the editions left after the removal
    cannot be sorted.  It raises nothing else. *)
Theorem anomaly_stage_errors (st : OlympicDataStandardizer) (e : exn) :
  handle_historical_anomalies st = Raise e
  <-> (e = KeyError /\ has_column "edition" (athletes st) = false)
      \/ (e = TypeError
          /\ has_column "edition" (athletes st) = true
          /\ (exists r t, r ∈ rows (athletes st)
                          /\ cell_of "edition" r = Str t /\ t <> edition_1906)
          /\ (exists r, r ∈ rows (athletes st)
                        /\ is_str (cell_of "edition" r) = false)).
Proof.
  unfold handle_historical_anomalies.
  destruct (has_column "edition" (athletes st)) eqn:Hcol.
  2:{ unfold drop_1906. rewrite (getitem_raise _ _ Hcol). split.
      - intros [= <-]. by left.
      - intros [[-> _]|(_ & ? & _)]; done. }
  rewrite (drop_1906_ok _ Hcol), bind_ok.
  set (a := loc_mask _ (athletes st)).
  assert (rows a = filter (fun r : row => cell_of "edition" r <> Str edition_1906)
                     (rows (athletes st))) as Hrows
    by apply rows_drop_by_text.
  assert (has_column "edition" a = true) as -> by done.
  assert (existsb is_str (unique (column "edition" a)) = true
          <-> exists r t, r ∈ rows (athletes st)
                          /\ cell_of "edition" r = Str t /\ t <> edition_1906)
    as Htext.
  { rewrite existsb_unique by apply is_str_same. rewrite existsb_column.
    split.
    - intros (r & Hin & Hs). rewrite Hrows in Hin.
      apply list_elem_of_filter in Hin as [Hne Hin].
      destruct (cell_of "edition" r) as [t| |] eqn:Hc; try done.
      exists r, t. repeat split; try done. congruence.
    - intros (r & t & Hin & Hc & Hne). exists r. split; [|by rewrite Hc].
      rewrite Hrows. apply list_elem_of_filter. split; [|done].
      rewrite Hc. congruence. }
  assert (existsb (fun x => negb (is_str x)) (unique (column "edition" a)) = true
          <-> exists r, r ∈ rows (athletes st)
                        /\ is_str (cell_of "edition" r) = false)
    as Hother.
  { rewrite existsb_unique
      by (intros x y Hxy; by rewrite (is_str_same x y Hxy)).
    rewrite existsb_column. split.
    - intros (r & Hin & Hs). rewrite Hrows in Hin.
      apply list_elem_of_filter in Hin as [_ Hin].
      exists r. split; [done|]. by apply negb_true_iff.
    - intros (r & Hin & Hs). exists r. split; [|by apply negb_true_iff].
      rewrite Hrows. apply list_elem_of_filter. split; [|done].
      intros Hc. by rewrite Hc in Hs. }
  assert (forall m : result (DataFrame * option nat),
            (exists v, m = Ok v) ->
            (m ≫= (fun '(med, deleted_medals) =>
               py_sorted (unique (column "edition" a)) ≫= (fun eds =>
                 Ok (with_medals med (with_athletes a st),
                     mkAnomalyReport
                       (len (athletes st) - len a) deleted_medals
                       (existsb (fun ed => contains "1940" (py_str ed)) eds)
                       (existsb (fun ed => contains "1944" (py_str ed)) eds))))
             = Raise e)
            <-> py_sorted (unique (column "edition" a)) = Raise e) as Hbind.
  { intros m [[med dm] ->]. rewrite bind_ok.
    destruct (py_sorted _) as [eds|e'];
      [|rewrite bind_raise; split; intros [= ->]; done].
    rewrite bind_ok. split; discriminate. }
  rewrite Hbind.
  2:{ destruct (has_column "edition" (medals st)) eqn:Hm; [|eauto].
      rewrite (drop_1906_ok _ Hm), bind_ok. eauto. }
  unfold py_sorted.
  destruct (existsb is_str _) eqn:E1;
    destruct (existsb (fun x => negb (is_str x)) _) eqn:E2; simpl.
  - split.
    + intros [= <-]. right. repeat split; [by apply Htext|by apply Hother].
    + intros [[_ ?]|(-> & _)]; done.
  - split; [done|]. intros [[_ ?]|(_ & _ & _ & Hx)]; [done|].
    apply Hother in Hx. congruence.
  - split; [done|]. intros [[_ ?]|(_ & _ & Hx & _)]; [done|].
    apply Htext in Hx. congruence.
  - split; [done|]. intros [[_ ?]|(_ & _ & Hx & _)]; [done|].
    apply Htext in Hx. congruence.
Qed.

End AnomalyStage.

(** ** The code stage as a whole *)

(** A successful run of the stage, taken apart. *)
Lemma standardize_country_codes_inv
    (st st' : OlympicDataStandardizer) (rep : CodeReport) :
  standardize_country_codes st = Ok (st', rep) ->
  exists a n m,
    has_column "noc" (athletes st) = true
    /\ consolidate country_mapping mixed_team (athletes st) = Ok (a, n)
    /\ (if has_column "noc" (medals st)
        then exists k, consolidate country_mapping mixed_team (medals st) = Ok (m, k)
        else m = medals st)
    /\ st' = with_medals m (with_athletes a st)
    /\ rep = mkCodeReport (Some n)
               (if code_in "RUS" (column "noc" a)
                then Some (count_code "RUS" (column "noc" a)) else None)
               (if code_in "GER" (column "noc" a)
                then Some (count_code "GER" (column "noc" a)) else None)
               (has_column "noc" (medals st))
               (List.filter (fun s => code_in s (column "noc" a)) post_soviet_states).
Proof.
  intros Hrun.
  destruct (has_column "noc" (athletes st)) eqn:Hcol;
    [|by rewrite (standardize_country_codes_needs_noc _ Hcol) in Hrun].
  unfold standardize_country_codes in Hrun. rewrite Hcol in Hrun.
  destruct (consolidate country_mapping mixed_team (athletes st))
    as [[a n]|e] eqn:Ha; [|discriminate].
  rewrite !bind_ok in Hrun.
  assert (has_column "noc" a = true) as Ha_col.
  { destruct (consolidate_rows _ _ _ _ _ Ha Hcol) as (Hcols & _).
    apply has_column_true. rewrite Hcols. by apply has_column_true. }
  destruct (has_column "noc" (medals st)) eqn:Hm.
  - destruct (consolidate country_mapping mixed_team (medals st))
      as [[m k]|e] eqn:Hk; [|discriminate].
    rewrite !bind_ok, (getitem_ok _ _ Ha_col), bind_ok in Hrun.
    injection Hrun as <- <-. exists a, n, m. repeat split; eauto.
  - rewrite !bind_ok, (getitem_ok _ _ Ha_col), bind_ok in Hrun.
    injection Hrun as <- <-. exists a, n, (medals st). repeat split; eauto.
Qed.

Lemma consolidate_lengths (table cleaned : DataFrame) (dropped : nat) :
  consolidate country_mapping mixed_team table = Ok (cleaned, dropped) ->
  len cleaned + dropped = len table
  /\ dropped = length (filter (fun r : row => cell_of "noc" r = Str mixed_team)
                         (rows table)).
Proof.
  intros Hrun.
  destruct (has_column "noc" table) eqn:Hcol;
    [|unfold consolidate in Hrun; by rewrite (getitem_raise _ _ Hcol) in Hrun].
  destruct (consolidate_rows _ _ _ _ _ Hrun Hcol) as (_ & Hrows & Hn).
  assert (dropped = length (filter (fun r : row => cell_of "noc" r = Str mixed_team)
                              (rows table))) as Hn'.
  { rewrite Hn. f_equal. apply list_filter_iff. intros r.
    apply replace_country_mixed. }
  split; [|done]. unfold len. rewrite Hrows, length_fmap, Hn.
  pose proof (filter_app_complement
                (fun r : row =>
                   replace_cell country_mapping (cell_of "noc" r) = Str mixed_team)
                (rows table)) as Hperm.
  apply Permutation_length in Hperm. rewrite length_app in Hperm.
  rewrite <- Hperm. lia.
Qed.


(** X4: the code stage raises exactly when the athletes table has no [noc]
    column, and then it is a [KeyError]: the block that rewrites the codes
    is guarded, the listing of post-Soviet states after it is not. *)
Theorem code_stage_errors (st : OlympicDataStandardizer) (e : exn) :
  standardize_country_codes st = Raise e
  <-> e = KeyError /\ has_column "noc" (athletes st) = false.
Proof.
  split.
  - intros Hrun. destruct (has_column "noc" (athletes st)) eqn:Hcol.
    + exfalso. unfold standardize_country_codes in Hrun. rewrite Hcol in Hrun.
      rewrite (consolidate_ok _ _ _ Hcol), !bind_ok in Hrun.
      set (a := loc_mask _ _) in Hrun.
      assert (has_column "noc" a = true) as Ha.
      { apply has_column_true. unfold a. rewrite columns_loc_mask.
        unfold substituted. rewrite columns_setitem_present by done.
        by apply has_column_true. }
      destruct (has_column "noc" (medals st)) eqn:Hm.
      * rewrite (consolidate_ok _ _ _ Hm), !bind_ok, (getitem_ok _ _ Ha) in Hrun.
        discriminate.
      * rewrite !bind_ok, (getitem_ok _ _ Ha) in Hrun. discriminate.
    + rewrite (standardize_country_codes_needs_noc _ Hcol) in Hrun.
      by injection Hrun as <-.
  - intros [-> Hcol]. by apply standardize_country_codes_needs_noc.
Qed.

(** ** What the merge does to the counts *)

Lemma length_nonzero_elem {A} (l : list A) :
  length l <> 0 <-> exists x, x ∈ l.
Proof.
  destruct l as [|x l]; simpl.
  - split; [done|]. intros [x Hx]. by apply elem_of_nil in Hx.
  - split; [|done]. intros _. exists x. apply list_elem_of_here.
Qed.

Lemma count_code_column (code c : string) (df : DataFrame) :
  count_code code (column c df)
  = length (filter (fun r : row => cell_of c r = Str code) (rows df)).
Proof.
  unfold count_code, column.
  induction (rows df) as [|r l IH]; [done|].
  rewrite fmap_cons, filter_cons. simpl.
  destruct (decide (cell_of c r = Str code)) as [Heq|Hne].
  - rewrite (proj2 (cell_eqb_Str _ _) Heq). simpl. by rewrite IH.
  - rewrite (proj2 (cell_eqb_Str_false _ _) Hne). done.
Qed.

Lemma code_in_count (code : string) (s : Series) :
  code_in code s = negb (count_code code s =? 0)%nat.
Proof.
  unfold code_in, count_code.
  rewrite existsb_unique by (intros x y; apply cell_eqb_same_r).
  induction s as [|x s IH]; [done|]. simpl.
  destruct (cell_eqb x (Str code)); simpl; [done|apply IH].
Qed.

Lemma replace_country_target (x : cell) (target : string) :
  target <> mixed_team ->
  target ∉ ["URS"; "EUN"; "GDR"; "FRG"] ->
  replace_cell country_mapping x = Str target
  <-> x = Str target
      \/ exists old, x = Str old /\ country_mapping !! old = Some target.
Proof.
  intros Hmix Hkey. split.
  - intros Heq. destruct x as [s|q|]; simpl in Heq; try discriminate.
    destruct (country_mapping !! s) as [t|] eqn:Hl.
    + injection Heq as ->. right. eauto.
    + left. done.
  - intros [->|(old & -> & Hl)].
    + simpl. destruct (country_mapping !! target) as [t|] eqn:Hl; [|done].
      exfalso. apply Hkey. apply country_mapping_lookup in Hl.
      set_unfold. tauto.
    + simpl. by rewrite Hl.
Qed.

(** The records that read [target] after consolidation are those whose
    code was [target] or was rewritten to it. *)
Lemma consolidate_count (table cleaned : DataFrame) (dropped : nat)
    (target : string) :
  consolidate country_mapping mixed_team table = Ok (cleaned, dropped) ->
  target <> mixed_team ->
  count_code target (column "noc" cleaned)
  = length (filter (fun r : row =>
                      replace_cell country_mapping (cell_of "noc" r) = Str target)
              (rows table)).
Proof.
  intros Hrun Hmix.
  destruct (has_column "noc" table) eqn:Hcol;
    [|unfold consolidate in Hrun; by rewrite (getitem_raise _ _ Hcol) in Hrun].
  destruct (consolidate_rows _ _ _ _ _ Hrun Hcol) as (_ & Hrows & _).
  rewrite count_code_column, Hrows, filter_fmap_comm, length_fmap.
  rewrite list_filter_filter. f_equal. apply list_filter_iff. intros r.
  rewrite cell_of_insert. split; [tauto|]. intros Heq. split; [done|].
  rewrite Heq. congruence.
Qed.

(** X5: after a successful code stage the Russia total that is printed is
    the number of records that carried RUS, URS or EUN before the stage,
    and the Germany total the number that carried GER, GDR or FRG; a total
    is printed exactly when that number is not zero. *)
Theorem merged_totals
    (st st' : OlympicDataStandardizer) (rep : CodeReport) :
  standardize_country_codes st = Ok (st', rep) ->
  let count (codes : list cell) :=
    length (filter (fun r : row => cell_of "noc" r ∈ codes) (rows (athletes st))) in
  russia_total rep
  = (if decide (count [Str "RUS"; Str "URS"; Str "EUN"] = 0) then None
     else Some (count [Str "RUS"; Str "URS"; Str "EUN"]))
  /\ germany_total rep
     = (if decide (count [Str "GER"; Str "GDR"; Str "FRG"] = 0) then None
        else Some (count [Str "GER"; Str "GDR"; Str "FRG"])).
Proof.
  intros Hrun count.
  destruct (standardize_country_codes_inv _ _ _ Hrun)
    as (a & n & m & Hcol & Ha & _ & -> & ->).
  cbn [russia_total germany_total].
  rewrite !code_in_count.
  assert (count_code "RUS" (column "noc" a)
          = count [Str "RUS"; Str "URS"; Str "EUN"]) as ->.
  { rewrite (consolidate_count _ _ _ "RUS" Ha) by done.
    unfold count. f_equal. apply list_filter_iff. intros r.
    rewrite (replace_country_target _ "RUS") by (set_unfold; intuition discriminate).
    set_unfold. split.
    - intros [Heq|(old & Heq & Hl)]; [tauto|].
      apply country_mapping_lookup in Hl. rewrite Heq.
      destruct Hl as [[-> _]|[[-> _]|[[_ ?]|[_ ?]]]]; try discriminate; tauto.
    - intros [->|[->|[->|[]]]]; [by left|right..];
        eexists; (split; [reflexivity|reflexivity]). }
  assert (count_code "GER" (column "noc" a)
          = count [Str "GER"; Str "GDR"; Str "FRG"]) as ->.
  { rewrite (consolidate_count _ _ _ "GER" Ha) by done.
    unfold count. f_equal. apply list_filter_iff. intros r.
    rewrite (replace_country_target _ "GER") by (set_unfold; intuition discriminate).
    set_unfold. split.
    - intros [Heq|(old & Heq & Hl)]; [tauto|].
      apply country_mapping_lookup in Hl. rewrite Heq.
      destruct Hl as [[_ ?]|[[_ ?]|[[-> _]|[-> _]]]]; try discriminate; tauto.
    - intros [->|[->|[->|[]]]]; [by left|right..];
        eexists; (split; [reflexivity|reflexivity]). }
  split.
  - destruct (decide (count [Str "RUS"; Str "URS"; Str "EUN"] = 0)) as [->|Hne];
      [done|].
    by destruct (Nat.eqb_spec (count [Str "RUS"; Str "URS"; Str "EUN"]) 0).
  - destruct (decide (count [Str "GER"; Str "GDR"; Str "FRG"] = 0)) as [->|Hne];
      [done|].
    by destruct (Nat.eqb_spec (count [Str "GER"; Str "GDR"; Str "FRG"]) 0).
Qed.

(** X6: consolidation leaves every other code alone: for a code that is
    neither MIX nor rewritten by the mapping nor a target of it, the
    records that carry it are the same records, in the same order, before
    and after; so the post-Soviet states that the stage lists as kept
    separate are exactly those of its list that occur in the input. *)
Theorem other_codes_kept
    (st st' : OlympicDataStandardizer) (rep : CodeReport) :
  standardize_country_codes st = Ok (st', rep) ->
  (forall code,
     code ∉ ["MIX"; "URS"; "EUN"; "GDR"; "FRG"; "RUS"; "GER"] ->
     filter (fun r : row => cell_of "noc" r = Str code) (rows (athletes st'))
     = filter (fun r : row => cell_of "noc" r = Str code) (rows (athletes st)))
  /\ (forall s,
        s ∈ found_states rep
        <-> s ∈ post_soviet_states
            /\ exists r, r ∈ rows (athletes st) /\ cell_of "noc" r = Str s).
Proof.
  intros Hrun.
  destruct (standardize_country_codes_inv _ _ _ Hrun)
    as (a & n & m & Hcol & Ha & _ & -> & ->).
  cbn [athletes with_medals with_athletes found_states].
  destruct (consolidate_rows _ _ _ _ _ Ha Hcol) as (_ & Hrows & _).
  assert (forall code (x : cell),
            code ∉ ["MIX"; "URS"; "EUN"; "GDR"; "FRG"; "RUS"; "GER"] ->
            replace_cell country_mapping x = Str code <-> x = Str code) as Hrep.
  { intros code x Hcode. split.
    - intros Heq. destruct x as [t|q|]; simpl in Heq; try discriminate.
      destruct (country_mapping !! t) as [u|] eqn:Hl; [|done].
      injection Heq as ->. apply country_mapping_lookup in Hl.
      exfalso. apply Hcode. set_unfold.
      destruct Hl as [[_ ->]|[[_ ->]|[[_ ->]|[_ ->]]]]; tauto.
    - intros ->. simpl.
      destruct (country_mapping !! code) as [u|] eqn:Hl; [|done].
      apply country_mapping_lookup in Hl. exfalso. apply Hcode. set_unfold.
      destruct Hl as [[-> _]|[[-> _]|[[-> _]|[-> _]]]]; tauto. }
  assert (forall code,
            code ∉ ["MIX"; "URS"; "EUN"; "GDR"; "FRG"; "RUS"; "GER"] ->
            filter (fun r : row => cell_of "noc" r = Str code) (rows a)
            = filter (fun r : row => cell_of "noc" r = Str code)
                (rows (athletes st))) as Hkept.
  { intros code Hcode. rewrite Hrows, filter_fmap_comm, list_filter_filter.
    rewrite (list_filter_iff _ (fun r : row => cell_of "noc" r = Str code)).
    - apply fmap_fixed. intros r Hin.
      apply list_elem_of_filter in Hin as [Hc _].
      apply insert_id. rewrite Hc. simpl.
      assert (country_mapping !! code = None) as ->.
      { destruct (country_mapping !! code) as [u|] eqn:Hl; [|done].
        apply country_mapping_lookup in Hl. exfalso. apply Hcode. set_unfold.
        destruct Hl as [[-> _]|[[-> _]|[[-> _]|[-> _]]]]; tauto. }
      unfold cell_of in Hc. by destruct (r !! "noc") as [x|]; simplify_eq/=.
    - intros r. rewrite cell_of_insert, (Hrep code) by done.
      split; [tauto|]. intros Hc. split; [done|].
      rewrite Hc. simpl.
      assert (country_mapping !! code = None) as ->.
      { destruct (country_mapping !! code) as [u|] eqn:Hl; [|done].
        apply country_mapping_lookup in Hl. exfalso. apply Hcode. set_unfold.
        destruct Hl as [[-> _]|[[-> _]|[[-> _]|[-> _]]]]; tauto. }
      intros [= ->]. apply Hcode. set_unfold. tauto. }
  split; [done|]. intros s.
  rewrite elem_of_filter_bool. split.
  - intros [Hs Hin]. split; [done|].
    rewrite code_in_count, negb_true_iff in Hin.
    apply Nat.eqb_neq in Hin. rewrite count_code_column in Hin.
    rewrite Hkept in Hin.
    + apply length_nonzero_elem in Hin as [r Hr].
      apply list_elem_of_filter in Hr as [? ?]. eauto.
    + unfold post_soviet_states in Hs. set_unfold.
      intros Hbad. destruct Hs as [->|[->|[->|[->|[->|[->|[->|[->|[->|[]]]]]]]]]];
        intuition discriminate.
  - intros [Hs (r & Hin & Hc)]. split; [done|].
    rewrite code_in_count, negb_true_iff. apply Nat.eqb_neq.
    rewrite count_code_column, Hkept.
    + apply length_nonzero_elem. exists r. by apply list_elem_of_filter.
    + unfold post_soviet_states in Hs. set_unfold.
      intros Hbad. destruct Hs as [->|[->|[->|[->|[->|[->|[->|[->|[->|[]]]]]]]]]];
        intuition discriminate.
Qed.

(** ** The subset stage as a whole *)

Section SubsetStage.
Context `{PyRuntime}.

(** A successful run of the stage, taken apart. *)
Lemma create_active_athletes_subset_inv (cutoff : Z)
    (st st' : OlympicDataStandardizer) (active : DataFrame) (rep : SubsetReport) :
  create_active_athletes_subset cutoff st = Ok (st', active, rep) ->
  exists ath c pct,
    resolve_year_column (athletes st) = Ok (ath, c)
    /\ percent_of (len (selected cutoff c ath)) (len (numeric_years c ath)) = Ok pct
    /\ st' = with_active (selected cutoff c ath)
               (with_athletes (numeric_years c ath) st)
    /\ active = selected cutoff c ath
    /\ rep = mkSubsetReport (len (numeric_years c ath)) (len (selected cutoff c ath))
               (len (numeric_years c ath) - len (selected cutoff c ath)) pct.
Proof.
  intros Hrun.
  destruct (resolve_year_column (athletes st)) as [[ath c]|e] eqn:Hres;
    [|unfold create_active_athletes_subset in Hrun; by rewrite Hres in Hrun].
  rewrite (subset_run _ _ _ _ Hres) in Hrun.
  destruct (percent_of _ _) as [pct|e] eqn:Hpct; [|discriminate].
  injection Hrun as <- <- <-. exists ath, c, pct. done.
Qed.

Lemma len_selected (cutoff : Z) (c : string) (ath : DataFrame) :
  len (selected cutoff c ath) <= len (numeric_years c ath).
Proof. unfold len. rewrite rows_selected. apply length_filter. Qed.

Lemma percent_of_bounds (a b : nat) (pct : Q) :
  percent_of a b = Ok pct -> a <= b -> (0 <= pct)%Q /\ (pct <= 100)%Q.
Proof.
  unfold percent_of. destruct (Nat.eqb_spec b 0) as [|Hb]; [discriminate|].
  intros [= <-] Hle. rewrite Qred_correct.
  assert (0 < inject_Z (Z.of_nat b))%Q as Hpos.
  { rewrite <- (Zlt_Qlt 0). lia. }
  assert (0 <= inject_Z (Z.of_nat a))%Q as Hnn.
  { rewrite <- (Zle_Qle 0). lia. }
  assert (inject_Z (Z.of_nat a) <= inject_Z (Z.of_nat b))%Q as Hab.
  { rewrite <- Zle_Qle. lia. }
  split.
  - apply Qmult_le_0_compat; [|done].
    apply Qle_shift_div_l; [done|]. by rewrite Qmult_0_l.
  - rewrite <- (Qmult_1_l 100) at 2. apply Qmult_le_compat_r; [|done].
    apply Qle_shift_div_r; [done|]. by rewrite Qmult_1_l.
Qed.

(** X7: when the subset stage succeeds, the athletes table keeps all its
    records, the subset it stores is the frame it returns, has the same
    columns as the athletes table and is a sub-sequence of its records; the
    three numbers it prints add up (active + filtered out = total) and the
    retention lies between 0 and 100; hosts, medals and programs are not
    touched. *)
Theorem subset_stage_invariants (cutoff : Z)
    (st st' : OlympicDataStandardizer) (active : DataFrame) (rep : SubsetReport) :
  create_active_athletes_subset cutoff st = Ok (st', active, rep) ->
  active_athletes st' = Some active
  /\ hosts st' = hosts st /\ medals st' = medals st /\ programs st' = programs st
  /\ len (athletes st') = len (athletes st)
  /\ columns active = columns (athletes st')
  /\ rows active `sublist_of` rows (athletes st')
  /\ total_athletes rep = len (athletes st')
  /\ active_count rep = len active
  /\ active_count rep + inactive_count rep = total_athletes rep
  /\ (0 <= retention_pct rep)%Q /\ (retention_pct rep <= 100)%Q.
Proof.
  intros Hrun.
  destruct (create_active_athletes_subset_inv _ _ _ _ _ Hrun)
    as (ath & c & pct & Hres & Hpct & -> & -> & ->).
  cbn [active_athletes hosts medals programs athletes with_active with_athletes
       total_athletes active_count inactive_count retention_pct].
  pose proof (len_selected cutoff c ath) as Hle.
  destruct (resolve_year_column_has _ _ _ Hres) as [_ Hsame].
  split; [done|]. split; [done|]. split; [done|]. split; [done|].
  split; [rewrite len_numeric_years; exact Hsame|].
  split; [done|].
  split; [rewrite rows_selected; apply sublist_filter|].
  split; [done|]. split; [done|]. split; [lia|].
  by apply (percent_of_bounds _ _ _ Hpct).
Qed.

(** X8: the stored athletes table does not depend on the cutoff, and a
    later cutoff selects a sub-sequence of what an earlier one selects. *)
Theorem subset_monotone (early late : Z) (st st1 st2 : OlympicDataStandardizer)
    (active1 active2 : DataFrame) (rep1 rep2 : SubsetReport) :
  (early <= late)%Z ->
  create_active_athletes_subset early st = Ok (st1, active1, rep1) ->
  create_active_athletes_subset late st = Ok (st2, active2, rep2) ->
  athletes st1 = athletes st2
  /\ rows active2 `sublist_of` rows active1
  /\ active_count rep2 <= active_count rep1.
Proof.
  intros Hle Hrun1 Hrun2.
  destruct (create_active_athletes_subset_inv _ _ _ _ _ Hrun1)
    as (ath & c & pct & Hres & _ & -> & -> & ->).
  destruct (create_active_athletes_subset_inv _ _ _ _ _ Hrun2)
    as (ath' & c' & pct' & Hres' & _ & -> & -> & ->).
  rewrite Hres in Hres'. injection Hres' as <- <-.
  cbn [athletes with_active with_athletes active_count].
  assert (rows (selected late c ath) `sublist_of` rows (selected early c ath))
    as Hsub.
  { rewrite !rows_selected.
    rewrite <- (list_filter_filter_l
                  (fun r : row => year_at_least late (cell_of c r))
                  (fun r : row => year_at_least early (cell_of c r))
                  (rows (numeric_years c ath))).
    - apply sublist_filter.
    - intros r (q & Hq & Hge). exists q. split; [done|].
      apply (Qle_trans _ (inject_Z late)); [|exact Hge].
      by rewrite <- Zle_Qle. }
  split; [done|]. split; [done|]. unfold len. by apply sublist_length.
Qed.

Lemma resolved_column_is_year (ath ath' : DataFrame) (c : string) :
  resolve_year_column ath = Ok (ath', c) -> c ∈ year_columns.
Proof.
  intros Hres.
  destruct (resolve_year_column_cases ath)
    as [(c0 & Hfind & _ & Heq)|[(_ & _ & Heq)|[(_ & _ & _ & Heq)|(_ & _ & Heq)]]];
    rewrite Heq in Hres; try discriminate; injection Hres as <- <-.
  - apply find_some in Hfind as [Hin _]. by apply list_elem_of_In.
  - apply list_elem_of_here.
Qed.

Lemma column_setitem_other (c c' : string) (s : Series) (df : DataFrame) :
  c <> c' -> length s = length (rows df) ->
  column c' (setitem c s df) = column c' df.
Proof.
  intros Hne. unfold column, setitem. simpl.
  revert s. induction (rows df) as [|r l IH]; intros [|v s] Hlen;
    try discriminate; [done|].
  cbn [zip_with]. rewrite !fmap_cons. f_equal.
  - unfold cell_of. by rewrite lookup_insert_ne.
  - apply IH. by injection Hlen.
Qed.

Lemma subset_other_columns (cutoff : Z)
    (st st' : OlympicDataStandardizer) (active : DataFrame) (rep : SubsetReport)
    (c : string) :
  create_active_athletes_subset cutoff st = Ok (st', active, rep) ->
  c ∉ year_columns ->
  column c (athletes st') = column c (athletes st).
Proof.
  intros Hrun Hc'.
  destruct (create_active_athletes_subset_inv _ _ _ _ _ Hrun)
    as (ath & c0 & pct & Hres & _ & -> & _ & _).
  cbn [athletes with_active with_athletes].
  pose proof (resolved_column_is_year _ _ _ Hres) as Hyear.
  assert (c0 <> c) as Hne by (intros ->; done).
  unfold numeric_years.
  rewrite column_setitem_other;
    [|done|unfold to_numeric, column; by rewrite !length_fmap].
  clear Hyear.
  destruct (resolve_year_column_cases (athletes st))
    as [(c1 & _ & _ & Heq)|[(_ & _ & Heq)|[(_ & _ & _ & Heq)|(_ & _ & Heq)]]];
    rewrite Heq in Hres; try discriminate; injection Hres as <- Hc.
  - done.
  - apply column_setitem_other; [by rewrite Hc|].
    unfold extract_year, column. by rewrite !length_fmap.
Qed.

(** X9: the subset stage rewrites the year column only: every column whose
    name is none of [year], [edition_year], [games_year] holds after the
    stage what it held before, and the columns of the table are the same,
    with [year] added at the end when the year was read out of [edition]. *)
Theorem subset_stage_frame (cutoff : Z)
    (st st' : OlympicDataStandardizer) (active : DataFrame) (rep : SubsetReport) :
  create_active_athletes_subset cutoff st = Ok (st', active, rep) ->
  (forall c, c ∉ ["year"; "edition_year"; "games_year"] ->
     column c (athletes st') = column c (athletes st))
  /\ columns (athletes st')
     = (if existsb (fun c => has_column c (athletes st))
             ["year"; "edition_year"; "games_year"]
        then columns (athletes st)
        else columns (athletes st) ++ ["year"]).
Proof.
  intros Hrun.
  destruct (create_active_athletes_subset_inv _ _ _ _ _ Hrun)
    as (ath & c & pct & Hres & _ & -> & _ & _).
  cbn [athletes with_active with_athletes].
  pose proof (resolved_column_is_year _ _ _ Hres) as Hyear.
  destruct (resolve_year_column_has _ _ _ Hres) as [Hc _].
  split.
  - intros c' Hc'. by apply (subset_other_columns _ _ _ _ _ _ Hrun).
  - unfold numeric_years. rewrite columns_setitem_present by done.
    destruct (resolve_year_column_cases (athletes st))
      as [(c0 & Hfind & Hc0 & Heq)|[(Hfind & _ & Heq)|[(_ & _ & _ & Heq)|(_ & _ & Heq)]]];
      rewrite Heq in Hres; try discriminate; injection Hres as <- <-.
    + assert (existsb (fun c => has_column c (athletes st))
                ["year"; "edition_year"; "games_year"] = true) as ->; [|done].
      apply existsb_exists. exists c0. split; [|done].
      apply find_some in Hfind as [Hin _]. done.
    + rewrite find_year_column_none in Hfind.
      assert (existsb (fun c => has_column c (athletes st))
                ["year"; "edition_year"; "games_year"] = false) as ->.
      { simpl. rewrite !Hfind by (unfold year_columns; set_unfold; tauto). done. }
      unfold setitem. simpl.
      by rewrite Hfind by (unfold year_columns; set_unfold; tauto).
Qed.

Lemma find_pointwise {A} (f g : A -> bool) (l : list A) :
  (forall x, f x = g x) -> List.find f l = List.find g l.
Proof.
  intros Hfg. induction l as [|x l IH]; [done|]. simpl. by rewrite Hfg, IH.
Qed.

Lemma to_numeric_cell_twice (x : cell) :
  to_numeric_cell (to_numeric_cell x) = to_numeric_cell x.
Proof. destruct x as [s|q|]; simpl; try done. by destruct (to_numeric_str s). Qed.

Lemma numeric_years_twice (c : string) (ath : DataFrame) :
  has_column c ath = true ->
  numeric_years c (numeric_years c ath) = numeric_years c ath.
Proof.
  intros Hc. apply frame_eq.
  - unfold numeric_years. rewrite !columns_setitem_present; try done.
    apply has_column_setitem.
  - rewrite (rows_numeric_years c (numeric_years c ath)), rows_numeric_years.
    rewrite <- list_fmap_compose. apply list_fmap_ext. intros i r _. simpl.
    rewrite cell_of_insert, to_numeric_cell_twice. apply insert_insert_eq.
Qed.

(** X10: running the subset stage again changes nothing: on the object a
    successful run leaves behind, a second run with the same cutoff
    succeeds, leaves the same object and returns the same subset and the
    same figures. *)
Theorem subset_stage_rerun (cutoff : Z)
    (st st' : OlympicDataStandardizer) (active : DataFrame) (rep : SubsetReport) :
  create_active_athletes_subset cutoff st = Ok (st', active, rep) ->
  create_active_athletes_subset cutoff st' = Ok (st', active, rep).
Proof.
  intros Hrun.
  destruct (create_active_athletes_subset_inv _ _ _ _ _ Hrun)
    as (ath & c & pct & Hres & Hpct & -> & -> & ->).
  destruct (resolve_year_column_has _ _ _ Hres) as [Hc _].
  pose proof (resolved_column_is_year _ _ _ Hres) as Hyear.
  assert (has_column c (numeric_years c ath) = true) as Hc'
    by apply has_column_setitem.
  assert (resolve_year_column (numeric_years c ath) = Ok (numeric_years c ath, c))
    as Hres'.
  { destruct (resolve_year_column_cases (athletes st))
      as [(c0 & Hfind & _ & Heq)|[(Hfind & _ & Heq)|[(_ & _ & _ & Heq)|(_ & _ & Heq)]]];
      rewrite Heq in Hres; try discriminate; injection Hres as Hath Hcc.
    - subst ath c0. unfold resolve_year_column.
      assert (forall col, has_column col (numeric_years c (athletes st))
                          = has_column col (athletes st)) as Hsame.
      { intros col. unfold has_column, numeric_years.
        by rewrite columns_setitem_present. }
      rewrite (find_pointwise _ (fun col => has_column col (athletes st)))
        by done.
      by rewrite Hfind.
    - subst c. unfold resolve_year_column. simpl. by rewrite Hc'. }
  rewrite (subset_run cutoff
             (with_active (selected cutoff c ath)
                (with_athletes (numeric_years c ath) st))
             (numeric_years c ath) c Hres').
  assert (selected cutoff c (numeric_years c ath) = selected cutoff c ath) as ->.
  { unfold selected. by rewrite (numeric_years_twice c ath Hc). }
  rewrite (numeric_years_twice c ath Hc), Hpct. by destruct st.
Qed.

End SubsetStage.

(** ** The pipeline *)

Lemma column_cell (c : string) (df : DataFrame) (r : row) :
  r ∈ rows df -> cell_of c r ∈ column c df.
Proof. intros Hin. unfold column. by apply list_elem_of_fmap_2. Qed.

Lemma column_cell_inv (c : string) (df : DataFrame) (x : cell) :
  x ∈ column c df -> exists r, r ∈ rows df /\ cell_of c r = x.
Proof.
  unfold column. intros Hin. apply list_elem_of_fmap in Hin as (r & -> & Hr).
  eauto.
Qed.

Lemma check_years_lines `{PyRuntime} (df : DataFrame) (ys : list QualityLine) :
  check_years df = Ok ys ->
  forall l, l ∈ ys ->
    (exists lo hi, l = YearRange lo hi) \/ (exists g ok, l = GapYear g ok).
Proof.
  unfold check_years. destruct (has_column "year" df).
  - destruct (py_sorted _) as [years|e]; [|discriminate]. rewrite bind_ok.
    destruct (py_min years) as [lo|e]; [|discriminate]. rewrite bind_ok.
    destruct (py_int lo) as [zlo|e]; [|discriminate]. rewrite bind_ok.
    destruct (py_max years) as [hi|e]; [|discriminate]. rewrite bind_ok.
    destruct (py_int hi) as [zhi|e]; [|discriminate]. rewrite bind_ok.
    intros [= <-] l Hl.
    repeat (apply elem_of_cons in Hl as [->|Hl];
            [first [by (left; eauto) | by (right; eauto)]|]).
    by apply elem_of_nil in Hl.
  - intros [= <-] l Hl. by apply elem_of_nil in Hl.
Qed.

Section PipelineFacts.
Context `{PyRuntime}.

(** A successful run, stage by stage. *)
Lemma run_full_standardization_inv (raw st : OlympicDataStandardizer) :
  run_full_standardization raw = Ok st ->
  exists st1 rep1 st2 rep2 active rep3 lines,
    handle_historical_anomalies raw = Ok (st1, rep1)
    /\ standardize_country_codes st1 = Ok (st2, rep2)
    /\ create_active_athletes_subset 2020 st2 = Ok (st, active, rep3)
    /\ validate_data_quality st = Ok lines.
Proof.
  unfold run_full_standardization. intros Hrun.
  destruct (handle_historical_anomalies raw) as [[st1 rep1]|e] eqn:H1;
    [|discriminate].
  rewrite bind_ok in Hrun.
  destruct (standardize_country_codes st1) as [[st2 rep2]|e] eqn:H2;
    [|discriminate].
  rewrite bind_ok in Hrun.
  destruct (create_active_athletes_subset 2020 st2) as [[[st3 active] rep3]|e]
    eqn:H3; [|discriminate].
  rewrite bind_ok in Hrun.
  destruct (validate_data_quality st3) as [lines|e] eqn:Hv; [|discriminate].
  rewrite bind_ok in Hrun. injection Hrun as <-.
  exists st1, rep1, st2, rep2, active, rep3, lines. done.
Qed.

(** X11: what a successful run leaves behind: an athletes table without a
    record of the 1906 edition and without a record that carries MIX, URS,
    EUN, GDR or FRG, no longer than the one loaded; an active subset that
    is a sub-sequence of that table and whose records all have a year of
    2020 or later in the resolved year column; hosts and programs as
    loaded. *)
Theorem pipeline_postcondition (raw st : OlympicDataStandardizer) :
  run_full_standardization raw = Ok st ->
  hosts st = hosts raw /\ programs st = programs raw
  /\ len (athletes st) <= len (athletes raw)
  /\ (forall r, r ∈ rows (athletes st) -> cell_of "edition" r <> Str edition_1906)
  /\ (forall r code,
        r ∈ rows (athletes st) -> code ∈ ["MIX"; "URS"; "EUN"; "GDR"; "FRG"] ->
        cell_of "noc" r <> Str code)
  /\ exists active c,
       active_athletes st = Some active
       /\ c ∈ ["year"; "edition_year"; "games_year"]
       /\ rows active `sublist_of` rows (athletes st)
       /\ forall r, r ∈ rows active -> year_at_least 2020 (cell_of c r).
Proof.
  intros Hrun.
  destruct (run_full_standardization_inv _ _ Hrun)
    as (st1 & rep1 & st2 & rep2 & active & rep3 & lines & H1 & H2 & H3 & _).
  destruct (handle_historical_anomalies_inv _ _ _ H1)
    as (a1 & n1 & m1 & dm1 & eds & Ha1 & _ & _ & Hst1 & _).
  destruct (drop_1906_rows _ _ _ Ha1) as (_ & _ & Hrows1 & _).
  destruct (standardize_country_codes_inv _ _ _ H2)
    as (a2 & n2 & m2 & Hcol2 & Ha2 & _ & Hst2 & _).
  destruct (consolidate_rows _ _ _ _ _ Ha2 Hcol2) as (_ & Hrows2 & _).
  destruct (consolidate_lengths _ _ _ Ha2) as [Hlen2 _].
  destruct (create_active_athletes_subset_inv _ _ _ _ _ H3)
    as (ath & c & pct & Hres & _ & Hst3 & Hact & _).
  pose proof (resolved_column_is_year _ _ _ Hres) as Hyear.
  destruct (resolve_year_column_has _ _ _ Hres) as [_ Hsame].
  assert (athletes st1 = a1) as Hath1 by (by rewrite Hst1).
  assert (athletes st2 = a2) as Hath2 by (by rewrite Hst2).
  assert (athletes st = numeric_years c ath) as Hath3 by (by rewrite Hst3).
  assert (forall c', c' ∉ year_columns ->
            forall r, r ∈ rows (athletes st) ->
              exists r2, r2 ∈ rows a2 /\ cell_of c' r2 = cell_of c' r) as Hback.
  { intros c' Hc' r Hin. apply (column_cell c') in Hin.
    rewrite (subset_other_columns _ _ _ _ _ _ H3 Hc'), Hath2 in Hin.
    by apply column_cell_inv in Hin. }
  split; [by rewrite Hst3, Hst2, Hst1|]. split; [by rewrite Hst3, Hst2, Hst1|].
  split.
  { rewrite Hath3, len_numeric_years. unfold len. rewrite Hsame, Hath2.
    unfold len in Hlen2. rewrite Hath1 in Hlen2.
    assert (length (rows a1) <= length (rows (athletes raw))); [|lia].
    rewrite Hrows1. apply length_filter. }
  split.
  { intros r Hin Heq.
    destruct (Hback "edition" ltac:(unfold year_columns; set_unfold;
                                    intuition discriminate) r Hin)
      as (r2 & Hr2 & Hc2).
    rewrite Heq in Hc2. rewrite Hrows2 in Hr2.
    apply list_elem_of_fmap in Hr2 as (r1 & -> & Hr1).
    apply list_elem_of_filter in Hr1 as [_ Hr1].
    rewrite Hath1, Hrows1 in Hr1. apply list_elem_of_filter in Hr1 as [Hne _].
    unfold cell_of in Hc2. rewrite lookup_insert_ne in Hc2 by done.
    by apply Hne. }
  split.
  { intros r code Hin Hcode Heq.
    destruct (Hback "noc" ltac:(unfold year_columns; set_unfold;
                                intuition discriminate) r Hin)
      as (r2 & Hr2 & Hc2).
    rewrite Heq in Hc2.
    exact (consolidate_no_stale _ _ _ Ha2 r2 code Hr2 Hcode Hc2). }
  exists active, c. split; [by rewrite Hst3, Hact|]. split; [done|].
  rewrite Hath3, Hact, rows_selected. split; [apply sublist_filter|].
  intros r Hin. by apply list_elem_of_filter in Hin as [? _].
Qed.

(** X12: what the run demands of the loaded athletes table: without an
    [edition] column it ends in [KeyError] at the first stage, and without
    a [noc] column it cannot succeed either; and because the first stage
    demands [edition], the subset stage always finds a year source: a
    [ValueError] of the run can only come from the validator. *)
Theorem pipeline_requirements (raw : OlympicDataStandardizer) :
  (has_column "edition" (athletes raw) = false ->
   run_full_standardization raw = Raise KeyError)
  /\ (has_column "noc" (athletes raw) = false ->
      run_full_standardization raw = Raise KeyError
      \/ run_full_standardization raw = Raise TypeError)
  /\ (run_full_standardization raw = Raise ValueError ->
      exists st1 rep1 st2 rep2 st3 active rep3,
        handle_historical_anomalies raw = Ok (st1, rep1)
        /\ standardize_country_codes st1 = Ok (st2, rep2)
        /\ create_active_athletes_subset 2020 st2 = Ok (st3, active, rep3)
        /\ validate_data_quality st3 = Raise ValueError).
Proof.
  split; [|split].
  - intros Hcol. unfold run_full_standardization, handle_historical_anomalies,
      drop_1906. by rewrite (getitem_raise _ _ Hcol).
  - intros Hcol. unfold run_full_standardization.
    destruct (handle_historical_anomalies raw) as [[st1 rep1]|e] eqn:H1.
    + left. rewrite bind_ok.
      destruct (handle_historical_anomalies_inv _ _ _ H1)
        as (a1 & n1 & m1 & dm1 & eds & Ha1 & _ & _ & -> & _).
      destruct (drop_1906_rows _ _ _ Ha1) as (_ & Hcols & _).
      rewrite standardize_country_codes_needs_noc; [done|].
      cbn [athletes with_medals with_athletes].
      unfold has_column in *. by rewrite Hcols.
    + rewrite bind_raise.
      unfold handle_historical_anomalies in H1.
      destruct (drop_1906 (athletes raw)) as [[a n]|e'] eqn:Ha.
      * rewrite bind_ok in H1.
        destruct (if has_column "edition" (medals raw) then _ else _)
          as [[m dm]|e'] eqn:Hm.
        -- rewrite bind_ok in H1.
           destruct (has_column "edition" a).
           ++ unfold py_sorted in H1.
              destruct (existsb is_str _ && existsb _ _); [|discriminate].
              rewrite bind_raise in H1. injection H1 as <-. by right.
           ++ discriminate.
        -- rewrite bind_raise in H1. injection H1 as <-.
           destruct (has_column "edition" (medals raw)) eqn:Hme; [|discriminate].
           rewrite (drop_1906_ok _ Hme), bind_ok in Hm. discriminate.
      * rewrite bind_raise in H1. injection H1 as <-.
        unfold drop_1906, getitem in Ha.
        destruct (has_column "edition" (athletes raw)); [discriminate|].
        injection Ha as <-. by left.
  - unfold run_full_standardization. intros Hrun.
    destruct (handle_historical_anomalies raw) as [[st1 rep1]|e] eqn:H1.
    2:{ rewrite bind_raise in Hrun. injection Hrun as ->.
        unfold handle_historical_anomalies in H1.
        destruct (drop_1906 (athletes raw)) as [[a n]|e'] eqn:Ha.
        - rewrite bind_ok in H1.
          destruct (if has_column "edition" (medals raw) then _ else _)
            as [[m dm]|e'] eqn:Hm.
          + rewrite bind_ok in H1. destruct (has_column "edition" a); [|done].
            unfold py_sorted in H1.
            destruct (existsb is_str _ && existsb _ _); discriminate.
          + destruct (has_column "edition" (medals raw)) eqn:Hme; [|discriminate].
            rewrite (drop_1906_ok _ Hme), bind_ok in Hm. discriminate.
        - unfold drop_1906, getitem in Ha.
          destruct (has_column "edition" (athletes raw)); [discriminate|].
          injection Ha as <-. discriminate. }
    rewrite bind_ok in Hrun.
    destruct (standardize_country_codes st1) as [[st2 rep2]|e] eqn:H2.
    2:{ rewrite bind_raise in Hrun. injection Hrun as ->.
        destruct (has_column "noc" (athletes st1)) eqn:Hcol.
        - unfold standardize_country_codes in H2. rewrite Hcol in H2.
          rewrite (consolidate_ok _ _ _ Hcol), !bind_ok in H2.
          set (a := loc_mask _ _) in H2.
          assert (has_column "noc" a = true) as Ha.
          { apply has_column_true. unfold a. rewrite columns_loc_mask.
            unfold substituted. rewrite columns_setitem_present by done.
            by apply has_column_true. }
          destruct (has_column "noc" (medals st1)) eqn:Hm.
          + rewrite (consolidate_ok _ _ _ Hm), !bind_ok, (getitem_ok _ _ Ha) in H2.
            discriminate.
          + rewrite !bind_ok, (getitem_ok _ _ Ha) in H2. discriminate.
        - rewrite (standardize_country_codes_needs_noc _ Hcol) in H2.
          discriminate. }
    rewrite bind_ok in Hrun.
    destruct (create_active_athletes_subset 2020 st2) as [[[st3 active] rep3]|e]
      eqn:H3.
    2:{ rewrite bind_raise in Hrun. injection Hrun as ->. exfalso.
        apply subset_raise in H3 as [[_ Hres]|[? _]]; [|done].
        destruct (resolve_year_column_cases (athletes st2))
          as [(c0 & _ & _ & Heq)|[(_ & _ & Heq)|[(_ & _ & _ & Heq)|(_ & Hed & _)]]];
          try (rewrite Heq in Hres; discriminate).
        destruct (handle_historical_anomalies_inv _ _ _ H1)
          as (a1 & n1 & m1 & dm1 & eds & Ha1 & _ & _ & Hst1 & _).
        destruct (drop_1906_rows _ _ _ Ha1) as (Hc1 & Hcols1 & _).
        destruct (standardize_country_codes_inv _ _ _ H2)
          as (a2 & n2 & m2 & Hcol2 & Ha2 & _ & Hst2 & _).
        destruct (consolidate_rows _ _ _ _ _ Ha2 Hcol2) as (Hcols2 & _).
        rewrite Hst2 in Hed. cbn [athletes with_medals with_athletes] in Hed.
        unfold has_column in Hed, Hc1. rewrite Hcols2, Hst1 in Hed.
        cbn [athletes with_medals with_athletes] in Hed.
        rewrite Hcols1 in Hed. congruence. }
    rewrite bind_ok in Hrun.
    destruct (validate_data_quality st3) as [lines|e] eqn:Hv.
    + rewrite bind_ok in Hrun. discriminate.
    + rewrite bind_raise in Hrun. injection Hrun as ->.
      exists st1, rep1, st2, rep2, st3, active, rep3. done.
Qed.

(** X13: validation after the code stage: on the object a successful code
    stage leaves behind, every line the validator prints about a banned
    code says that the code is gone. *)
Theorem validation_after_code_stage
    (st st' : OlympicDataStandardizer) (rep : CodeReport) (lines : list QualityLine) :
  standardize_country_codes st = Ok (st', rep) ->
  validate_data_quality st' = Ok lines ->
  (forall code, code ∈ ["MIX"; "URS"; "GDR"; "FRG"; "EUN"] ->
     BannedCode code true ∈ lines)
  /\ (forall code, BannedCode code false ∉ lines).
Proof.
  intros Hrun Hv.
  destruct (standardize_country_codes_inv _ _ _ Hrun)
    as (a & n & m & Hcol & Ha & _ & Hst & _).
  destruct (consolidate_rows _ _ _ _ _ Ha Hcol) as (Hcols & _).
  assert (athletes st' = a) as Hath by (by rewrite Hst).
  assert (has_column "noc" a = true) as Hnoc.
  { apply has_column_true. rewrite Hcols. by apply has_column_true. }
  unfold validate_data_quality in Hv. rewrite Hath in Hv.
  destruct (check_years a) as [ys|e] eqn:Hys; [|discriminate].
  rewrite bind_ok in Hv. injection Hv as <-.
  assert (forall code, code ∈ banned_codes ->
            negb (code_in code (column "noc" a)) = true) as Hgone.
  { intros code Hcode. apply code_in_column. intros r Hr.
    apply (consolidate_no_stale _ _ _ Ha r code Hr).
    unfold banned_codes in Hcode. set_unfold. tauto. }
  split.
  - intros code Hcode. apply elem_of_app. right. apply elem_of_app. left.
    unfold check_codes. rewrite Hnoc. apply list_elem_of_fmap.
    exists code. split; [|done]. by rewrite Hgone.
  - intros code Hin. apply elem_of_app in Hin as [Hin|Hin].
    { destruct (check_years_lines _ _ Hys _ Hin) as [(? & ? & ?)|(? & ? & ?)];
        discriminate. }
    apply elem_of_app in Hin as [Hin|Hin].
    + unfold check_codes in Hin. rewrite Hnoc in Hin.
      apply list_elem_of_fmap in Hin as (code' & Heq & Hcode').
      injection Heq as -> Hflag. by rewrite (Hgone _ Hcode') in Hflag.
    + unfold check_nulls in Hin.
      apply list_elem_of_fmap in Hin as (col & Heq & _). discriminate.
Qed.

End PipelineFacts.

(** ** The strength table *)

Lemma rows_notna_mask (c : string) (df : DataFrame) :
  rows (loc_mask (notna (column c df)) df)
  = filter (fun r : row => cell_of c r <> NaN) (rows df).
Proof.
  unfold notna. rewrite (rows_loc_mask notna_cell).
  apply filter_bool_prop. intros r. by destruct (cell_of c r).
Qed.

Lemma rows_code_mask (code : string) (df : DataFrame) :
  rows (loc_mask (series_eq (Str code) (column "noc" df)) df)
  = filter (fun r : row => cell_of "noc" r = Str code) (rows df).
Proof. apply rows_keep_by_text. Qed.

Lemma three_parts_length {A} (P1 P2 P3 Q : A -> Prop)
    `{!forall x, Decision (P1 x), !forall x, Decision (P2 x),
      !forall x, Decision (P3 x), !forall x, Decision (Q x)} (l : list A) :
  (forall x, P1 x -> Q x) -> (forall x, P2 x -> Q x) -> (forall x, P3 x -> Q x) ->
  (forall x, P1 x -> ~ P2 x) -> (forall x, P1 x -> ~ P3 x) ->
  (forall x, P2 x -> ~ P3 x) ->
  length (filter P1 l) + length (filter P2 l) + length (filter P3 l)
  <= length (filter Q l).
Proof.
  intros Ha Hb Hc Hab Hac Hbc. induction l as [|x l IH]; [done|].
  rewrite !filter_cons.
  destruct (decide (P1 x)) as [p1|]; destruct (decide (P2 x)) as [p2|];
    destruct (decide (P3 x)) as [p3|]; destruct (decide (Q x)) as [q|nq];
    simpl; try lia;
    try (exfalso; first [by apply (Hab x) | by apply (Hac x) | by apply (Hbc x)
                        | by apply nq, Ha | by apply nq, Hb | by apply nq, Hc]).
Qed.

Lemma filter_and_length_le {A} (P Q : A -> Prop)
    `{!forall x, Decision (P x), !forall x, Decision (Q x)} (l : list A) :
  length (filter (fun x => P x /\ Q x) l) <= length (filter P l).
Proof.
  induction l as [|x l IH]; [done|]. rewrite !filter_cons.
  destruct (decide (P x)); destruct (decide (P x /\ Q x)) as [[? ?]|];
    simpl; try lia. done.
Qed.

(** The medal fields of the dict built for one code. *)
Lemma country_feature_medals (df : DataFrame) (code tier field : string) :
  has_column "medal" df = true ->
  (field, tier) ∈ [("gold_count", "Gold"); ("silver_count", "Silver");
                   ("bronze_count", "Bronze")] ->
  cell_of field (delete "noc" (country_feature df (Str code)))
  = count_of (length (filter (fun r : row => cell_of "medal" r = Str tier
                                             /\ cell_of "medal" r <> NaN
                                             /\ cell_of "noc" r = Str code)
                        (rows df))).
Proof.
  intros Hmedal Hfield. unfold cell_of at 1, country_feature.
  assert (has_column "medal"
            (loc_mask (series_eq (Str code) (column "noc" df)) df) = true) as ->
    by done.
  assert (forall tier',
            count_of (tier_count tier'
              (loc_mask (notna (column "medal"
                 (loc_mask (series_eq (Str code) (column "noc" df)) df)))
                 (loc_mask (series_eq (Str code) (column "noc" df)) df)))
            = count_of (length (filter (fun r : row => cell_of "medal" r = Str tier'
                                             /\ cell_of "medal" r <> NaN
                                             /\ cell_of "noc" r = Str code)
                        (rows df)))) as Htier.
  { intros tier'. unfold tier_count, len.
    rewrite rows_keep_by_text, rows_notna_mask, rows_code_mask.
    rewrite (list_filter_filter _ (fun r : row => cell_of "medal" r <> NaN)).
    rewrite list_filter_filter. f_equal. f_equal.
    apply list_filter_iff. intros r. tauto. }
  set_unfold.
  destruct Hfield as [[= -> ->]|[[= -> ->]|[[= -> ->]|[]]]];
    rewrite lookup_delete_ne by done;
    rewrite ?lookup_insert_ne by done; rewrite lookup_insert_eq; simpl;
    apply Htier.
Qed.

Lemma country_feature_total (df : DataFrame) (code : string) :
  has_column "medal" df = true ->
  cell_of "total_medals" (delete "noc" (country_feature df (Str code)))
  = count_of (length (filter (fun r : row => cell_of "medal" r <> NaN
                                             /\ cell_of "noc" r = Str code)
                        (rows df))).
Proof.
  intros Hmedal. unfold cell_of at 1, country_feature.
  assert (has_column "medal"
            (loc_mask (series_eq (Str code) (column "noc" df)) df) = true) as ->
    by done.
  rewrite lookup_delete_ne by done. rewrite lookup_insert_eq. simpl.
  unfold len. rewrite rows_notna_mask, rows_code_mask.
  by rewrite list_filter_filter.
Qed.

Lemma country_feature_no_medals (df : DataFrame) (k : cell) (field : string) :
  has_column "medal" df = false ->
  field ∈ ["gold_count"; "silver_count"; "bronze_count"; "total_medals"] ->
  delete "noc" (country_feature df k) !! field = None.
Proof.
  intros Hmedal Hfield. unfold country_feature.
  assert (has_column "medal"
            (loc_mask (series_eq k (column "noc" df)) df) = false) as ->
    by done.
  set_unfold.
  destruct Hfield as [->|[->|[->|[->|[]]]]];
    rewrite lookup_delete_ne by done;
    by rewrite !lookup_insert_ne by done.
Qed.

(** X14: in the strength table every code of the input has one row and no
    code has two; the row of a code counts its records; with a [medal]
    column it also gives the number of its records for each of Gold,
    Silver and Bronze and the number with any medal, so that gold + silver
    + bronze <= total medals <= athlete count; without a [medal] column
    the four medal fields are left out. *)
Theorem strength_table_rows (df : DataFrame) (t : IndexedFrame) :
  create_country_features df = Ok t ->
  NoDup (index t)
  /\ (forall r0 code,
        r0 ∈ rows df -> cell_of "noc" r0 = Str code -> Str code ∈ index t)
  /\ (forall i code r,
        index t !! i = Some (Str code) -> rows (body t) !! i = Some r ->
        let entered :=
          length (filter (fun r0 : row => cell_of "noc" r0 = Str code)
                    (rows df)) in
        let tally (tier : string) :=
          length (filter (fun r0 : row => cell_of "medal" r0 = Str tier
                                          /\ cell_of "noc" r0 = Str code)
                    (rows df)) in
        let medalled :=
          length (filter (fun r0 : row => cell_of "medal" r0 <> NaN
                                          /\ cell_of "noc" r0 = Str code)
                    (rows df)) in
        cell_of "athlete_count" r = count_of entered
        /\ (if has_column "medal" df
            then cell_of "gold_count" r = count_of (tally "Gold")
                 /\ cell_of "silver_count" r = count_of (tally "Silver")
                 /\ cell_of "bronze_count" r = count_of (tally "Bronze")
                 /\ cell_of "total_medals" r = count_of medalled
                 /\ tally "Gold" + tally "Silver" + tally "Bronze" <= medalled
                 /\ medalled <= entered
            else r !! "gold_count" = None /\ r !! "silver_count" = None
                 /\ r !! "bronze_count" = None /\ r !! "total_medals" = None)).
Proof.
  intros Hrun.
  destruct (strength_table_keys _ _ Hrun) as (Hnodup & _ & Hall & Hcount).
  destruct (create_country_features_ok _ _ Hrun) as (_ & _ & Hidx & Hrows).
  split; [done|]. split; [done|].
  intros i code r Hi Hr entered tally medalled. split; [by apply (Hcount i)|].
  rewrite Hidx in Hi. rewrite Hrows, list_lookup_fmap, Hi in Hr.
  injection Hr as <-.
  destruct (has_column "medal" df) eqn:Hmedal.
  - assert (forall tier,
              length (filter (fun r0 : row => cell_of "medal" r0 = Str tier
                                              /\ cell_of "medal" r0 <> NaN
                                              /\ cell_of "noc" r0 = Str code)
                        (rows df))
              = tally tier) as Htier.
    { intros tier. unfold tally. f_equal. apply list_filter_iff.
      intros r0. split; [tauto|]. intros [Hm ?]. rewrite Hm. done. }
    rewrite (country_feature_medals df code "Gold" "gold_count" Hmedal)
      by (set_unfold; tauto).
    rewrite (country_feature_medals df code "Silver" "silver_count" Hmedal)
      by (set_unfold; tauto).
    rewrite (country_feature_medals df code "Bronze" "bronze_count" Hmedal)
      by (set_unfold; tauto).
    rewrite (country_feature_total df code Hmedal), !Htier.
    split; [done|]. split; [done|]. split; [done|]. split; [done|]. split.
    + unfold tally, medalled. apply three_parts_length.
      * intros r0 [Hm ?]. rewrite Hm. done.
      * intros r0 [Hm ?]. rewrite Hm. done.
      * intros r0 [Hm ?]. rewrite Hm. done.
      * intros r0 [Hm ?] [Hm' ?]. rewrite Hm in Hm'. discriminate.
      * intros r0 [Hm ?] [Hm' ?]. rewrite Hm in Hm'. discriminate.
      * intros r0 [Hm ?] [Hm' ?]. rewrite Hm in Hm'. discriminate.
    + unfold medalled, entered.
      rewrite (list_filter_iff _ (fun r0 : row => cell_of "noc" r0 = Str code
                                                 /\ cell_of "medal" r0 <> NaN))
        by (intros r0; tauto).
      apply filter_and_length_le.
  - repeat split; apply (country_feature_no_medals df _ _ Hmedal);
      set_unfold; tauto.
Qed.

Lemma create_country_features_raises (df : DataFrame) (e : exn) :
  create_country_features df = Raise e
  <-> e = KeyError /\ (has_column "noc" df = false \/ rows df = []).
Proof.
  split.
  - intros Hrun. destruct (has_column "noc" df) eqn:Hcol.
    + destruct (rows df) as [|r l] eqn:Hr.
      * unfold create_country_features in Hrun.
        rewrite (getitem_ok _ _ Hcol), bind_ok in Hrun.
        unfold column in Hrun. rewrite Hr in Hrun.
        injection Hrun as <-. split; [done|by right].
      * destruct (create_country_features_needs df Hcol) as [t Ht];
          [by rewrite Hr|]. by rewrite Ht in Hrun.
    + unfold create_country_features in Hrun.
      rewrite (getitem_raise _ _ Hcol) in Hrun. injection Hrun as <-.
      split; [done|by left].
  - intros [-> [Hcol|Hr]]; unfold create_country_features.
    + by rewrite (getitem_raise _ _ Hcol).
    + destruct (has_column "noc" df) eqn:Hcol;
        [|by rewrite (getitem_raise _ _ Hcol)].
      rewrite (getitem_ok _ _ Hcol), bind_ok. unfold column. by rewrite Hr.
Qed.

(** X15: deriving the strength table raises exactly when the input has no
    [noc] column or has no record, and then it is a [KeyError]; a missing
    [sport], [event] or [medal] column never makes it raise. *)
Theorem strength_table_errors (df : DataFrame) (e : exn) :
  create_country_features df = Raise e
  <-> e = KeyError /\ (has_column "noc" df = false \/ rows df = []).
Proof. apply create_country_features_raises. Qed.

(** ** Groups *)

Lemma cell_same_sym (x y : cell) : cell_same x y = true -> cell_same y x = true.
Proof.
  destruct x as [s|p|], y as [t|q|]; try done; unfold cell_same, cell_eqb.
  - rewrite !bool_decide_eq_true. congruence.
  - apply Qeq_bool_sym.
Qed.

Lemma cell_same_trans (x y z : cell) :
  cell_same x y = true -> cell_same y z = true -> cell_same x z = true.
Proof.
  destruct x as [s|p|], y as [t|q|], z as [u|r|]; try done;
    unfold cell_same, cell_eqb.
  - rewrite !bool_decide_eq_true. congruence.
  - apply Qeq_bool_trans.
Qed.

Lemma cell_same_notna (x y : cell) :
  cell_same x y = true -> notna_cell x = notna_cell y.
Proof. by destruct x, y. Qed.

Lemma key_same_refl (k : list cell) : key_same k k = true.
Proof.
  induction k as [|a k IH]; [done|]. simpl. by rewrite cell_same_self, IH.
Qed.

Lemma key_same_sym (k1 k2 : list cell) :
  key_same k1 k2 = true -> key_same k2 k1 = true.
Proof.
  revert k2. induction k1 as [|a k1 IH]; intros [|b k2]; simpl; try done.
  intros [Hab Hk]%andb_true_iff.
  by rewrite (cell_same_sym _ _ Hab), (IH _ Hk).
Qed.

Lemma key_same_trans (k1 k2 k3 : list cell) :
  key_same k1 k2 = true -> key_same k2 k3 = true -> key_same k1 k3 = true.
Proof.
  revert k2 k3.
  induction k1 as [|a k1 IH]; intros [|b k2] [|c k3]; simpl; try done.
  intros [Hab H12]%andb_true_iff [Hbc H23]%andb_true_iff.
  by rewrite (cell_same_trans _ _ _ Hab Hbc), (IH _ _ H12 H23).
Qed.

Lemma key_same_notna (k1 k2 : list cell) :
  key_same k1 k2 = true -> forallb notna_cell k1 = forallb notna_cell k2.
Proof.
  revert k2. induction k1 as [|a k1 IH]; intros [|b k2]; simpl; try done.
  intros [Hab Hk]%andb_true_iff.
  by rewrite (cell_same_notna _ _ Hab), (IH _ Hk).
Qed.

Lemma key_same_alike (k x s : list cell) :
  key_same k x = true -> key_same k s = key_same x s.
Proof.
  intros Hkx. destruct (key_same x s) eqn:Hxs.
  - by apply (key_same_trans _ x).
  - destruct (key_same k s) eqn:Hks; [|done].
    rewrite <- Hxs. symmetry.
    apply (key_same_trans _ k); [by apply key_same_sym|done].
Qed.

Lemma existsb_key_alike (k x : list cell) (seen : list (list cell)) :
  key_same k x = true ->
  existsb (key_same k) seen = existsb (key_same x) seen.
Proof.
  intros Hkx. induction seen as [|s seen IH]; [done|]. simpl.
  by rewrite IH, (key_same_alike _ _ _ Hkx).
Qed.

(** How many of the first-seen keys are alike a given key: one when the
    key occurs and was not seen before, none otherwise. *)
Lemma unique_keys_from_count (k : list cell) (seen l : list (list cell)) :
  length (List.filter (key_same k) (unique_keys_from seen l))
  = if existsb (key_same k) seen || negb (existsb (key_same k) l) then 0 else 1.
Proof.
  revert seen. induction l as [|x l IH]; intros seen; simpl.
  - by rewrite orb_true_r.
  - destruct (existsb (key_same x) seen) eqn:Hx.
    + rewrite IH. destruct (existsb (key_same k) seen) eqn:Hk; [done|].
      simpl. destruct (key_same k x) eqn:Hkx; [|done].
      by rewrite (existsb_key_alike _ _ _ Hkx), Hx in Hk.
    + simpl. destruct (key_same k x) eqn:Hkx; simpl; rewrite IH; simpl;
        rewrite Hkx; simpl.
      * rewrite (existsb_key_alike _ _ _ Hkx), Hx. done.
      * done.
Qed.

Lemma elem_of_unique_keys_from (seen l : list (list cell)) (k : list cell) :
  k ∈ unique_keys_from seen l -> k ∈ l.
Proof.
  revert seen. induction l as [|x l IH]; intros seen Hin; simpl in Hin;
    [done|].
  destruct (existsb (key_same x) seen).
  - right. by apply (IH seen).
  - apply elem_of_cons in Hin as [->|Hin]; [left|right; by apply (IH _ Hin)].
Qed.

Lemma insert_key_Permutation (k : list cell) (l : list (list cell)) :
  insert_key k l ≡ₚ k :: l.
Proof.
  induction l as [|x l IH]; simpl; [done|].
  destruct (key_leb k x); [done|]. rewrite IH. apply Permutation_swap.
Qed.

Lemma sorted_keys_Permutation (l : list (list cell)) :
  foldr insert_key [] l ≡ₚ l.
Proof.
  induction l as [|x l IH]; simpl; [done|].
  by rewrite insert_key_Permutation, IH.
Qed.

Lemma filter_length_Permutation {A} (p : A -> bool) (l1 l2 : list A) :
  l1 ≡ₚ l2 -> length (List.filter p l1) = length (List.filter p l2).
Proof.
  induction 1 as [|x l1 l2 _ IH|x y l|l1 l2 l3 _ IH1 _ IH2]; simpl.
  - done.
  - destruct (p x); simpl; by rewrite IH.
  - by destruct (p x), (p y).
  - by rewrite IH1.
Qed.

Lemma elem_of_group_keys (by_ : list string) (df : DataFrame) (k : list cell) :
  k ∈ group_keys by_ df ->
  forallb notna_cell k = true /\ exists r, r ∈ rows df /\ k = key_of by_ r.
Proof.
  unfold group_keys. rewrite sorted_keys_Permutation.
  intros Hin%elem_of_unique_keys_from.
  apply elem_of_filter_bool in Hin as [Hin Hk]. split; [done|].
  apply list_elem_of_fmap in Hin as (r & -> & Hr). by exists r.
Qed.

Lemma existsb_labelled_keys (by_ : list string) (df : DataFrame) (r : row) :
  r ∈ rows df ->
  existsb (key_same (key_of by_ r)) (List.filter (forallb notna_cell) (key_of by_ <$> rows df))
  = forallb notna_cell (key_of by_ r).
Proof.
  intros Hr. destruct (forallb notna_cell (key_of by_ r)) eqn:Hk.
  - apply existsb_exists. exists (key_of by_ r). split; [|apply key_same_refl].
    apply list_elem_of_In, elem_of_filter_bool. split; [|done].
    apply list_elem_of_fmap. by exists r.
  - destruct (existsb _ _) eqn:Hex; [|done].
    apply existsb_exists in Hex as (k & Hin & Hsame).
    apply list_elem_of_In, elem_of_filter_bool in Hin as [_ Hnotna].
    by rewrite (key_same_notna _ _ Hsame), Hnotna in Hk.
Qed.

Lemma group_keys_count (by_ : list string) (df : DataFrame) (k : list cell) :
  length (List.filter (key_same k) (group_keys by_ df))
  = if existsb (key_same k) (List.filter (forallb notna_cell) (key_of by_ <$> rows df)) then 1 else 0.
Proof.
  unfold group_keys.
  rewrite (filter_length_Permutation _ _ _ (sorted_keys_Permutation _)).
  rewrite unique_keys_from_count. simpl.
  by destruct (existsb _ _).
Qed.

Lemma sum_filter_cons {A B} (f : A -> B -> bool) (x : A) (l : list A) (ks : list B) :
  sum_list ((fun k => length (List.filter (fun r => f r k) (x :: l))) <$> ks)
  = length (List.filter (f x) ks)
    + sum_list ((fun k => length (List.filter (fun r => f r k) l)) <$> ks).
Proof.
  induction ks as [|k ks IH]; [done|].
  rewrite !fmap_cons. cbn [sum_list]. rewrite IH. simpl.
  destruct (f x k); simpl; lia.
Qed.

(** The groups partition the records that have every grouping label. *)
Lemma group_sizes_sum (by_ : list string) (df : DataFrame) :
  sum_list ((fun k => length (group_rows by_ k df)) <$> group_keys by_ df)
  = length (List.filter (fun r => forallb notna_cell (key_of by_ r)) (rows df)).
Proof.
  unfold group_rows.
  assert (forall l : list row,
            (forall r, r ∈ l -> r ∈ rows df) ->
            sum_list ((fun k => length (List.filter
                                 (fun r => key_same (key_of by_ r) k) l))
                        <$> group_keys by_ df)
            = length (List.filter (fun r => forallb notna_cell (key_of by_ r)) l))
    as Hgen.
  { induction l as [|r l IH]; intros Hsub.
    - simpl. induction (group_keys by_ df) as [|k ks IHk]; [done|].
      rewrite fmap_cons. simpl. by rewrite IHk.
    - rewrite (sum_filter_cons (fun r k => key_same (key_of by_ r) k)).
      rewrite IH by (intros r' Hr'; apply Hsub; by right).
      rewrite group_keys_count, existsb_labelled_keys by (apply Hsub; by left).
      simpl. by destruct (forallb notna_cell (key_of by_ r)). }
  by apply Hgen.
Qed.

Lemma one_match {A} (p : A -> bool) (l : list A) (i : nat) (a : A) :
  l !! i = Some a -> p a = true -> 1 <= length (List.filter p l).
Proof.
  revert i. induction l as [|x l IH]; intros [|i] Hi Ha; simpl in *; try done.
  - injection Hi as ->. rewrite Ha. simpl. lia.
  - specialize (IH _ Hi Ha). destruct (p x); simpl; lia.
Qed.

Lemma two_matches {A} (p : A -> bool) (l : list A) (i j : nat) (a b : A) :
  l !! i = Some a -> l !! j = Some b -> i <> j -> p a = true -> p b = true ->
  2 <= length (List.filter p l).
Proof.
  revert i j. induction l as [|x l IH]; intros [|i] [|j] Hi Hj Hne Ha Hb;
    simpl in *; try done.
  - injection Hi as ->. rewrite Ha. simpl.
    pose proof (one_match p l j b Hj Hb). lia.
  - injection Hj as ->. rewrite Hb. simpl.
    pose proof (one_match p l i a Hi Ha). lia.
  - assert (i <> j) as Hne' by congruence.
    specialize (IH _ _ Hi Hj Hne' Ha Hb). destruct (p x); simpl; lia.
Qed.

(** No two groups have labels alike. *)
Lemma group_keys_distinct (by_ : list string) (df : DataFrame) (i j : nat)
    (a b : list cell) :
  group_keys by_ df !! i = Some a -> group_keys by_ df !! j = Some b ->
  key_same a b = true -> i = j.
Proof.
  intros Hi Hj Hab. destruct (decide (i = j)) as [|Hne]; [done|]. exfalso.
  pose proof (two_matches (key_same a) _ i j a b Hi Hj Hne
                (key_same_refl a) Hab) as Htwo.
  rewrite group_keys_count in Htwo. destruct (existsb _ _); lia.
Qed.

(** Every record that has every grouping label is in one of the groups. *)
Lemma group_keys_cover (by_ : list string) (df : DataFrame) (r : row) :
  r ∈ rows df -> forallb notna_cell (key_of by_ r) = true ->
  exists k, k ∈ group_keys by_ df /\ key_same (key_of by_ r) k = true.
Proof.
  intros Hr Hk.
  pose proof (group_keys_count by_ df (key_of by_ r)) as Hcount.
  rewrite (existsb_labelled_keys _ _ _ Hr), Hk in Hcount.
  destruct (List.filter _ _) as [|k ks] eqn:Hf; [done|]. exists k.
  assert (k ∈ List.filter (key_same (key_of by_ r)) (group_keys by_ df))
    as Hin by (rewrite Hf; left).
  by apply elem_of_filter_bool in Hin.
Qed.

Lemma group_rows_nonempty (by_ : list string) (df : DataFrame) (k : list cell) :
  k ∈ group_keys by_ df -> 1 <= length (group_rows by_ k df).
Proof.
  intros (_ & r & Hr & ->)%elem_of_group_keys. unfold group_rows.
  apply list_elem_of_lookup in Hr as [i Hi].
  apply (one_match _ _ i r Hi). apply key_same_refl.
Qed.

Lemma filter_filter_implied {A} (p q : A -> bool) (l : list A) :
  (forall x, p x = true -> q x = true) ->
  List.filter p (List.filter q l) = List.filter p l.
Proof.
  intros Himp. induction l as [|x l IH]; [done|]. simpl.
  destruct (q x) eqn:Hq; simpl; rewrite IH; [done|].
  destruct (p x) eqn:Hp; [|done]. by rewrite (Himp _ Hp) in Hq.
Qed.

(** ** Medal trends and sport strength *)

Lemma groupby_ok (by_ : list string) (df : DataFrame)
    (groups : list (list cell * list row)) :
  groupby by_ df = Ok groups ->
  forallb (fun c => has_column c df) by_ = true
  /\ groups = (fun k => (k, group_rows by_ k df)) <$> group_keys by_ df.
Proof.
  unfold groupby. destruct (forallb _ by_); [|discriminate].
  by intros [= <-].
Qed.

Lemma medal_labels_notna (r : row) :
  forallb notna_cell (key_of ["year"; "noc"; "medal"] r) = true
  <-> cell_of "year" r <> NaN /\ cell_of "noc" r <> NaN /\ cell_of "medal" r <> NaN.
Proof.
  simpl.
  destruct (cell_of "year" r), (cell_of "noc" r), (cell_of "medal" r); simpl;
    intuition congruence.
Qed.

Lemma create_medal_trends_ok (df t : DataFrame) :
  has_column "medal" df = true -> has_column "year" df = true ->
  create_medal_trends df = Ok t ->
  let by_ := ["year"; "noc"; "medal"] in
  let medalists := loc_mask (notna (column "medal" df)) df in
  has_column "noc" df = true
  /\ t = mkFrame ["year"; "noc"; "medal"; "count"]
           ((fun k => group_record by_ k
                        [("count", count_of (length (group_rows by_ k medalists)))])
              <$> group_keys by_ medalists).
Proof.
  intros Hm Hy Hrun. unfold create_medal_trends in Hrun. rewrite Hm, Hy in Hrun.
  simpl andb in Hrun. cbv iota in Hrun. unfold groupby_size in Hrun.
  destruct (groupby _ _) as [groups|e] eqn:Hg; [|discriminate].
  rewrite bind_ok in Hrun. injection Hrun as <-.
  apply groupby_ok in Hg as [Hcols ->]. split.
  - simpl in Hcols. apply andb_true_iff in Hcols as [_ Hcols].
    by apply andb_true_iff in Hcols as [Hcols _].
  - f_equal. by rewrite <- list_fmap_compose.
Qed.

Lemma medal_record_labels (k : list cell) (n : cell) :
  length k = 3 ->
  key_of ["year"; "noc"; "medal"]
    (group_record ["year"; "noc"; "medal"] k [("count", n)]) = k
  /\ cell_of "count" (group_record ["year"; "noc"; "medal"] k [("count", n)]) = n.
Proof.
  by destruct k as [|a [|b [|c [|d k]]]].
Qed.

Lemma key_of_length (by_ : list string) (r : row) :
  length (key_of by_ r) = length by_.
Proof. unfold key_of. by rewrite length_fmap. Qed.

Lemma group_keys_length (by_ : list string) (df : DataFrame) (k : list cell) :
  k ∈ group_keys by_ df -> length k = length by_.
Proof.
  intros (_ & r & _ & ->)%elem_of_group_keys. apply key_of_length.
Qed.

Lemma medalist_group_rows (df : DataFrame) (k : list cell) :
  forallb notna_cell k = true ->
  group_rows ["year"; "noc"; "medal"] k (loc_mask (notna (column "medal" df)) df)
  = List.filter (fun r => key_same (key_of ["year"; "noc"; "medal"] r) k) (rows df).
Proof.
  intros Hk. unfold group_rows, notna. rewrite (rows_loc_mask notna_cell).
  apply filter_filter_implied. intros r Hsame.
  apply key_same_notna in Hsame. rewrite Hk in Hsame.
  apply medal_labels_notna in Hsame as (_ & _ & Hm).
  by destruct (cell_of "medal" r).
Qed.

Lemma medalist_labelled (df : DataFrame) :
  List.filter (fun r => forallb notna_cell (key_of ["year"; "noc"; "medal"] r))
    (rows (loc_mask (notna (column "medal" df)) df))
  = filter (fun r : row => cell_of "year" r <> NaN /\ cell_of "noc" r <> NaN
                           /\ cell_of "medal" r <> NaN) (rows df).
Proof.
  unfold notna. rewrite (rows_loc_mask notna_cell).
  rewrite filter_filter_implied.
  - apply filter_bool_prop. intros r. apply medal_labels_notna.
  - intros r (_ & _ & Hm)%medal_labels_notna. by destruct (cell_of "medal" r).
Qed.

(** X16: the medal trend table of a table with [medal] and [year] columns
    has the columns year, noc, medal, count; each of its rows carries three
    labels that are not missing and counts, at least 1, the input records
    with labels alike; no two rows have labels alike, every record with
    the three labels present is counted in some row, and the counts add up
    to the number of records that have a medal, a year and a code. *)
Theorem medal_trends_rows (df t : DataFrame) :
  has_column "medal" df = true -> has_column "year" df = true ->
  create_medal_trends df = Ok t ->
  let labels := key_of ["year"; "noc"; "medal"] in
  columns t = ["year"; "noc"; "medal"; "count"]
  /\ (forall r, r ∈ rows t ->
        let alike := List.filter (fun r0 => key_same (labels r0) (labels r))
                       (rows df) in
        Forall (fun x => x <> NaN) (labels r)
        /\ 1 <= length alike
        /\ cell_of "count" r = count_of (length alike))
  /\ (forall i j ri rj,
        rows t !! i = Some ri -> rows t !! j = Some rj ->
        key_same (labels ri) (labels rj) = true -> i = j)
  /\ (forall r0,
        r0 ∈ rows df -> Forall (fun x => x <> NaN) (labels r0) ->
        exists r, r ∈ rows t /\ key_same (labels r0) (labels r) = true)
  /\ exists counts,
       cell_of "count" <$> rows t = count_of <$> counts
       /\ sum_list counts
          = length (filter (fun r0 : row => cell_of "year" r0 <> NaN
                                            /\ cell_of "noc" r0 <> NaN
                                            /\ cell_of "medal" r0 <> NaN)
                      (rows df)).
Proof.
  intros Hm Hy Hrun labels. subst labels.
  destruct (create_medal_trends_ok _ _ Hm Hy Hrun) as [_ ->]. simpl rows.
  set (by_ := ["year"; "noc"; "medal"]).
  set (medalists := loc_mask (notna (column "medal" df)) df).
  assert (forall k, k ∈ group_keys by_ medalists ->
            (key_of by_) (group_record by_ k
                      [("count", count_of (length (group_rows by_ k medalists)))])
            = k) as Hlabels.
  { intros k Hk. apply medal_record_labels.
    apply (group_keys_length _ _ _ Hk). }
  split; [done|]. split; [|split; [|split]].
  - intros r (k & -> & Hk)%list_elem_of_fmap alike. subst alike.
    rewrite (Hlabels _ Hk).
    destruct (elem_of_group_keys _ _ _ Hk) as [Hnotna _].
    pose proof (medalist_group_rows df k Hnotna) as Hgroup.
    fold by_ medalists in Hgroup. rewrite <- Hgroup.
    split; [|split].
    + apply Forall_forall. intros x Hx.
      rewrite forallb_forall in Hnotna.
      apply list_elem_of_In, Hnotna in Hx. by destruct x.
    + by apply group_rows_nonempty.
    + apply medal_record_labels, (group_keys_length _ _ _ Hk).
  - intros i j ri rj Hi Hj Hsame.
    rewrite list_lookup_fmap in Hi, Hj.
    destruct (group_keys by_ medalists !! i) as [a|] eqn:Ha; [|done].
    destruct (group_keys by_ medalists !! j) as [b|] eqn:Hb; [|done].
    injection Hi as <-. injection Hj as <-.
    rewrite (Hlabels a), (Hlabels b) in Hsame
      by (eapply list_elem_of_lookup_2; eassumption).
    by apply (group_keys_distinct by_ medalists i j a b).
  - intros r0 Hr0 Hall.
    assert (forallb notna_cell ((key_of by_) r0) = true) as Hnotna.
    { apply forallb_forall. intros x Hx%list_elem_of_In.
      rewrite Forall_forall in Hall. specialize (Hall _ Hx). by destruct x. }
    assert (r0 ∈ rows medalists) as Hin.
    { unfold medalists, notna. rewrite (rows_loc_mask notna_cell).
      apply elem_of_filter_bool. split; [done|].
      apply medal_labels_notna in Hnotna as (_ & _ & Hmedal).
      by destruct (cell_of "medal" r0). }
    destruct (group_keys_cover by_ medalists r0 Hin Hnotna) as (k & Hk & Hsame).
    eexists. split; [apply list_elem_of_fmap; by exists k|].
    by rewrite (Hlabels _ Hk).
  - exists ((fun k => length (group_rows by_ k medalists))
              <$> group_keys by_ medalists). split.
    + rewrite <- !list_fmap_compose. apply list_fmap_ext.
      intros i k Hk. simpl.
      apply medal_record_labels, (group_keys_length by_ medalists).
      by eapply list_elem_of_lookup_2.
    + rewrite group_sizes_sum. f_equal. apply medalist_labelled.
Qed.

Lemma create_medal_trends_raises (df : DataFrame) (e : exn) :
  create_medal_trends df = Raise e
  <-> e = KeyError /\ has_column "medal" df = true
      /\ has_column "year" df = true /\ has_column "noc" df = false.
Proof.
  split.
  - intros Hrun.
    destruct (has_column "medal" df) eqn:Hm;
      [|by rewrite create_medal_trends_absent in Hrun by (by left)].
    destruct (has_column "year" df) eqn:Hy;
      [|by rewrite create_medal_trends_absent in Hrun by (by right)].
    destruct (has_column "noc" df) eqn:Hn.
    + exfalso. unfold create_medal_trends, groupby_size, groupby in Hrun.
      rewrite Hm, Hy in Hrun. simpl in Hrun.
      unfold has_column in Hm, Hy, Hn, Hrun. simpl in Hrun.
      by rewrite Hm, Hy, Hn in Hrun.
    + rewrite (create_medal_trends_needs_noc df Hm Hy Hn) in Hrun.
      by injection Hrun as <-.
  - intros (-> & Hm & Hy & Hn). by apply create_medal_trends_needs_noc.
Qed.

(** X17: the medal trend table is the empty frame when the input has no
    [medal] or no [year] column, and deriving it raises exactly when both
    are there and [noc] is not, a [KeyError]. *)
Theorem medal_trends_outcome (df : DataFrame) :
  (has_column "medal" df = false \/ has_column "year" df = false ->
   create_medal_trends df = Ok empty_frame)
  /\ (forall e,
        create_medal_trends df = Raise e
        <-> e = KeyError /\ has_column "medal" df = true
            /\ has_column "year" df = true /\ has_column "noc" df = false).
Proof.
  split; [apply create_medal_trends_absent|apply create_medal_trends_raises].
Qed.

Lemma create_sport_strength_ok (df t : DataFrame) :
  has_column "sport" df = true -> has_column "noc" df = true ->
  create_sport_strength df = Ok t ->
  let by_ := ["noc"; "sport"] in
  has_column "medal" df = true /\ has_column "athlete_id" df = true
  /\ t = mkFrame ["noc"; "sport"; "medals"; "athletes"]
           ((fun k =>
               list_to_map (zip ["noc"; "sport"; "medals"; "athletes"]
                 (k ++ [count_of (length (List.filter notna_cell
                          (cell_of "medal" <$> group_rows by_ k df)));
                        count_of (length (List.filter notna_cell
                          (cell_of "athlete_id" <$> group_rows by_ k df)))])))
              <$> group_keys by_ df).
Proof.
  intros Hs Hn Hrun.
  destruct (has_column "medal" df) eqn:Hm;
    [|by rewrite create_sport_strength_needs in Hrun by (done || by left)].
  destruct (has_column "athlete_id" df) eqn:Ha;
    [|by rewrite create_sport_strength_needs in Hrun by (done || by right)].
  unfold create_sport_strength, groupby_agg in Hrun.
  rewrite Hs, Hn, Ha in Hrun. simpl andb in Hrun. cbv iota in Hrun.
  destruct (groupby _ _) as [groups|e] eqn:Hg; [|discriminate].
  rewrite bind_ok in Hrun. apply groupby_ok in Hg as [_ ->].
  simpl forallb in Hrun. rewrite Hm, Ha in Hrun. simpl in Hrun.
  injection Hrun as <-. split; [done|]. split; [done|].
  f_equal. by rewrite <- list_fmap_compose.
Qed.

Lemma sport_record_fields (k : list cell) (m a : cell) :
  length k = 2 ->
  let r : row := list_to_map (zip ["noc"; "sport"; "medals"; "athletes"]
                                (k ++ [m; a])) in
  key_of ["noc"; "sport"] r = k
  /\ cell_of "medals" r = m /\ cell_of "athletes" r = a.
Proof.
  by destruct k as [|x [|y [|z k]]].
Qed.

Lemma filter_notna_column (c : string) (l : list row) :
  length (List.filter notna_cell (cell_of c <$> l))
  = length (filter (fun r : row => cell_of c r <> NaN) l).
Proof.
  induction l as [|r l IH]; [done|]. rewrite fmap_cons, filter_cons. simpl.
  destruct (decide (cell_of c r <> NaN)) as [Hc|Hc];
    destruct (cell_of c r); simpl;
    first [by rewrite IH | by (exfalso; apply Hc)].
Qed.

(** X18: the sport strength table of a table with [sport] and [noc]
    columns exists only when [medal] and [athlete_id] are columns too; it
    has the columns noc, sport, medals, athletes; each row carries a code
    and a sport that are not missing, stands for at least one record, and
    gives how many of the records with that code and sport have a medal
    and how many have an athlete id; no two rows have code and sport
    alike, and every record with both present is in some row. *)
Theorem sport_strength_rows (df t : DataFrame) :
  has_column "sport" df = true -> has_column "noc" df = true ->
  create_sport_strength df = Ok t ->
  let labels := key_of ["noc"; "sport"] in
  has_column "medal" df = true /\ has_column "athlete_id" df = true
  /\ columns t = ["noc"; "sport"; "medals"; "athletes"]
  /\ (forall r, r ∈ rows t ->
        let members := List.filter (fun r0 => key_same (labels r0) (labels r))
                         (rows df) in
        Forall (fun x => x <> NaN) (labels r)
        /\ 1 <= length members
        /\ cell_of "medals" r
           = count_of (length (filter (fun r0 : row => cell_of "medal" r0 <> NaN)
                                 members))
        /\ cell_of "athletes" r
           = count_of (length (filter (fun r0 : row => cell_of "athlete_id" r0 <> NaN)
                                 members)))
  /\ (forall i j ri rj,
        rows t !! i = Some ri -> rows t !! j = Some rj ->
        key_same (labels ri) (labels rj) = true -> i = j)
  /\ (forall r0,
        r0 ∈ rows df -> Forall (fun x => x <> NaN) (labels r0) ->
        exists r, r ∈ rows t /\ key_same (labels r0) (labels r) = true).
Proof.
  intros Hs Hn Hrun labels. subst labels.
  destruct (create_sport_strength_ok _ _ Hs Hn Hrun) as (Hm & Ha & ->).
  cbn [rows columns].
  split; [done|]. split; [done|]. split; [done|].
  split; [|split].
  - intros r (k & -> & Hk)%list_elem_of_fmap.
    destruct (sport_record_fields k
                (count_of (length (List.filter notna_cell
                   (cell_of "medal" <$> group_rows ["noc"; "sport"] k df))))
                (count_of (length (List.filter notna_cell
                   (cell_of "athlete_id" <$> group_rows ["noc"; "sport"] k df))))
                (group_keys_length _ _ _ Hk)) as (Hlab & Hmed & Hath).
    rewrite Hlab, Hmed, Hath. unfold group_rows.
    rewrite !filter_notna_column.
    destruct (elem_of_group_keys _ _ _ Hk) as [Hnotna _].
    split; [|split; [|done]].
    + apply Forall_forall. intros x Hx.
      rewrite forallb_forall in Hnotna.
      apply list_elem_of_In, Hnotna in Hx. by destruct x.
    + by apply group_rows_nonempty.
  - intros i j ri rj Hi Hj Hsame.
    rewrite list_lookup_fmap in Hi, Hj.
    apply fmap_Some in Hi as (a & Hia & ->).
    apply fmap_Some in Hj as (b & Hjb & ->).
    rewrite (proj1 (sport_record_fields a _ _
               (group_keys_length _ _ _ (list_elem_of_lookup_2 _ _ _ Hia)))),
            (proj1 (sport_record_fields b _ _
               (group_keys_length _ _ _ (list_elem_of_lookup_2 _ _ _ Hjb))))
      in Hsame.
    by apply (group_keys_distinct ["noc"; "sport"] df i j a b).
  - intros r0 Hr0 Hall.
    assert (forallb notna_cell ((key_of ["noc"; "sport"]) r0) = true) as Hnotna.
    { apply forallb_forall. intros x Hx%list_elem_of_In.
      rewrite Forall_forall in Hall. specialize (Hall _ Hx). by destruct x. }
    destruct (group_keys_cover ["noc"; "sport"] df r0 Hr0 Hnotna) as (k & Hk & Hsame).
    eexists. split; [apply list_elem_of_fmap; by exists k|].
    by rewrite (proj1 (sport_record_fields k _ _ (group_keys_length _ _ _ Hk))).
Qed.

Lemma create_sport_strength_raises (df : DataFrame) (e : exn) :
  create_sport_strength df = Raise e
  <-> e = KeyError /\ has_column "sport" df = true
      /\ has_column "noc" df = true
      /\ (has_column "medal" df = false \/ has_column "athlete_id" df = false).
Proof.
  split.
  - intros Hrun.
    destruct (has_column "sport" df) eqn:Hs;
      [|by rewrite create_sport_strength_absent in Hrun by (by left)].
    destruct (has_column "noc" df) eqn:Hn;
      [|by rewrite create_sport_strength_absent in Hrun by (by right)].
    destruct (has_column "medal" df) eqn:Hm.
    + destruct (has_column "athlete_id" df) eqn:Ha.
      * exfalso. unfold create_sport_strength, groupby_agg, groupby in Hrun.
        rewrite Hs, Hn, Ha in Hrun. simpl in Hrun.
        rewrite Hs, Hn, Hm, Ha in Hrun. done.
      * rewrite create_sport_strength_needs in Hrun by (done || by right).
        injection Hrun as <-. split; [done|]. repeat split. by right.
    + rewrite create_sport_strength_needs in Hrun by (done || by left).
      injection Hrun as <-. split; [done|]. repeat split. by left.
  - intros (-> & Hs & Hn & Hmiss). by apply create_sport_strength_needs.
Qed.

(** X19: the sport strength table is the empty frame when the input has no
    [sport] or no [noc] column, and deriving it raises exactly when both
    are there and [medal] or [athlete_id] is not, a [KeyError]. *)
Theorem sport_strength_outcome (df : DataFrame) :
  (has_column "sport" df = false \/ has_column "noc" df = false ->
   create_sport_strength df = Ok empty_frame)
  /\ (forall e,
        create_sport_strength df = Raise e
        <-> e = KeyError /\ has_column "sport" df = true
            /\ has_column "noc" df = true
            /\ (has_column "medal" df = false
                \/ has_column "athlete_id" df = false)).
Proof.
  split; [apply create_sport_strength_absent|apply create_sport_strength_raises].
Qed.

(** ** The data summary *)










Section SummaryFacts.
Context `{PyRuntime}.



End SummaryFacts.

(** ** Verifying a cleaned table *)

(** The athletes table after both cleaning stages, from the raw one. *)
Lemma cleaned_rows `{PyRuntime} (st st1 st2 : OlympicDataStandardizer)
    (rep1 : AnomalyReport) (rep2 : CodeReport) :
  handle_historical_anomalies st = Ok (st1, rep1) ->
  standardize_country_codes st1 = Ok (st2, rep2) ->
  columns (athletes st2) = columns (athletes st)
  /\ has_column "edition" (athletes st) = true
  /\ has_column "noc" (athletes st) = true
  /\ rows (athletes st2)
     = (fun r : row => <["noc" := replace_cell country_mapping (cell_of "noc" r)]> r)
         <$> filter (fun r : row => cell_of "noc" r <> Str mixed_team
                                    /\ cell_of "edition" r <> Str edition_1906)
               (rows (athletes st)).
Proof.
  intros H1 H2.
  destruct (handle_historical_anomalies_inv _ _ _ H1)
    as (a1 & n1 & m1 & dm & eds & Hdrop & _ & _ & -> & _).
  destruct (standardize_country_codes_inv _ _ _ H2)
    as (a2 & n2 & m2 & Hnoc & Hcons & _ & -> & _).
  cbn [athletes with_medals with_athletes] in *.
  destruct (drop_1906_rows _ _ _ Hdrop) as (Hed & Hcols1 & Hrows1 & _).
  destruct (consolidate_rows _ _ _ _ _ Hcons Hnoc) as (Hcols2 & Hrows2 & _).
  split; [congruence|]. split; [done|]. split.
  - unfold has_column in *. by rewrite <- Hcols1.
  - rewrite Hrows2, Hrows1, list_filter_filter. f_equal.
    apply list_filter_iff. intros r. by rewrite replace_country_mixed.
Qed.

Lemma array_contains_unique (v : cell) (s : Series) :
  array_contains v (unique s) = existsb (fun x => cell_eqb x v) s.
Proof.
  unfold array_contains. apply existsb_unique.
  intros x y. apply cell_eqb_same_r.
Qed.

Lemma cell_eqb_Num (x : cell) (p : Q) :
  cell_eqb x (Num p) = true <-> exists q, x = Num q /\ (q == p)%Q.
Proof.
  destruct x as [s|q|]; simpl.
  - split; [done|]. by intros (q & ? & _).
  - rewrite Qeq_bool_iff. split; [eauto|]. by intros (q' & [= <-] & ?).
  - split; [done|]. by intros (q & ? & _).
Qed.

Lemma cell_of_insert_ne (c d : string) (v : cell) (r : row) :
  c <> d -> cell_of d (<[c := v]> r) = cell_of d r.
Proof. intros Hne. unfold cell_of. by rewrite lookup_insert_ne. Qed.

Section VerifyFacts.
Context `{PyRuntime}.

(** X22: the verification of a table that went through the anomaly stage
    and the code stage, with some text left in its [edition] column,
    returns its report; every removed code (URS, GDR, FRG, EUN, MIX) is
    reported absent; RUS is reported present exactly when a kept record of
    the raw table carried RUS, URS or EUN, and GER likewise for GER, GDR
    or FRG; 1906 is still reported present exactly when a kept record has
    an edition text that contains 1906 (one other than the label the
    anomaly stage removes); and 1940 or 1944 is reported present exactly
    when a kept record has that year: the stages never remove war years.
    A record is kept when its edition is not the 1906 label and its code
    is not MIX. *)
Theorem cleaned_table_verifies (st st1 st2 : OlympicDataStandardizer)
    (rep1 : AnomalyReport) (rep2 : CodeReport) :
  handle_historical_anomalies st = Ok (st1, rep1) ->
  standardize_country_codes st1 = Ok (st2, rep2) ->
  existsb is_str (column "edition" (athletes st2)) = true ->
  let kept (r : row) :=
    r ∈ rows (athletes st)
    /\ cell_of "noc" r <> Str mixed_team
    /\ cell_of "edition" r <> Str edition_1906 in
  exists report,
    verify_historical_cleaning (athletes st2) = Ok report
    /\ (exists b,
          present_1906 report = Some b
          /\ (b = true
              <-> exists r t, kept r /\ cell_of "edition" r = Str t
                              /\ contains "1906" t = true))
    /\ (if has_column "year" (athletes st)
        then exists b40 b44,
               war_years report = Some (b40, b44)
               /\ (b40 = true
                   <-> exists r q, kept r /\ cell_of "year" r = Num q
                                   /\ (q == inject_Z 1940)%Q)
               /\ (b44 = true
                   <-> exists r q, kept r /\ cell_of "year" r = Num q
                                   /\ (q == inject_Z 1944)%Q)
        else war_years report = None)
    /\ exists rus ger,
         code_checks report
         = Some ([("URS", false); ("GDR", false); ("FRG", false);
                  ("EUN", false); ("MIX", false)],
                 [("RUS", rus); ("GER", ger)])
         /\ (rus = true
             <-> exists r, kept r
                           /\ cell_of "noc" r ∈ [Str "RUS"; Str "URS"; Str "EUN"])
         /\ (ger = true
             <-> exists r, kept r
                           /\ cell_of "noc" r ∈ [Str "GER"; Str "GDR"; Str "FRG"]).
Proof.
  intros H1 H2 Htext kept.
  destruct (cleaned_rows _ _ _ _ _ H1 H2) as (Hcols & Hed & Hnoc & Hrows).
  destruct (standardize_country_codes_inv _ _ _ H2)
    as (a2 & n2 & m2 & _ & Hcons & _ & Hst2 & _).
  assert (forall r code,
            r ∈ rows (athletes st2) ->
            code ∈ ["MIX"; "URS"; "EUN"; "GDR"; "FRG"] ->
            cell_of "noc" r <> Str code) as Hstale.
  { rewrite Hst2. apply (consolidate_no_stale _ _ _ Hcons). }
  set (df := athletes st2) in *.
  assert (forall c, has_column c df = has_column c (athletes st)) as Hsame
    by (intros c; unfold has_column; by rewrite Hcols).
  assert (forall (p : cell -> bool) (c : string),
            c <> "noc" ->
            existsb p (column c df) = true
            <-> exists r, kept r /\ p (cell_of c r) = true) as Hother.
  { intros p c Hc. rewrite existsb_column, Hrows. split.
    - intros (r' & (r & -> & Hr)%list_elem_of_fmap & Hp).
      apply list_elem_of_filter in Hr as [[Hmix Hlabel] Hr].
      rewrite cell_of_insert_ne in Hp by done. by exists r.
    - intros (r & (Hr & Hmix & Hlabel) & Hp). eexists. split.
      + apply list_elem_of_fmap. exists r. split; [done|].
        by apply list_elem_of_filter.
      + by rewrite cell_of_insert_ne by done. }
  assert (forall code,
            array_contains (Str code) (unique (column "noc" df)) = true
            <-> exists r, kept r
                          /\ replace_cell country_mapping (cell_of "noc" r)
                             = Str code) as Hcode.
  { intros code. rewrite array_contains_unique, existsb_column, Hrows. split.
    - intros (r' & (r & -> & Hr)%list_elem_of_fmap & Hp).
      apply list_elem_of_filter in Hr as [[Hmix Hlabel] Hr].
      rewrite cell_of_insert in Hp. apply cell_eqb_Str in Hp. by exists r.
    - intros (r & (Hr & Hmix & Hlabel) & Hp). eexists. split.
      + apply list_elem_of_fmap. exists r. split; [done|].
        by apply list_elem_of_filter.
      + rewrite cell_of_insert. by apply cell_eqb_Str. }
  assert (forall code,
            code ∈ ["MIX"; "URS"; "EUN"; "GDR"; "FRG"] ->
            array_contains (Str code) (unique (column "noc" df)) = false)
    as Hremoved.
  { intros code Hin. apply not_true_iff_false.
    rewrite array_contains_unique, existsb_column.
    intros (r & Hr & Hp%cell_eqb_Str). by apply (Hstale r code). }
  assert (str_accessor (column "edition" df) = Ok (column "edition" df))
    as Haccessor.
  { unfold str_accessor. rewrite Htext. by destruct (column "edition" df). }
  eexists. split.
  { unfold verify_historical_cleaning.
    rewrite !Hsame, Hed, Hnoc, Haccessor, !bind_ok. reflexivity. }
  cbn [present_1906 war_years code_checks]. split; [|split].
  - eexists. split; [done|].
    rewrite (Hother (str_contains "1906") "edition") by done. split.
    + intros (r & Hkept & Hp).
      destruct (cell_of "edition" r) as [t| |] eqn:Ht; try done. by exists r, t.
    + intros (r & t & Hkept & Ht & Hp). exists r. split; [done|].
      by rewrite Ht.
  - destruct (has_column "year" (athletes st)); [|done].
    eexists _, _. split; [done|]. rewrite !array_contains_unique. split.
    + rewrite (Hother (fun x => cell_eqb x (Num (inject_Z 1940))) "year") by done.
      split.
      * intros (r & Hkept & (q & Hq & Heq)%cell_eqb_Num). by exists r, q.
      * intros (r & q & Hkept & Hq & Heq). exists r. split; [done|].
        apply cell_eqb_Num. by exists q.
    + rewrite (Hother (fun x => cell_eqb x (Num (inject_Z 1944))) "year") by done.
      split.
      * intros (r & Hkept & (q & Hq & Heq)%cell_eqb_Num). by exists r, q.
      * intros (r & q & Hkept & Hq & Heq). exists r. split; [done|].
        apply cell_eqb_Num. by exists q.
  - eexists _, _. split.
    + unfold removed_codes, merged_codes. rewrite !fmap_cons.
      rewrite !Hremoved by (set_unfold; tauto). reflexivity.
    + split.
      * rewrite Hcode. split.
        -- intros (r & Hkept & Hrep). exists r. split; [done|].
           apply (replace_country_target _ "RUS") in Hrep;
             [|done|set_unfold; intuition discriminate].
           set_unfold. destruct Hrep as [Heq|(old & Heq & Hl)]; [tauto|].
           apply country_mapping_lookup in Hl. rewrite Heq.
           destruct Hl as [[-> _]|[[-> _]|[[_ ?]|[_ ?]]]];
             try discriminate; tauto.
        -- intros (r & Hkept & Hin). exists r. split; [done|].
           apply (replace_country_target _ "RUS");
             [done|set_unfold; intuition discriminate|].
           set_unfold. destruct Hin as [->|[->|[->|[]]]]; [by left|right..];
             eexists; (split; [reflexivity|reflexivity]).
      * rewrite Hcode. split.
        -- intros (r & Hkept & Hrep). exists r. split; [done|].
           apply (replace_country_target _ "GER") in Hrep;
             [|done|set_unfold; intuition discriminate].
           set_unfold. destruct Hrep as [Heq|(old & Heq & Hl)]; [tauto|].
           apply country_mapping_lookup in Hl. rewrite Heq.
           destruct Hl as [[_ ?]|[[_ ?]|[[-> _]|[-> _]]]];
             try discriminate; tauto.
        -- intros (r & Hkept & Hin). exists r. split; [done|].
           apply (replace_country_target _ "GER");
             [done|set_unfold; intuition discriminate|].
           set_unfold. destruct Hin as [->|[->|[->|[]]]]; [by left|right..];
             eexists; (split; [reflexivity|reflexivity]).
Qed.

End VerifyFacts.

(** ** Exporting for modeling *)

(** X23: the export writes its three files in a fixed order and stops at
    the first table it cannot derive, leaving the files written before:
    nothing is written when the active table has no [noc] column or no
    record; only the country features when the athletes table has [medal]
    and [year] columns but no [noc]; the features and the medal trends
    when the active table has a [sport] column but lacks [medal] or
    [athlete_id]; every such stop is a [KeyError].  In every other case
    all three files are written, each holding the table derived for it. *)
Theorem export_outcome (athletes_df active_df : DataFrame) :
  let no_features :=
    has_column "noc" active_df = false \/ rows active_df = [] in
  let no_trends :=
    has_column "medal" athletes_df = true /\ has_column "year" athletes_df = true
    /\ has_column "noc" athletes_df = false in
  let no_sport :=
    has_column "sport" active_df = true
    /\ (has_column "medal" active_df = false
        \/ has_column "athlete_id" active_df = false) in
  let files := fst <$> (export_for_modeling athletes_df active_df).1 in
  let outcome := (export_for_modeling athletes_df active_df).2 in
  (no_features -> files = [] /\ outcome = Raise KeyError)
  /\ (~ no_features -> no_trends ->
      files = ["country_features_2028.csv"] /\ outcome = Raise KeyError)
  /\ (~ no_features -> ~ no_trends -> no_sport ->
      files = ["country_features_2028.csv"; "medal_trends_historical.csv"]
      /\ outcome = Raise KeyError)
  /\ (~ no_features -> ~ no_trends -> ~ no_sport ->
      outcome = Ok ()
      /\ exists features trends strength,
           create_country_features active_df = Ok features
           /\ create_medal_trends athletes_df = Ok trends
           /\ create_sport_strength active_df = Ok strength
           /\ (export_for_modeling athletes_df active_df).1
              = [("country_features_2028.csv", WithIndex features);
                 ("medal_trends_historical.csv", NoIndex trends);
                 ("sport_strength_by_country.csv", NoIndex strength)]).
Proof.
  intros no_features no_trends no_sport files outcome.
  subst files outcome. unfold export_for_modeling.
  assert (no_features -> create_country_features active_df = Raise KeyError)
    as Hf1 by (intros Hno; by apply create_country_features_raises).
  assert (~ no_features -> exists t, create_country_features active_df = Ok t)
    as Hf2.
  { intros Hno. destruct (create_country_features active_df) as [t|e] eqn:Hrun;
      [by exists t|].
    apply create_country_features_raises in Hrun as [_ Hrun]. by destruct Hno. }
  assert (no_trends -> create_medal_trends athletes_df = Raise KeyError)
    as Ht1 by (intros Hno; by apply create_medal_trends_raises).
  assert (~ no_trends -> exists t, create_medal_trends athletes_df = Ok t)
    as Ht2.
  { intros Hno. destruct (create_medal_trends athletes_df) as [t|e] eqn:Hrun;
      [by exists t|].
    apply create_medal_trends_raises in Hrun as [_ Hrun]. by destruct Hno. }
  assert (~ no_features -> no_sport ->
          create_sport_strength active_df = Raise KeyError) as Hs1.
  { intros Hfe [Hsport Hmiss]. apply create_sport_strength_raises.
    split; [done|]. split; [done|]. split; [|done].
    destruct (has_column "noc" active_df); [done|]. destruct Hfe. by left. }
  assert (~ no_sport -> exists t, create_sport_strength active_df = Ok t)
    as Hs2.
  { intros Hno. destruct (create_sport_strength active_df) as [t|e] eqn:Hrun;
      [by exists t|].
    apply create_sport_strength_raises in Hrun as (_ & Hsport & _ & Hmiss).
    by destruct Hno. }
  split; [|split; [|split]].
  - intros Hno. by rewrite (Hf1 Hno).
  - intros Hfe Hno. destruct (Hf2 Hfe) as [t ->]. by rewrite (Ht1 Hno).
  - intros Hfe Htr Hno. destruct (Hf2 Hfe) as [t ->].
    destruct (Ht2 Htr) as [t' ->]. by rewrite (Hs1 Hfe Hno).
  - intros Hfe Htr Hsp. destruct (Hf2 Hfe) as [t ->].
    destruct (Ht2 Htr) as [t' ->]. destruct (Hs2 Hsp) as [t'' ->].
    split; [done|]. by exists t, t', t''.
Qed.

(** ** The year range the validator prints *)



Section ValidatorRange.
Context `{PyRuntime}.


End ValidatorRange.

(** ** The further properties at the sample tables *)



Lemma merged_totals_witness :
  exists st' rep,
    standardize_country_codes (loaded raw_athletes) = Ok (st', rep)
    /\ russia_total rep = Some 1 /\ germany_total rep = Some 1.
Proof.
  destruct (standardize_country_codes (loaded raw_athletes))
    as [[st' rep]|e] eqn:Hrun; [|by vm_compute in Hrun].
  exists st', rep. split; [reflexivity|].
  exact (merged_totals _ _ _ Hrun).
Defined.

Lemma other_codes_kept_witness :
  exists st' rep,
    standardize_country_codes (loaded raw_athletes) = Ok (st', rep)
    /\ filter (fun r : row => cell_of "noc" r = Str "USA") (rows (athletes st'))
       = filter (fun r : row => cell_of "noc" r = Str "USA") (rows raw_athletes).
Proof.
  destruct (standardize_country_codes (loaded raw_athletes))
    as [[st' rep]|e] eqn:Hrun; [|by vm_compute in Hrun].
  exists st', rep. split; [reflexivity|].
  apply (proj1 (other_codes_kept _ _ _ Hrun) "USA").
  apply (bool_decide_unpack _). by vm_compute.
Defined.

Lemma subset_stage_invariants_witness :
  exists st' active rep,
    @create_active_athletes_subset sample_runtime 2020%Z (loaded years_athletes)
    = Ok (st', active, rep)
    /\ active_count rep + inactive_count rep = total_athletes rep
    /\ rows active `sublist_of` rows (athletes st').
Proof.
  destruct (@create_active_athletes_subset sample_runtime 2020%Z
              (loaded years_athletes))
    as [[[st' active] rep]|e] eqn:Hrun; [|by vm_compute in Hrun].
  exists st', active, rep. split; [reflexivity|].
  destruct (subset_stage_invariants _ _ _ _ _ Hrun)
    as (_ & _ & _ & _ & _ & _ & Hsub & _ & _ & Hsum & _).
  split; [exact Hsum|exact Hsub].
Defined.

Lemma subset_monotone_witness :
  (2016 <= 2020)%Z
  /\ exists st1 active1 rep1 st2 active2 rep2,
       @create_active_athletes_subset sample_runtime 2016%Z (loaded years_athletes)
       = Ok (st1, active1, rep1)
       /\ @create_active_athletes_subset sample_runtime 2020%Z (loaded years_athletes)
          = Ok (st2, active2, rep2)
       /\ athletes st1 = athletes st2
       /\ rows active2 `sublist_of` rows active1.
Proof.
  split; [lia|].
  destruct (@create_active_athletes_subset sample_runtime 2016%Z
              (loaded years_athletes))
    as [[[st1 active1] rep1]|e] eqn:Hrun1; [|by vm_compute in Hrun1].
  destruct (@create_active_athletes_subset sample_runtime 2020%Z
              (loaded years_athletes))
    as [[[st2 active2] rep2]|e] eqn:Hrun2; [|by vm_compute in Hrun2].
  exists st1, active1, rep1, st2, active2, rep2.
  split; [reflexivity|]. split; [reflexivity|].
  destruct (subset_monotone 2016%Z 2020%Z _ _ _ _ _ _ _ ltac:(lia) Hrun1 Hrun2)
    as (Hsame & Hsub & _).
  split; [exact Hsame|exact Hsub].
Defined.

Lemma subset_stage_frame_witness :
  exists st' active rep,
    @create_active_athletes_subset sample_runtime 2020%Z (loaded edition_athletes)
    = Ok (st', active, rep)
    /\ column "name" (athletes st') = column "name" edition_athletes
    /\ columns (athletes st') = ["name"; "edition"; "year"].
Proof.
  destruct (@create_active_athletes_subset sample_runtime 2020%Z
              (loaded edition_athletes))
    as [[[st' active] rep]|e] eqn:Hrun; [|by vm_compute in Hrun].
  exists st', active, rep. split; [reflexivity|].
  destruct (subset_stage_frame _ _ _ _ _ Hrun) as [Hother Hcols].
  split; [|exact Hcols].
  apply Hother. apply (bool_decide_unpack _). by vm_compute.
Defined.

Lemma subset_stage_rerun_witness :
  exists st' active rep,
    @create_active_athletes_subset sample_runtime 2020%Z (loaded edition_athletes)
    = Ok (st', active, rep)
    /\ @create_active_athletes_subset sample_runtime 2020%Z st'
       = Ok (st', active, rep).
Proof.
  destruct (@create_active_athletes_subset sample_runtime 2020%Z
              (loaded edition_athletes))
    as [[[st' active] rep]|e] eqn:Hrun; [|by vm_compute in Hrun].
  exists st', active, rep. split; [reflexivity|].
  exact (subset_stage_rerun _ _ _ _ _ Hrun).
Defined.

Lemma pipeline_postcondition_witness :
  exists st,
    @run_full_standardization sample_runtime (loaded raw_athletes) = Ok st
    /\ len (athletes st) <= len raw_athletes
    /\ forall r, r ∈ rows (athletes st) -> cell_of "edition" r <> Str edition_1906.
Proof.
  destruct (@run_full_standardization sample_runtime (loaded raw_athletes))
    as [st|e] eqn:Hrun; [|by vm_compute in Hrun].
  exists st. split; [reflexivity|].
  destruct (pipeline_postcondition _ _ Hrun) as (_ & _ & Hlen & Hclean & _).
  split; [exact Hlen|exact Hclean].
Defined.

Lemma validation_after_code_stage_witness :
  exists st' rep lines,
    standardize_country_codes (loaded raw_athletes) = Ok (st', rep)
    /\ @validate_data_quality sample_runtime st' = Ok lines
    /\ BannedCode "MIX" true ∈ lines.
Proof.
  destruct (standardize_country_codes (loaded raw_athletes))
    as [[st' rep]|e] eqn:Hrun; [|by vm_compute in Hrun].
  destruct (@validate_data_quality sample_runtime st') as [lines|e] eqn:Hcheck.
  - exists st', rep, lines. split; [reflexivity|]. split; [exact Hcheck|].
    apply (proj1 (validation_after_code_stage _ _ _ _ Hrun Hcheck)).
    apply list_elem_of_here.
  - exfalso. vm_compute in Hrun. injection Hrun as <- _.
    by vm_compute in Hcheck.
Defined.

Lemma strength_table_rows_witness :
  exists t,
    create_country_features clean_athletes = Ok t
    /\ NoDup (index t)
    /\ forall r0 code,
         r0 ∈ rows clean_athletes -> cell_of "noc" r0 = Str code ->
         Str code ∈ index t.
Proof.
  destruct (create_country_features clean_athletes) as [t|e] eqn:Hrun;
    [|by vm_compute in Hrun].
  exists t. split; [reflexivity|].
  destruct (strength_table_rows _ _ Hrun) as (Hnodup & Hall & _).
  split; [exact Hnodup|exact Hall].
Defined.

Lemma medal_trends_rows_witness :
  has_column "medal" medal_athletes = true
  /\ has_column "year" medal_athletes = true
  /\ exists t,
       create_medal_trends medal_athletes = Ok t
       /\ columns t = ["year"; "noc"; "medal"; "count"]
       /\ exists counts,
            cell_of "count" <$> rows t = count_of <$> counts
            /\ sum_list counts = 3.
Proof.
  split; [reflexivity|]. split; [reflexivity|].
  destruct (create_medal_trends medal_athletes) as [t|e] eqn:Hrun;
    [|by vm_compute in Hrun].
  exists t. split; [reflexivity|].
  destruct (medal_trends_rows medal_athletes t eq_refl eq_refl Hrun)
    as (Hcols & _ & _ & _ & counts & Hcounts & Hsum).
  split; [exact Hcols|]. exists counts. split; [exact Hcounts|exact Hsum].
Defined.

Lemma sport_strength_rows_witness :
  has_column "sport" medal_athletes = true
  /\ has_column "noc" medal_athletes = true
  /\ exists t,
       create_sport_strength medal_athletes = Ok t
       /\ columns t = ["noc"; "sport"; "medals"; "athletes"].
Proof.
  split; [reflexivity|]. split; [reflexivity|].
  destruct (create_sport_strength medal_athletes) as [t|e] eqn:Hrun;
    [|by vm_compute in Hrun].
  exists t. split; [reflexivity|].
  destruct (sport_strength_rows medal_athletes t eq_refl eq_refl Hrun)
    as (_ & _ & Hcols & _).
  exact Hcols.
Defined.


Lemma cleaned_table_verifies_witness :
  exists st1 rep1 st2 rep2 report,
    @handle_historical_anomalies sample_runtime (loaded raw_athletes) = Ok (st1, rep1)
    /\ standardize_country_codes st1 = Ok (st2, rep2)
    /\ existsb is_str (column "edition" (athletes st2)) = true
    /\ verify_historical_cleaning (athletes st2) = Ok report
    /\ exists rus ger,
         code_checks report
         = Some ([("URS", false); ("GDR", false); ("FRG", false);
                  ("EUN", false); ("MIX", false)],
                 [("RUS", rus); ("GER", ger)]).
Proof.
  destruct (@handle_historical_anomalies sample_runtime (loaded raw_athletes))
    as [[st1 rep1]|e] eqn:Hrun1; [|by vm_compute in Hrun1].
  destruct (standardize_country_codes st1) as [[st2 rep2]|e] eqn:Hrun2.
  - assert (existsb is_str (column "edition" (athletes st2)) = true) as Htext.
    { pose proof Hrun1 as Hst1. vm_compute in Hst1. injection Hst1 as <- _.
      pose proof Hrun2 as Hst2. vm_compute in Hst2. injection Hst2 as <- _.
      reflexivity. }
    destruct (cleaned_table_verifies _ _ _ _ _ Hrun1 Hrun2 Htext)
      as (report & Hreport & _ & _ & Hcodes).
    exists st1, rep1, st2, rep2, report. split; [reflexivity|].
    split; [exact Hrun2|]. split; [exact Htext|]. split; [exact Hreport|].
    destruct Hcodes as (rus & ger & Hcodes & _). by exists rus, ger.
  - exfalso. vm_compute in Hrun1. injection Hrun1 as <- _.
    by vm_compute in Hrun2.
Defined.

Lemma export_outcome_witness :
  (fst <$> (export_for_modeling clean_athletes clean_athletes).1
   = ["country_features_2028.csv"; "medal_trends_historical.csv"])
  /\ (export_for_modeling clean_athletes clean_athletes).2 = Raise KeyError.
Proof.
  apply (export_outcome clean_athletes clean_athletes).
  - intros [Hnoc|Hrows]; discriminate.
  - intros (_ & Hyear & _). discriminate.
  - split; [reflexivity|]. right. reflexivity.
Defined.

